(** * sdm-pack-jenkins: the Jenkins goal executor

    A shallow embedding of [lib/goal/Jenkins.ts].  The executor is an
    asynchronous routine that talks to a Jenkins server, a progress log and
    a build-status webhook.  It is modelled as a computation over the goal
    invocation (the one object the code mutates) that records, in order, every
    call it issues to the outside.  The answers of the outside come from an
    environment record; a promise resolves, rejects or never settles, and a
    wait that is never answered leaves the computation pending. *)

From Stdlib Require Import String Ascii List Bool NArith ZArith Lia PeanoNat DecimalString.
Import ListNotations.
Open Scope string_scope.

Set Implicit Arguments.

(** ** Data model *)

(** [SdmGoalState]: the three members the executor names. *)
Inductive SdmGoalState : Type := success | stopped | failure.

(** The status vocabulary of [updateBuildStatus]. *)
Inductive BuildStatus : Type := started | failed | error | passed | canceled.

(** A JavaScript number as returned by [js.job.build]: a queue id or NaN. *)
Inductive JsNumber : Type := Num (z : Z) | NaN.

Definition isNaN (v : JsNumber) : bool :=
  match v with NaN => true | Num _ => false end.

(** A promise as the executor meets it when it awaits it: resolved,
    rejected, or never settled. *)
Inductive Remote (A : Type) : Type :=
| Resolved (a : A)
| Rejected (reason : string)
| Unsettled.
Arguments Rejected {A} reason.
Arguments Unsettled {A}.

Definition Params : Type := list (string * string).

Record Repo : Type := { owner : string; name : string }.

Record SdmGoalEvent : Type := {
  repo : Repo;
  sha : string;
  branch : string;
  description : string
}.

Record HandlerContext : Type := { workspaceId : string }.

(** [server] of the registration and the object at ['sdm.jenkins']; an absent
    field is [None]. *)
Record ServerOptions : Type := {
  url : option string;
  user : option string;
  password : option string
}.

Record Configuration : Type := { sdm_jenkins : option ServerOptions }.

(** The destructured fields of [gi]; the progress log is the event list. *)
Record GoalInvocation : Type := {
  goalEvent : SdmGoalEvent;
  context : HandlerContext;
  configuration : Configuration
}.

(** A registration field that is either a value or a function of [gi]. *)
Inductive Resolver (T : Type) : Type :=
| Static (v : T)
| Computed (f : GoalInvocation -> Remote T).

Record JenkinsRegistration : Type := {
  job : option (Resolver string);
  convergeOnly : option bool;
  parameters : option (Resolver Params);
  definition : option (Resolver string);
  server : option ServerOptions
}.

(** The [URL] object handed to the Jenkins client: the text it was parsed
    from and the texts its two setters were given. *)
Record URL : Type := {
  href_base : string;
  username : string;
  url_password : string
}.

Record Executable : Type := { number : option N; exe_url : string }.
Record QueueItem : Type := { executable : option Executable }.

(** The value [triggerJob] returns when it does not return [undefined]. *)
Record BuildRef : Type := { id : N; build_ref_url : string }.

Record BuildDetail : Type := { result : option string; detail_url : string }.

Inductive LogEvent : Type :=
| LogData (text : string)
| LogError (err : string)
| LogEnd.

(** The document [updateBuildStatus] posts. *)
Record BuildData : Type := {
  repository : Repo;
  data_name : string;
  data_number : N;
  data_type : string;
  build_url : string;
  status : option BuildStatus;
  commit : string;
  data_branch : string;
  provider : string;
  started_at : option string;
  finished_at : option string
}.

Record ExternalUrl : Type := { label : string; link : string }.

Record ExecuteGoalResult : Type := {
  state : option SdmGoalState;
  result_description : string;
  externalUrls : list ExternalUrl
}.

(** ** The outside world *)

(** Every call the executor issues, in the order it issues them. *)
Inductive Event : Type :=
| Connect (baseUrl : URL)
| JobExists (jobName : string)
| JobConfig (jobName definition : string)
| JobCreate (jobName definition : string)
| JobBuild (jobName : string) (parameters : option Params)
| QueueItemLookup (build : JsNumber)
| Sleep (ms : nat)
| LogStream (jobName : string) (buildId : N)
| BuildGet (jobName : string) (buildId : N)
| ProgressWrite (line : string)
| PostWebhook (kind : string) (data : BuildData) (team : string).

(** The answers of the collaborators.  [queue_item build k] is the answer to
    the [k]-th lookup (counted from 0) of one execution.  [build_logStream]
    gives the events the log stream emits, in order, up to the moment the
    executor resumes from its wait on the stream, or all of them if it never
    does.  [postWebhook] answers with a boolean: whether the event was
    accepted.  The platform functions [URL], [JSON.stringify],
    [serializeResult] and the clock are parameters too. *)
Record Env : Type := {
  job_exists : string -> Remote bool;
  job_config : string -> string -> Remote unit;
  job_create : string -> string -> Remote unit;
  job_build : string -> option Params -> Remote JsNumber;
  queue_item : JsNumber -> nat -> Remote (option QueueItem);
  build_logStream : string -> N -> list LogEvent;
  build_get : string -> N -> Remote BuildDetail;
  postWebhook : string -> BuildData -> string -> Remote bool;
  validURL : string -> bool;
  stringify : Params -> string;
  serializeResult : string -> string;
  toISOString : string
}.

(** ** Computations *)

Inductive Outcome (A : Type) : Type :=
| Returned (a : A)
| Thrown (err : string)
| Pending.
Arguments Thrown {A} err.
Arguments Pending {A}.

Record Run (A : Type) : Type := mkRun {
  events : list Event;
  invocation : GoalInvocation;
  outcome : Outcome A
}.

Definition M (A : Type) : Type := GoalInvocation -> Run A.

Definition ret {A} (a : A) : M A := fun gi => mkRun [] gi (Returned a).

Definition bind {A B} (m : M A) (k : A -> M B) : M B :=
  fun gi =>
    let r := m gi in
    match outcome r with
    | Returned a =>
        let r' := k a (invocation r) in
        mkRun (events r ++ events r') (invocation r') (outcome r')
    | Thrown e => mkRun (events r) (invocation r) (Thrown e)
    | Pending => mkRun (events r) (invocation r) Pending
    end.

Declare Scope js_scope.
Delimit Scope js_scope with js.
Notation "x <- m ;; k" := (bind m (fun x => k))
  (at level 100, m at next level, right associativity) : js_scope.
Notation "m ;; k" := (bind m (fun _ => k))
  (at level 100, right associativity) : js_scope.
Open Scope js_scope.

Definition throw {A} (e : string) : M A := fun gi => mkRun [] gi (Thrown e).
Definition pending {A} : M A := fun gi => mkRun [] gi Pending.
Definition emit (e : Event) : M unit := fun gi => mkRun [e] gi (Returned tt).
Definition getInvocation : M GoalInvocation := fun gi => mkRun [] gi (Returned gi).
Definition setInvocation (gi' : GoalInvocation) : M unit :=
  fun _ => mkRun [] gi' (Returned tt).

(** [await p] *)
Definition await {A} (p : Remote A) : M A :=
  match p with
  | Resolved a => ret a
  | Rejected e => throw e
  | Unsettled => pending
  end.

(** A remote call: the call is issued, then its promise is awaited. *)
Definition call {A} (e : Event) (p : Remote A) : M A := emit e ;; await p.

(** [progressLog.write(format, ...args)]; [line] is the text after the
    directives [%s] and [%j] of the format were replaced by the arguments. *)
Definition progressLog_write (line : string) : M unit := emit (ProgressWrite line).

(** ** Helpers of the platform *)

(** [codeLine] of slack-messages wraps its argument in backticks, and gives
    the empty text for an empty argument. *)
Definition codeLine (text : string) : string :=
  if String.eqb text "" then "" else "`" ++ text ++ "`".

(** The text a setter of [URL] is given for the value assigned to it:
    [undefined] is converted to the text "undefined". *)
Definition setterText (v : option string) : string :=
  match v with
  | Some s => s
  | None => "undefined"
  end.

(** [String(n)] of a non-negative integer. *)
Definition showN (n : N) : string := NilZero.string_of_uint (N.to_uint n).

(** [!s] for an optional string: absent and empty are falsy. *)
Definition falsy (s : option string) : bool :=
  match s with
  | None => true
  | Some v => String.eqb v ""
  end.

(** [_.merge] on one field: a source value that is not [undefined] is
    assigned over the destination's. *)
Definition mergeField (dst src : option string) : option string :=
  match src with
  | Some v => Some v
  | None => dst
  end.

Definition mergeSource (dst : ServerOptions) (src : option ServerOptions) : ServerOptions :=
  match src with
  | None => dst
  | Some s =>
      {| url := mergeField (url dst) (url s);
         user := mergeField (user dst) (user s);
         password := mergeField (password dst) (password s) |}
  end.

(** [_.merge({}, a, b)]: sources are applied left to right. *)
Definition merge (a b : option ServerOptions) : ServerOptions :=
  mergeSource (mergeSource {| url := None; user := None; password := None |} a) b.

Definition showState (s : option SdmGoalState) : string :=
  match s with
  | Some success => "success"
  | Some stopped => "stopped"
  | Some failure => "failure"
  | None => "undefined"
  end.

Definition showStatus (s : option BuildStatus) : string :=
  match s with
  | Some started => "started"
  | Some failed => "failed"
  | Some error => "error"
  | Some passed => "passed"
  | Some canceled => "canceled"
  | None => "undefined"
  end.

Definition isStarted (s : option BuildStatus) : bool :=
  match s with
  | Some started => true
  | _ => false
  end.

(** ** The functions of [Jenkins.ts] *)

(** [!!registration.job] and [!!registration.definition]: a function is
    truthy, a string is truthy unless it is empty. *)
Definition truthy (r : option (Resolver string)) : option (Resolver string) :=
  match r with
  | Some (Static s) => if String.eqb s "" then None else r
  | _ => r
  end.

Definition getJobName (registration : JenkinsRegistration) : M string :=
  gi <- getInvocation ;;
  match truthy (job registration) with
  | Some (Static s) => ret s
  | Some (Computed f) => await (f gi)
  | None => ret (name (repo (goalEvent gi)))
  end.

Definition getParameters (registration : JenkinsRegistration) : M (option Params) :=
  gi <- getInvocation ;;
  match parameters registration with
  | Some (Computed f) => p <- await (f gi) ;; ret (Some p)
  | Some (Static p) => ret (Some p)
  | None => ret None
  end.

Definition createOrUpdateJob (env : Env) (jobName : string)
    (registration : JenkinsRegistration) : M unit :=
  gi <- getInvocation ;;
  match truthy (definition registration) with
  | Some r =>
      definition <- match r with
                    | Static d => ret d
                    | Computed f => await (f gi)
                    end ;;
      exists_ <- call (JobExists jobName) (job_exists env jobName) ;;
      (if exists_ : bool
       then call (JobConfig jobName definition) (job_config env jobName definition)
       else call (JobCreate jobName definition) (job_create env jobName definition)) ;;
      progressLog_write "/--" ;;
      progressLog_write ("Updating definition of Jenkins job '" ++ jobName ++ "'") ;;
      progressLog_write "\--"
  | None =>
      progressLog_write "/--" ;;
      progressLog_write ("Not updating definition of Jenkins job '" ++ jobName
                         ++ "' as no definition was provided.") ;;
      progressLog_write "\--"
  end.

(** The exit test of the [do ... while] of [triggerJob], together with the
    value returned after the loop: [None] while
    [!item || !item.executable || !item.executable.number] holds. *)
Definition running (item : option QueueItem) : option BuildRef :=
  match item with
  | None => None
  | Some it =>
      match executable it with
      | None => None
      | Some ex =>
          match number ex with
          | None => None
          | Some n => if N.eqb n 0 then None
                      else Some {| id := n; build_ref_url := exe_url ex |}
          end
      end
  end.

(** The [do ... while] loop; [k] counts the lookups already made.  The loop
    of the source has no bound: [fuel] bounds the lookups of the model, and a
    run that exhausts it is still waiting. *)
Fixpoint waitForBuild (env : Env) (build : JsNumber) (fuel k : nat) : M BuildRef :=
  match fuel with
  | O => pending
  | S fuel' =>
      item <- call (QueueItemLookup build) (queue_item env build k) ;;
      emit (Sleep 500) ;;
      match running item with
      | None => waitForBuild env build fuel' (S k)
      | Some ref => ret ref
      end
  end.

Definition triggerJob (env : Env) (fuel : nat) (jobName : string)
    (parameters : option Params) : M (option BuildRef) :=
  build <- call (JobBuild jobName parameters) (job_build env jobName parameters) ;;
  if isNaN build then ret None
  else ref <- waitForBuild env build fuel 0 ;; ret (Some ref).

(** The [data] object of [updateBuildStatus]. *)
Definition buildData (env : Env) (status : option BuildStatus)
    (sdmGoal : SdmGoalEvent) (url : string) (buildNo : N) : BuildData :=
  {| repository := {| owner := owner (repo sdmGoal); name := name (repo sdmGoal) |};
     data_name := "Build #" ++ showN buildNo;
     data_number := buildNo;
     data_type := "push";
     build_url := url;
     status := status;
     commit := sha sdmGoal;
     data_branch := branch sdmGoal;
     provider := "jenkins";
     started_at := if isStarted status then Some (toISOString env) else None;
     finished_at := if isStarted status then None else Some (toISOString env) |}.

Definition updateBuildStatus (env : Env) (status : option BuildStatus)
    (sdmGoal : SdmGoalEvent) (url : string) (buildNo : N) (team : string) : M bool :=
  let data := buildData env status sdmGoal url buildNo in
  call (PostWebhook "build" data team) (postWebhook env "build" data team).

(** The [switch (result.result)] of [executeJenkins]: the pair
    [(status, state)], each left [undefined] when no case matches. *)
Definition mapOutcome (code : option string) : option BuildStatus * option SdmGoalState :=
  match code with
  | Some c =>
      if String.eqb c "SUCCESS" then (Some passed, Some success)
      else if String.eqb c "ABORTED" then (Some canceled, Some stopped)
      else if String.eqb c "FAILURE" then (Some failed, Some failure)
      else (None, None)
  | None => (None, None)
  end.

(** The three handlers of the log stream, run on the events of the stream.
    The handlers are never detached: a chunk or an error that comes after the
    ["end"] event is written like one that comes before it.  [resolved] tells
    whether [deferred] has been resolved. *)
Fixpoint logHandlers (env : Env) (log : list LogEvent) (resolved : bool) : M bool :=
  match log with
  | [] => ret resolved
  | LogData text :: rest => progressLog_write text ;; logHandlers env rest resolved
  | LogError err :: rest =>
      progressLog_write (serializeResult env err) ;; logHandlers env rest resolved
  | LogEnd :: rest => logHandlers env rest true
  end.

(** [await deferred.promise]: a stream that never signals its end leaves the
    executor waiting. *)
Definition awaitLogStream (env : Env) (log : list LogEvent) : M unit :=
  resolved <- logHandlers env log false ;;
  if resolved : bool then ret tt else pending.

(** The invocation after [goalEvent.description = d]. *)
Definition withDescription (d : string) (gi : GoalInvocation) : GoalInvocation :=
  {| goalEvent := {| repo := repo (goalEvent gi);
                     sha := sha (goalEvent gi);
                     branch := branch (goalEvent gi);
                     description := d |};
     context := context gi;
     configuration := configuration gi |}.

Definition setDescription (d : string) : M unit :=
  gi <- getInvocation ;;
  setInvocation (withDescription d gi).

(** [item.id || "<unkown>"] *)
Definition showId (n : N) : string :=
  if N.eqb n 0 then "<unkown>" else showN n.

Definition executeJenkins (env : Env) (fuel : nat)
    (registration : JenkinsRegistration) : M ExecuteGoalResult :=
  gi <- getInvocation ;;
  let server := merge (server registration) (sdm_jenkins (configuration gi)) in
  match (if falsy (url server) then None else url server) with
  | None =>
      throw "Jenkins server configuration incomplete. Please configure your server url at 'sdm.jenkins.url'"
  | Some server_url =>
      (if validURL env server_url then ret tt else throw "TypeError: Invalid URL") ;;
      let url := {| href_base := server_url;
                    username := setterText (user server);
                    url_password := setterText (password server) |} in
      emit (Connect url) ;;
      jobName <- getJobName registration ;;
      parameters <- getParameters registration ;;
      setDescription ("Jenkins " ++ codeLine jobName) ;;
      createOrUpdateJob env jobName registration ;;
      match convergeOnly registration with
      | Some true =>
          progressLog_write "/--" ;;
          progressLog_write ("Not starting Jenkins job '" ++ jobName ++ "'") ;;
          progressLog_write "\--" ;;
          ret {| state := Some success;
                 result_description := "Jenkins " ++ codeLine jobName ++ " converged";
                 externalUrls := [] |}
      | _ =>
          progressLog_write "/--" ;;
          progressLog_write ("Starting Jenkins job '" ++ jobName ++ "' with parameters '"
                             ++ stringify env (match parameters with Some p => p | None => [] end)
                             ++ "'") ;;
          progressLog_write "\--" ;;
          item <- triggerJob env fuel jobName parameters ;;
          match item with
          | Some item =>
              progressLog_write "/--" ;;
              progressLog_write ("Jenkins job '" ++ jobName ++ "' started with build id '"
                                 ++ showId (id item) ++ "'") ;;
              progressLog_write "\--" ;;
              gi1 <- getInvocation ;;
              updateBuildStatus env (Some started) (goalEvent gi1) (build_ref_url item)
                (id item) (workspaceId (context gi1)) ;;
              emit (LogStream jobName (id item)) ;;
              awaitLogStream env (build_logStream env jobName (id item)) ;;
              detail <- call (BuildGet jobName (id item)) (build_get env jobName (id item)) ;;
              let '(status, state) := mapOutcome (result detail) in
              progressLog_write "/--" ;;
              progressLog_write ("Jenkins job '" ++ jobName ++ "' completed with "
                                 ++ showState state) ;;
              progressLog_write "\--" ;;
              gi2 <- getInvocation ;;
              updateBuildStatus env status (goalEvent gi2) (build_ref_url item)
                (id item) (workspaceId (context gi2)) ;;
              ret {| state := state;
                     result_description :=
                       "Jenkins " ++ codeLine jobName ++ " " ++ showStatus status;
                     externalUrls := [ {| label := "Log"; link := detail_url detail |} ] |}
          | None =>
              ret {| state := Some success;
                     result_description := "Jenkins " ++ codeLine jobName ++ " triggered";
                     externalUrls := [] |}
          end
      end
  end.

(** ** Progress tests *)

(** A string of the model holds the UTF-8 bytes of the JavaScript string.
    The [.] of JavaScript matches any character but a line terminator: LF,
    CR, U+2028 and U+2029; the last two are the byte sequences E2 80 A8 and
    E2 80 A9.  [Scan] tells how much of such a sequence the bytes read last
    make up. *)
Inductive Scan : Type := Clear | AfterE2 | AfterE280.

Definition lineBreak (c : ascii) : bool :=
  orb (Ascii.eqb c "010"%char) (Ascii.eqb c "013"%char).

(** One more byte under [.*]: [None] when it completes a line terminator. *)
Definition scan (q : Scan) (c : ascii) : option Scan :=
  if lineBreak c then None
  else if Ascii.eqb c "226"%char then Some AfterE2
  else match q with
       | Clear => Some Clear
       | AfterE2 => if Ascii.eqb c "128"%char then Some AfterE280 else Some Clear
       | AfterE280 =>
           if orb (Ascii.eqb c "168"%char) (Ascii.eqb c "169"%char) then None
           else Some Clear
       end.

(** Regular expressions over byte strings, as far as the patterns of
    [JenkinsProgressTests] need them.  [DotStar Clear] is the [.*] of
    JavaScript, and [DotStar q] what is left of it after bytes that led the
    scan to [q]; [Any] is any byte at all and only serves the unanchored
    search of [RegExp.prototype.test]. *)
Inductive regex : Type :=
| Fail
| Eps
| Chr (c : ascii)
| DotStar (q : Scan)
| Any
| Cat (r s : regex)
| Alt (r s : regex)
| Star (r : regex).

Fixpoint Lit (s : string) : regex :=
  match s with
  | EmptyString => Eps
  | String c s' => Cat (Chr c) (Lit s')
  end.

Definition Opt (r : regex) : regex := Alt r Eps.

Record RegExp : Type := { source : regex; ignoreCase : bool }.

Definition lower (c : ascii) : ascii :=
  let n := nat_of_ascii c in
  if andb (Nat.leb 65 n) (Nat.leb n 90) then ascii_of_nat (n + 32) else c.

Definition sameChar (i : bool) (a c : ascii) : bool :=
  if i then Ascii.eqb (lower a) (lower c) else Ascii.eqb a c.

Fixpoint nullable (r : regex) : bool :=
  match r with
  | Fail | Chr _ | Any => false
  | Eps | DotStar _ | Star _ => true
  | Cat r s => andb (nullable r) (nullable s)
  | Alt r s => orb (nullable r) (nullable s)
  end.

Definition mkCat (r s : regex) : regex :=
  match r with
  | Fail => Fail
  | Eps => s
  | _ => Cat r s
  end.

Definition mkAlt (r s : regex) : regex :=
  match r, s with
  | Fail, _ => s
  | _, Fail => r
  | _, _ => Alt r s
  end.

(** Brzozowski derivative of [r] by the character [c]. *)
Fixpoint deriv (i : bool) (c : ascii) (r : regex) : regex :=
  match r with
  | Fail | Eps => Fail
  | Chr a => if sameChar i a c then Eps else Fail
  | DotStar q => match scan q c with Some q' => DotStar q' | None => Fail end
  | Any => Eps
  | Cat r s =>
      if nullable r then mkAlt (mkCat (deriv i c r) s) (deriv i c s)
      else mkCat (deriv i c r) s
  | Alt r s => mkAlt (deriv i c r) (deriv i c s)
  | Star r => mkCat (deriv i c r) (Star r)
  end.

Fixpoint matches (i : bool) (r : regex) (s : string) : bool :=
  match s with
  | EmptyString => nullable r
  | String c s' => matches i (deriv i c r) s'
  end.

(** [re.test(s)]: some substring of [s] matches. *)
Definition test (re : RegExp) (s : string) : bool :=
  matches (ignoreCase re) (Cat (Star Any) (Cat (source re) (Star Any))) s.

Record ProgressTest : Type := { pattern : RegExp; phase : string }.

Definition JenkinsProgressTests : list ProgressTest :=
  [ {| pattern := {| source := Lit "Starting Jenkins job"; ignoreCase := true |};
       phase := "queued" |};
    {| pattern := {| source := Cat (Lit "Jenkins job '") (Cat (DotStar Clear) (Lit "' started"));
                     ignoreCase := true |};
       phase := "started" |};
    {| pattern := {| source := Cat (Lit "[Pipeline] { (")
                                 (Cat (Opt (Lit "Declarative: "))
                                    (Cat (DotStar Clear) (Lit ")")));
                     ignoreCase := true |};
       phase := "$1" |};
    {| pattern := {| source := Lit "Jenkins job '%s' complated with"; ignoreCase := true |};
       phase := "completed" |} ].

(** The phases whose test matches a line. *)
Definition phasesOf (line : string) : list string :=
  map phase (filter (fun t => test (pattern t) line) JenkinsProgressTests).

(** ** Observations on a run *)

Definition isLookup (e : Event) : bool :=
  match e with QueueItemLookup _ => true | _ => false end.

Definition isTrigger (e : Event) : bool :=
  match e with JobBuild _ _ => true | _ => false end.

Definition isProgress (e : Event) : bool :=
  match e with ProgressWrite _ => true | _ => false end.

Definition isWrite (e : Event) : bool :=
  match e with JobConfig _ _ | JobCreate _ _ => true | _ => false end.

Definition isWebhook (e : Event) : bool :=
  match e with PostWebhook _ _ _ => true | _ => false end.

(** Events after the trigger that follow a build: lookups, log streaming,
    the fetch of the terminal detail and the status reports. *)
Definition followsBuild (e : Event) : bool :=
  match e with
  | QueueItemLookup _ | LogStream _ _ | BuildGet _ _ | PostWebhook _ _ _ => true
  | _ => false
  end.

(** The documents posted to the status backend, in order. *)
Fixpoint webhooks (evs : list Event) : list BuildData :=
  match evs with
  | [] => []
  | PostWebhook _ d _ :: rest => d :: webhooks rest
  | _ :: rest => webhooks rest
  end.

(** The lines written to the progress log, in order. *)
Fixpoint progressLines (evs : list Event) : list string :=
  match evs with
  | [] => []
  | ProgressWrite l :: rest => l :: progressLines rest
  | _ :: rest => progressLines rest
  end.

(** The URL objects the Jenkins client was created with. *)
Fixpoint connections (evs : list Event) : list URL :=
  match evs with
  | [] => []
  | Connect u :: rest => u :: connections rest
  | _ :: rest => connections rest
  end.

(** A queue item that carries the number of an executable build; Jenkins
    numbers builds from 1. *)
Definition carriesBuildNumber (item : option QueueItem) : bool :=
  match item with
  | Some {| executable := Some {| number := Some n |} |} => negb (N.eqb n 0)
  | _ => false
  end.

(** The definition a registration supplies for an invocation, if any: a
    non-empty document or the promise of a resolver function. *)
Definition suppliedDefinition (registration : JenkinsRegistration) (gi : GoalInvocation)
  : option (Remote string) :=
  match definition registration with
  | Some (Static d) => if String.eqb d "" then None else Some (Resolved d)
  | Some (Computed f) => Some (f gi)
  | None => None
  end.

(** The build a status document reports on. *)
Definition refOf (d : BuildData) : N * string := (data_number d, build_url d).


(** ** A concrete execution

    Repository [app], no job name in the registration; the trigger is
    acknowledged with queue id 42, the first two queue lookups show no
    executable and the third shows build 7; the log stream delivers two
    chunks and ends; the build detail reports [SUCCESS]. *)

Definition scenario_env : Env :=
  {| job_exists := fun _ => Resolved true;
     job_config := fun _ _ => Resolved tt;
     job_create := fun _ _ => Resolved tt;
     job_build := fun _ _ => Resolved (Num 42);
     queue_item := fun _ k =>
       Resolved (Some {| executable :=
                           if Nat.ltb k 2 then None
                           else Some {| number := Some 7%N;
                                        exe_url := "http://ci/job/app/7/" |} |});
     build_logStream := fun _ _ => [LogData "Building"; LogData "Finished"; LogEnd];
     build_get := fun _ _ =>
       Resolved {| result := Some "SUCCESS"; detail_url := "http://ci/job/app/7/" |};
     postWebhook := fun _ _ _ => Resolved true;
     validURL := fun _ => true;
     stringify := fun _ => "{}";
     serializeResult := fun e => e;
     toISOString := "2019-05-01T10:00:00.000Z" |}.

Definition scenario_server : ServerOptions :=
  {| url := Some "http://ci:8080"; user := Some "admin"; password := Some "123456" |}.

Definition scenario_registration : JenkinsRegistration :=
  {| job := None; convergeOnly := None; parameters := None; definition := None;
     server := Some scenario_server |}.

Definition scenario_invocation : GoalInvocation :=
  {| goalEvent := {| repo := {| owner := "atomist"; name := "app" |};
                     sha := "2d680bec"; branch := "master";
                     description := "Planned: jenkins" |};
     context := {| workspaceId := "T29E48P34" |};
     configuration := {| sdm_jenkins := None |} |}.

(** The same registration in converge-only mode, with a definition. *)
Definition converge_registration : JenkinsRegistration :=
  {| job := None; convergeOnly := Some true; parameters := None;
     definition := Some (Static "<flow-definition/>");
     server := Some scenario_server |}.

(** A server that declines the trigger: the acknowledgment is NaN. *)
Definition declining_env : Env :=
  {| job_exists := job_exists scenario_env;
     job_config := job_config scenario_env;
     job_create := job_create scenario_env;
     job_build := fun _ _ => Resolved NaN;
     queue_item := queue_item scenario_env;
     build_logStream := build_logStream scenario_env;
     build_get := build_get scenario_env;
     postWebhook := postWebhook scenario_env;
     validURL := validURL scenario_env;
     stringify := stringify scenario_env;
     serializeResult := serializeResult scenario_env;
     toISOString := toISOString scenario_env |}.


Definition configured_invocation : GoalInvocation :=
  {| goalEvent := goalEvent scenario_invocation;
     context := context scenario_invocation;
     configuration :=
       {| sdm_jenkins := Some {| url := Some "http://shared-ci:8080";
                                 user := Some "sdm";
                                 password := Some "secret" |} |} |}.

(** ** The phases of [executeJenkins]

    The body of [executeJenkins] cut at its two branches, as separate
    computations.  [executeJenkins_phases] below shows that the executor is
    their composition; they serve the proofs only. *)

(** From the start to the call of [createOrUpdateJob]. *)
Definition prepare (env : Env) (registration : JenkinsRegistration)
  : M (string * option Params) :=
  gi <- getInvocation ;;
  let server := merge (server registration) (sdm_jenkins (configuration gi)) in
  match (if falsy (url server) then None else url server) with
  | None =>
      throw "Jenkins server configuration incomplete. Please configure your server url at 'sdm.jenkins.url'"
  | Some server_url =>
      (if validURL env server_url then ret tt else throw "TypeError: Invalid URL") ;;
      emit (Connect {| href_base := server_url;
                       username := setterText (user server);
                       url_password := setterText (password server) |}) ;;
      jobName <- getJobName registration ;;
      parameters <- getParameters registration ;;
      setDescription ("Jenkins " ++ codeLine jobName) ;;
      createOrUpdateJob env jobName registration ;;
      ret (jobName, parameters)
  end.

(** The [else] branch: [convergeOnly] is [true]. *)
Definition notStarting (jobName : string) : M ExecuteGoalResult :=
  progressLog_write "/--" ;;
  progressLog_write ("Not starting Jenkins job '" ++ jobName ++ "'") ;;
  progressLog_write "\--" ;;
  ret {| state := Some success;
         result_description := "Jenkins " ++ codeLine jobName ++ " converged";
         externalUrls := [] |}.

(** The block guarded by [if (!!item)]. *)
Definition followBuild (env : Env) (jobName : string) (item : BuildRef)
  : M ExecuteGoalResult :=
  progressLog_write "/--" ;;
  progressLog_write ("Jenkins job '" ++ jobName ++ "' started with build id '"
                     ++ showId (id item) ++ "'") ;;
  progressLog_write "\--" ;;
  gi1 <- getInvocation ;;
  updateBuildStatus env (Some started) (goalEvent gi1) (build_ref_url item)
    (id item) (workspaceId (context gi1)) ;;
  emit (LogStream jobName (id item)) ;;
  awaitLogStream env (build_logStream env jobName (id item)) ;;
  detail <- call (BuildGet jobName (id item)) (build_get env jobName (id item)) ;;
  let '(status, state) := mapOutcome (result detail) in
  progressLog_write "/--" ;;
  progressLog_write ("Jenkins job '" ++ jobName ++ "' completed with "
                     ++ showState state) ;;
  progressLog_write "\--" ;;
  gi2 <- getInvocation ;;
  updateBuildStatus env status (goalEvent gi2) (build_ref_url item)
    (id item) (workspaceId (context gi2)) ;;
  ret {| state := state;
         result_description := "Jenkins " ++ codeLine jobName ++ " " ++ showStatus status;
         externalUrls := [ {| label := "Log"; link := detail_url detail |} ] |}.

(** The branch [registration.convergeOnly !== true]. *)
Definition startJob (env : Env) (fuel : nat) (jobName : string)
    (parameters : option Params) : M ExecuteGoalResult :=
  progressLog_write "/--" ;;
  progressLog_write ("Starting Jenkins job '" ++ jobName ++ "' with parameters '"
                     ++ stringify env (match parameters with Some p => p | None => [] end)
                     ++ "'") ;;
  progressLog_write "\--" ;;
  item <- triggerJob env fuel jobName parameters ;;
  match item with
  | Some item => followBuild env jobName item
  | None =>
      ret {| state := Some success;
             result_description := "Jenkins " ++ codeLine jobName ++ " triggered";
             externalUrls := [] |}
  end.

(** ** Predicates on computations *)

(** Every event of every run of [m] passes the test [p]. *)
Definition Emits {A} (p : Event -> bool) (m : M A) : Prop :=
  forall gi, forallb p (events (m gi)) = true.

(** No run of [m] touches the invocation. *)
Definition Unchanged {A} (m : M A) : Prop :=
  forall gi, invocation (m gi) = gi.

(** How a computation ends when the computation it waits for has not
    returned. *)
Definition unfinished {A B} (o : Outcome A) : Outcome B :=
  match o with
  | Thrown e => Thrown e
  | _ => Pending
  end.

(** A run with events put in front of it. *)
Definition after {A} (evs : list Event) (r : Run A) : Run A :=
  mkRun (evs ++ events r) (invocation r) (outcome r).

(** Neither the trigger nor anything that follows a build. *)
Definition preparatory (e : Event) : bool := negb (isTrigger e || followsBuild e).

(** Lookups of the queue and the pauses between them. *)
Definition isPolling (e : Event) : bool :=
  match e with QueueItemLookup _ | Sleep _ => true | _ => false end.

(** What [followBuild] may issue for the build [buildId] of job [jobName]. *)
Definition followsOnly (jobName : string) (buildId : N) (e : Event) : bool :=
  match e with
  | ProgressWrite _ | PostWebhook _ _ _ => true
  | LogStream j b | BuildGet j b => String.eqb j jobName && N.eqb b buildId
  | _ => false
  end.

(** The calls that report on a build or fetch from it. *)
Definition reportsBuild (e : Event) : bool :=
  match e with
  | LogStream _ _ | BuildGet _ _ | PostWebhook _ _ _ => true
  | _ => false
  end.

(** The three lines [startJob] writes before the trigger. *)
Definition startLines (env : Env) (jobName : string) (parameters : option Params)
  : list Event :=
  [ ProgressWrite "/--";
    ProgressWrite ("Starting Jenkins job '" ++ jobName ++ "' with parameters '"
                   ++ stringify env (match parameters with Some p => p | None => [] end)
                   ++ "'");
    ProgressWrite "\--" ].

(** The result of an execution whose trigger was declined. *)
Definition triggered (jobName : string) : ExecuteGoalResult :=
  {| state := Some success;
     result_description := "Jenkins " ++ codeLine jobName ++ " triggered";
     externalUrls := [] |}.

(** The result of a converge-only execution. *)
Definition converged (jobName : string) : ExecuteGoalResult :=
  {| state := Some success;
     result_description := "Jenkins " ++ codeLine jobName ++ " converged";
     externalUrls := [] |}.

(** The result of an execution that followed a build to its end. *)
Definition completed (jobName : string) (detail : BuildDetail) : ExecuteGoalResult :=
  {| state := snd (mapOutcome (result detail));
     result_description :=
       "Jenkins " ++ codeLine jobName ++ " " ++ showStatus (fst (mapOutcome (result detail)));
     externalUrls := [ {| label := "Log"; link := detail_url detail |} ] |}.

(** ** Meaning of the regular expressions *)

(** The bytes [w] complete no line terminator when read from the scan [q]. *)
Fixpoint accepts (q : Scan) (w : string) : bool :=
  match w with
  | EmptyString => true
  | String c w' =>
      match scan q c with
      | Some q' => accepts q' w'
      | None => false
      end
  end.

(** [Denotes i r w]: the whole of [w] is matched by [r], with case ignored
    when [i] is set. *)
Inductive Denotes (i : bool) : regex -> string -> Prop :=
| DenotesEps : Denotes i Eps ""
| DenotesChr a c : sameChar i a c = true -> Denotes i (Chr a) (String c "")
| DenotesDotStar q w : accepts q w = true -> Denotes i (DotStar q) w
| DenotesAny c : Denotes i Any (String c "")
| DenotesCat r s u v : Denotes i r u -> Denotes i s v -> Denotes i (Cat r s) (u ++ v)
| DenotesAltL r s u : Denotes i r u -> Denotes i (Alt r s) u
| DenotesAltR r s u : Denotes i s u -> Denotes i (Alt r s) u
| DenotesStarNil r : Denotes i (Star r) ""
| DenotesStarApp r u v :
    Denotes i r u -> Denotes i (Star r) v -> Denotes i (Star r) (u ++ v).

(** [c] occurs in [s]. *)
Fixpoint hasChar (c : ascii) (s : string) : bool :=
  match s with
  | EmptyString => false
  | String a s' => Ascii.eqb a c || hasChar c s'
  end.

(** [s] begins with the bytes that complete U+2028 or U+2029 after the
    bytes that led the scan to [q]. *)
Definition completes (q : Scan) (s : string) : bool :=
  match q with
  | Clear => false
  | AfterE2 =>
      match s with
      | String d (String e _) =>
          Ascii.eqb d "128"%char && (Ascii.eqb e "168"%char || Ascii.eqb e "169"%char)
      | _ => false
      end
  | AfterE280 =>
      match s with
      | String e _ => Ascii.eqb e "168"%char || Ascii.eqb e "169"%char
      | _ => false
      end
  end.

(** [s] has a line terminator of JavaScript in it: LF, CR, U+2028 or
    U+2029. *)
Fixpoint hasLineTerminator (s : string) : bool :=
  match s with
  | EmptyString => false
  | String a s' =>
      lineBreak a || (Ascii.eqb a "226"%char && completes AfterE2 s')
      || hasLineTerminator s'
  end.

(** [found] occurs in [s]. *)
Definition occursIn (found s : string) : Prop :=
  exists before behind, s = before ++ found ++ behind.

(** ** Announcements and forwarded lines *)

(** An announcement between its two marker lines. *)
Definition framed (line : string) : list Event :=
  [ ProgressWrite "/--"; ProgressWrite line; ProgressWrite "\--" ].

(** The announcements of [executeJenkins], as it formats them. *)
Definition startingLine (env : Env) (jobName : string) (parameters : option Params) : string :=
  "Starting Jenkins job '" ++ jobName ++ "' with parameters '"
  ++ stringify env (match parameters with Some p => p | None => [] end) ++ "'".

Definition startedLine (jobName : string) (buildId : N) : string :=
  "Jenkins job '" ++ jobName ++ "' started with build id '" ++ showId buildId ++ "'".

Definition completedLine (jobName : string) (state : option SdmGoalState) : string :=
  "Jenkins job '" ++ jobName ++ "' completed with " ++ showState state.

(** What the handlers of the log stream write for the events of a stream:
    a chunk as it is, an error serialized, nothing for the end. *)
Fixpoint forwarded (env : Env) (log : list LogEvent) : list Event :=
  match log with
  | [] => []
  | LogData text :: rest => ProgressWrite text :: forwarded env rest
  | LogError err :: rest => ProgressWrite (serializeResult env err) :: forwarded env rest
  | LogEnd :: rest => forwarded env rest
  end.

Definition isEnd (e : LogEvent) : bool :=
  match e with LogEnd => true | _ => false end.

(** An event that names a job names [jobName]. *)
Definition namesJob (jobName : string) (e : Event) : bool :=
  match e with
  | JobExists j | JobConfig j _ | JobCreate j _ | JobBuild j _
  | LogStream j _ | BuildGet j _ => String.eqb j jobName
  | _ => true
  end.

(** What may come after the trigger: polling of the queue, lines on the
    progress log and the calls that report on the build. *)
Definition afterTrigger (e : Event) : bool :=
  isPolling e || isProgress e || reportsBuild e.

(** ** More concrete executions *)

(** A queue that never shows an executable. *)
Definition stalled_env : Env :=
  {| job_exists := job_exists scenario_env;
     job_config := job_config scenario_env;
     job_create := job_create scenario_env;
     job_build := job_build scenario_env;
     queue_item := fun _ _ => Resolved (Some {| executable := None |});
     build_logStream := build_logStream scenario_env;
     build_get := build_get scenario_env;
     postWebhook := postWebhook scenario_env;
     validURL := validURL scenario_env;
     stringify := stringify scenario_env;
     serializeResult := serializeResult scenario_env;
     toISOString := toISOString scenario_env |}.

(** A queue whose second lookup fails. *)
Definition failing_queue_env : Env :=
  {| job_exists := job_exists scenario_env;
     job_config := job_config scenario_env;
     job_create := job_create scenario_env;
     job_build := job_build scenario_env;
     queue_item := fun _ k =>
       if Nat.eqb k 1 then Rejected "ECONNRESET"
       else Resolved (Some {| executable := None |});
     build_logStream := build_logStream scenario_env;
     build_get := build_get scenario_env;
     postWebhook := postWebhook scenario_env;
     validURL := validURL scenario_env;
     stringify := stringify scenario_env;
     serializeResult := serializeResult scenario_env;
     toISOString := toISOString scenario_env |}.

(** A build that ends with a result code the executor does not know. *)
Definition unstable_env : Env :=
  {| job_exists := job_exists scenario_env;
     job_config := job_config scenario_env;
     job_create := job_create scenario_env;
     job_build := job_build scenario_env;
     queue_item := queue_item scenario_env;
     build_logStream := build_logStream scenario_env;
     build_get := fun _ _ =>
       Resolved {| result := Some "UNSTABLE"; detail_url := "http://ci/job/app/7/" |};
     postWebhook := postWebhook scenario_env;
     validURL := validURL scenario_env;
     stringify := stringify scenario_env;
     serializeResult := serializeResult scenario_env;
     toISOString := toISOString scenario_env |}.

(** A log stream that breaks off without an end. *)
Definition endless_env : Env :=
  {| job_exists := job_exists scenario_env;
     job_config := job_config scenario_env;
     job_create := job_create scenario_env;
     job_build := job_build scenario_env;
     queue_item := queue_item scenario_env;
     build_logStream := fun _ _ => [LogData "Building"; LogError "socket hang up"];
     build_get := build_get scenario_env;
     postWebhook := postWebhook scenario_env;
     validURL := validURL scenario_env;
     stringify := stringify scenario_env;
     serializeResult := serializeResult scenario_env;
     toISOString := toISOString scenario_env |}.

(** A server that fails to give the detail of the build. *)
Definition forgetful_env : Env :=
  {| job_exists := job_exists scenario_env;
     job_config := job_config scenario_env;
     job_create := job_create scenario_env;
     job_build := job_build scenario_env;
     queue_item := queue_item scenario_env;
     build_logStream := build_logStream scenario_env;
     build_get := fun _ _ => Rejected "404";
     postWebhook := postWebhook scenario_env;
     validURL := validURL scenario_env;
     stringify := stringify scenario_env;
     serializeResult := serializeResult scenario_env;
     toISOString := toISOString scenario_env |}.

(** The outside of [env] with a status backend that answers [accepted data]
    to the report [data] whenever the backend of [env] answers at all. *)
Definition answering (accepted : BuildData -> bool) (env : Env) : Env :=
  {| job_exists := job_exists env;
     job_config := job_config env;
     job_create := job_create env;
     job_build := job_build env;
     queue_item := queue_item env;
     build_logStream := build_logStream env;
     build_get := build_get env;
     postWebhook := fun kind data team =>
       match postWebhook env kind data team with
       | Resolved _ => Resolved (accepted data)
       | answer => answer
       end;
     validURL := validURL env;
     stringify := stringify env;
     serializeResult := serializeResult env;
     toISOString := toISOString env |}.

(** A server that never answers the existence check. *)
Definition silent_env : Env :=
  {| job_exists := fun _ => Unsettled;
     job_config := job_config scenario_env;
     job_create := job_create scenario_env;
     job_build := job_build scenario_env;
     queue_item := queue_item scenario_env;
     build_logStream := build_logStream scenario_env;
     build_get := build_get scenario_env;
     postWebhook := postWebhook scenario_env;
     validURL := validURL scenario_env;
     stringify := stringify scenario_env;
     serializeResult := serializeResult scenario_env;
     toISOString := toISOString scenario_env |}.

(** A registration whose parameters cannot be resolved. *)
Definition rejecting_registration : JenkinsRegistration :=
  {| job := None;
     convergeOnly := None;
     parameters := Some (Computed (fun _ => Rejected "no parameters"));
     definition := None;
     server := Some scenario_server |}.

(** A registration whose definition is computed from the description of the
    goal event, and whose job name is computed from the repository. *)
Definition describing_registration : JenkinsRegistration :=
  {| job := Some (Computed (fun gi => Resolved (name (repo (goalEvent gi)) ++ "-build")));
     convergeOnly := Some true;
     parameters := None;
     definition := Some (Computed (fun gi => Resolved (description (goalEvent gi))));
     server := Some scenario_server |}.

(** * Properties *)

(** ** Running a computation *)

Section Rules.
Context {A B : Type} (p : Event -> bool).

Lemma Emits_ret (a : A) : Emits p (ret a).
Proof. intros gi. reflexivity. Qed.

Lemma Emits_throw e : Emits p (@throw A e).
Proof. intros gi. reflexivity. Qed.

Lemma Emits_pending : Emits p (@pending A).
Proof. intros gi. reflexivity. Qed.

Lemma Emits_await (r : Remote A) : Emits p (await r).
Proof. intros gi. destruct r; reflexivity. Qed.

Lemma Emits_getInvocation : Emits p getInvocation.
Proof. intros gi. reflexivity. Qed.

Lemma Emits_setInvocation gi' : Emits p (setInvocation gi').
Proof. intros gi. reflexivity. Qed.

Lemma Emits_emit e : p e = true -> Emits p (emit e).
Proof. intros H gi. cbn. now rewrite H. Qed.

Lemma Emits_bind (m : M A) (k : A -> M B) :
  Emits p m -> (forall a, Emits p (k a)) -> Emits p (bind m k).
Proof.
  intros Hm Hk gi. unfold bind.
  destruct (outcome (m gi)) eqn:E; cbn; try apply Hm.
  rewrite forallb_app, Hm. apply Hk.
Qed.

Lemma Emits_call e (r : Remote A) : p e = true -> Emits p (call e r).
Proof.
  intros H gi. unfold call, bind. cbn. rewrite H.
  destruct r; reflexivity.
Qed.

Lemma Unchanged_ret (a : A) : Unchanged (ret a).
Proof. intros gi. reflexivity. Qed.

Lemma Unchanged_throw e : Unchanged (@throw A e).
Proof. intros gi. reflexivity. Qed.

Lemma Unchanged_pending : Unchanged (@pending A).
Proof. intros gi. reflexivity. Qed.

Lemma Unchanged_await (r : Remote A) : Unchanged (await r).
Proof. intros gi. destruct r; reflexivity. Qed.

Lemma Unchanged_getInvocation : Unchanged getInvocation.
Proof. intros gi. reflexivity. Qed.

Lemma Unchanged_emit e : Unchanged (emit e).
Proof. intros gi. reflexivity. Qed.

Lemma Unchanged_call e (r : Remote A) : Unchanged (call e r).
Proof. intros gi. unfold call, bind. cbn. destruct r; reflexivity. Qed.

Lemma Unchanged_bind (m : M A) (k : A -> M B) :
  Unchanged m -> (forall a, Unchanged (k a)) -> Unchanged (bind m k).
Proof.
  intros Hm Hk gi. unfold bind.
  destruct (outcome (m gi)) eqn:E; cbn; try apply Hm.
  rewrite Hk. apply Hm.
Qed.
End Rules.

Create HintDb run discriminated.
#[local] Hint Resolve Emits_ret Emits_throw Emits_pending Emits_await
  Emits_getInvocation Emits_setInvocation
  Unchanged_ret Unchanged_throw Unchanged_pending Unchanged_await
  Unchanged_getInvocation Unchanged_emit Unchanged_call : run.

(** Decompose a computation along its binds and case distinctions. *)
Ltac quiet :=
  repeat first
    [ progress intros
    | solve [ auto with run ]
    | apply Emits_bind | apply Unchanged_bind
    | apply Emits_emit; reflexivity
    | apply Emits_call; reflexivity
    | match goal with
      | |- Emits _ (match ?x with _ => _ end) => destruct x
      | |- Unchanged (match ?x with _ => _ end) => destruct x
      | |- Emits _ (if ?x then _ else _) => destruct x
      | |- Unchanged (if ?x then _ else _) => destruct x
      end ].

Lemma getJobName_Emits p registration : Emits p (getJobName registration).
Proof. unfold getJobName. quiet. Qed.

Lemma getJobName_Unchanged registration : Unchanged (getJobName registration).
Proof. unfold getJobName. quiet. Qed.

Lemma getParameters_Emits p registration : Emits p (getParameters registration).
Proof. unfold getParameters. quiet. Qed.

Lemma getParameters_Unchanged registration : Unchanged (getParameters registration).
Proof. unfold getParameters. quiet. Qed.

Lemma progressLog_write_Emits p line :
  p (ProgressWrite line) = true -> Emits p (progressLog_write line).
Proof. intros H. apply Emits_emit, H. Qed.

Lemma progressLog_write_Unchanged line : Unchanged (progressLog_write line).
Proof. apply Unchanged_emit. Qed.

#[local] Hint Resolve getJobName_Emits getJobName_Unchanged getParameters_Emits
  getParameters_Unchanged progressLog_write_Unchanged : run.

Lemma createOrUpdateJob_Unchanged env jobName registration :
  Unchanged (createOrUpdateJob env jobName registration).
Proof. unfold createOrUpdateJob. quiet. Qed.

(** Reconciliation issues neither the trigger nor any call that follows a
    build. *)
Lemma createOrUpdateJob_Emits env jobName registration :
  Emits (fun e => negb (isTrigger e || followsBuild e))
        (createOrUpdateJob env jobName registration).
Proof. unfold createOrUpdateJob, progressLog_write. quiet. Qed.

Lemma waitForBuild_Unchanged env build fuel :
  forall k, Unchanged (waitForBuild env build fuel k).
Proof. induction fuel as [|fuel IH]; intros k; cbn [waitForBuild]; quiet. Qed.

Lemma triggerJob_Unchanged env fuel jobName parameters :
  Unchanged (triggerJob env fuel jobName parameters).
Proof. unfold triggerJob. quiet. apply waitForBuild_Unchanged. Qed.

Lemma logHandlers_Unchanged env log : forall resolved, Unchanged (logHandlers env log resolved).
Proof. induction log as [|[text|err|] rest IH]; intros resolved; cbn [logHandlers]; quiet. Qed.

Lemma logHandlers_Emits env log :
  forall resolved, Emits isProgress (logHandlers env log resolved).
Proof.
  induction log as [|[text|err|] rest IH]; intros resolved; cbn [logHandlers];
    unfold progressLog_write; quiet.
Qed.

Lemma awaitLogStream_Unchanged env log : Unchanged (awaitLogStream env log).
Proof. unfold awaitLogStream. quiet. apply logHandlers_Unchanged. Qed.

Lemma awaitLogStream_Emits env log : Emits isProgress (awaitLogStream env log).
Proof. unfold awaitLogStream. quiet. apply logHandlers_Emits. Qed.

Lemma updateBuildStatus_Unchanged env status sdmGoal url buildNo team :
  Unchanged (updateBuildStatus env status sdmGoal url buildNo team).
Proof. unfold updateBuildStatus. quiet. Qed.

#[local] Hint Resolve createOrUpdateJob_Unchanged triggerJob_Unchanged
  awaitLogStream_Unchanged updateBuildStatus_Unchanged : run.

(** ** Laws of sequencing *)

Lemma bind_assoc {A B C} (m : M A) (k : A -> M B) (h : B -> M C) gi :
  bind (bind m k) h gi = bind m (fun a => bind (k a) h) gi.
Proof.
  unfold bind. destruct (outcome (m gi)); cbn; try reflexivity.
  destruct (outcome (k a (invocation (m gi)))); cbn; try reflexivity.
  now rewrite app_assoc.
Qed.

Lemma bind_ext {A B} (m : M A) (k k' : A -> M B) gi :
  (forall a gi', k a gi' = k' a gi') -> bind m k gi = bind m k' gi.
Proof. intros H. unfold bind. destruct (outcome (m gi)); try reflexivity. now rewrite H. Qed.

Lemma bind_ret_l {A B} (a : A) (k : A -> M B) gi : bind (ret a) k gi = k a gi.
Proof. unfold bind, ret. cbn. now destruct (k a gi). Qed.

(** [executeJenkins] is the preparation followed by one of its branches. *)
Lemma executeJenkins_phases env fuel registration gi :
  executeJenkins env fuel registration gi =
    (p <- prepare env registration ;;
     match convergeOnly registration with
     | Some true => notStarting (fst p)
     | _ => startJob env fuel (fst p) (snd p)
     end) gi.
Proof.
  unfold executeJenkins, prepare.
  rewrite bind_assoc. apply bind_ext. intros g gi1.
  destruct (if falsy _ then _ else _) as [server_url|]; [|reflexivity].
  do 6 (rewrite bind_assoc; apply bind_ext; intros).
  rewrite bind_ret_l. reflexivity.
Qed.

(** ** Step-by-step execution *)

Lemma run_eta {A} (r : Run A) : mkRun (events r) (invocation r) (outcome r) = r.
Proof. now destruct r. Qed.

Lemma bind_run {A B} {m : M A} {gi evs gi' a} (k : A -> M B) :
  m gi = mkRun evs gi' (Returned a) -> bind m k gi = after evs (k a gi').
Proof. intros H. unfold bind, after. rewrite H. reflexivity. Qed.

Lemma bind_run_thrown {A B} {m : M A} {gi evs gi' e} (k : A -> M B) :
  m gi = mkRun evs gi' (Thrown e) -> bind m k gi = mkRun evs gi' (Thrown e).
Proof. intros H. unfold bind. rewrite H. reflexivity. Qed.

Lemma bind_run_pending {A B} {m : M A} {gi evs gi'} (k : A -> M B) :
  m gi = mkRun evs gi' Pending -> bind m k gi = mkRun evs gi' Pending.
Proof. intros H. unfold bind. rewrite H. reflexivity. Qed.

Lemma bind_emit {B} e (k : unit -> M B) gi : bind (emit e) k gi = after [e] (k tt gi).
Proof. reflexivity. Qed.

Lemma bind_getInvocation {B} (k : GoalInvocation -> M B) gi :
  bind getInvocation k gi = k gi gi.
Proof. unfold bind. cbn. apply run_eta. Qed.

Lemma bind_setInvocation {B} gi' (k : unit -> M B) gi :
  bind (setInvocation gi') k gi = k tt gi'.
Proof. unfold bind. cbn. apply run_eta. Qed.

Lemma bind_call_resolved {A B} e (a : A) (k : A -> M B) gi :
  bind (call e (Resolved a)) k gi = after [e] (k a gi).
Proof. reflexivity. Qed.

Lemma bind_call_rejected {A B} e x (k : A -> M B) gi :
  bind (call e (Rejected x)) k gi = mkRun [e] gi (Thrown x).
Proof. reflexivity. Qed.

Lemma bind_call_unsettled {A B} e (k : A -> M B) gi :
  bind (call e Unsettled) k gi = mkRun [e] gi Pending.
Proof. reflexivity. Qed.

Lemma bind_throw {A B} e (k : A -> M B) gi : bind (throw e) k gi = throw e gi.
Proof. reflexivity. Qed.

Lemma bind_pending {A B} (k : A -> M B) gi : bind pending k gi = pending gi.
Proof. reflexivity. Qed.

Lemma unfinished_not_returned {A B} (o : Outcome A) (b : B) : unfinished o <> Returned b.
Proof. now destruct o. Qed.

Ltac step H :=
  first
    [ rewrite bind_emit in H
    | rewrite bind_getInvocation in H
    | rewrite bind_setInvocation in H
    | rewrite bind_ret_l in H
    | rewrite bind_throw in H
    | rewrite bind_pending in H
    | rewrite bind_call_resolved in H
    | rewrite bind_call_rejected in H
    | rewrite bind_call_unsettled in H ].

(** Run the computation [m gi] met in [H], given what is known of it. *)
Ltac run_in H E :=
  first [ rewrite (bind_run _ E) in H
        | rewrite (bind_run_thrown _ E) in H
        | rewrite (bind_run_pending _ E) in H ].

(** ** Observations and lists *)

Lemma webhooks_app a b : webhooks (a ++ b) = (webhooks a ++ webhooks b)%list.
Proof.
  induction a as [|e a IH]; [reflexivity|].
  destruct e; cbn; rewrite ?IH; reflexivity.
Qed.

Lemma progress_webhooks evs : forallb isProgress evs = true -> webhooks evs = [].
Proof.
  induction evs as [|e evs IH]; [reflexivity|]. cbn.
  destruct e; cbn; try discriminate. exact IH.
Qed.

Lemma forallb_weaken (p q : Event -> bool) evs :
  (forall e, p e = true -> q e = true) ->
  forallb p evs = true -> forallb q evs = true.
Proof.
  intros Hpq. rewrite !forallb_forall. intros H e He. apply Hpq, H, He.
Qed.

Lemma forallb_not_In (p : Event -> bool) evs e :
  forallb p evs = true -> p e = false -> ~ In e evs.
Proof.
  intros H He Hin. rewrite forallb_forall in H. apply H in Hin. congruence.
Qed.

Lemma Emits_weaken {A} (p q : Event -> bool) (m : M A) :
  (forall e, p e = true -> q e = true) -> Emits p m -> Emits q m.
Proof. intros Hpq Hm gi. eapply forallb_weaken; [exact Hpq | apply Hm]. Qed.

(** ** The functions, one by one *)

Lemma setDescription_Emits p d : Emits p (setDescription d).
Proof. unfold setDescription. quiet. Qed.

#[local] Hint Resolve setDescription_Emits createOrUpdateJob_Emits : run.

Lemma prepare_Emits env registration : Emits preparatory (prepare env registration).
Proof. unfold prepare. quiet. Qed.

Lemma notStarting_Emits jobName : Emits isProgress (notStarting jobName).
Proof. unfold notStarting, progressLog_write. quiet. Qed.

Lemma notStarting_Unchanged jobName : Unchanged (notStarting jobName).
Proof. unfold notStarting. quiet. Qed.

Lemma waitForBuild_Emits env build fuel :
  forall k, Emits isPolling (waitForBuild env build fuel k).
Proof. induction fuel as [|fuel IH]; intros k; cbn [waitForBuild]; quiet. Qed.

Lemma followBuild_Emits env jobName item :
  Emits (followsOnly jobName (id item)) (followBuild env jobName item).
Proof.
  unfold followBuild, updateBuildStatus, progressLog_write.
  assert (H : forall j b, followsOnly j b (LogStream j b) = true /\
                          followsOnly j b (BuildGet j b) = true).
  { intros j b. cbn. now rewrite String.eqb_refl, N.eqb_refl. }
  quiet; try (apply Emits_emit, H).
  eapply Emits_weaken; [|apply logHandlers_Emits]. now intros [].
Qed.

Lemma followBuild_Unchanged env jobName item : Unchanged (followBuild env jobName item).
Proof. unfold followBuild. quiet. Qed.

Lemma startJob_Unchanged env fuel jobName parameters :
  Unchanged (startJob env fuel jobName parameters).
Proof. unfold startJob. quiet. Qed.

Lemma triggerJob_declined env fuel jobName parameters build gi :
  job_build env jobName parameters = Resolved build ->
  isNaN build = true ->
  triggerJob env fuel jobName parameters gi =
    mkRun [JobBuild jobName parameters] gi (Returned None).
Proof.
  intros Hb Hn. unfold triggerJob. rewrite Hb, bind_call_resolved, Hn. reflexivity.
Qed.

(** The trigger comes first in [triggerJob]; only polling follows it. *)
Lemma triggerJob_events env fuel jobName parameters gi :
  exists rest,
    events (triggerJob env fuel jobName parameters gi) =
      JobBuild jobName parameters :: rest /\
    forallb isPolling rest = true.
Proof.
  unfold triggerJob.
  destruct (job_build env jobName parameters) as [build|x|].
  - rewrite bind_call_resolved. destruct (isNaN build).
    + exists []. split; reflexivity.
    + pose proof (waitForBuild_Emits env build fuel 0 gi) as He.
      destruct (waitForBuild env build fuel 0 gi) as [ev inv [ref|x|]] eqn:E;
        [rewrite (bind_run _ E) | rewrite (bind_run_thrown _ E)
        | rewrite (bind_run_pending _ E)];
        exists ev; cbn; rewrite ?app_nil_r; split; auto.
  - rewrite bind_call_rejected. exists []. split; reflexivity.
  - rewrite bind_call_unsettled. exists []. split; reflexivity.
Qed.

(** The events and the outcome of the preparation, by what the guard on the
    server url and the resolvers give. *)
Lemma prepare_trace env registration gi :
  let server := merge (server registration) (sdm_jenkins (configuration gi)) in
  events (prepare env registration gi) =
    match (if falsy (url server) then None else url server) with
    | None => []
    | Some server_url =>
        if validURL env server_url then
          Connect {| href_base := server_url;
                     username := setterText (user server);
                     url_password := setterText (password server) |}
          :: match outcome (getJobName registration gi) with
             | Returned jobName =>
                 match outcome (getParameters registration gi) with
                 | Returned _ =>
                     events (createOrUpdateJob env jobName registration
                               (withDescription ("Jenkins " ++ codeLine jobName) gi))
                 | _ => []
                 end
             | _ => []
             end
        else []
    end /\
  outcome (prepare env registration gi) =
    match (if falsy (url server) then None else url server) with
    | None =>
        Thrown "Jenkins server configuration incomplete. Please configure your server url at 'sdm.jenkins.url'"
    | Some server_url =>
        if validURL env server_url then
          match outcome (getJobName registration gi) with
          | Returned jobName =>
              match outcome (getParameters registration gi) with
              | Returned parameters =>
                  match outcome (createOrUpdateJob env jobName registration
                                   (withDescription ("Jenkins " ++ codeLine jobName) gi)) with
                  | Returned _ => Returned (jobName, parameters)
                  | Thrown x => Thrown x
                  | Pending => Pending
                  end
              | Thrown x => Thrown x
              | Pending => Pending
              end
          | Thrown x => Thrown x
          | Pending => Pending
          end
        else Thrown "TypeError: Invalid URL"
    end.
Proof.
  intros server. subst server.
  remember (prepare env registration gi) as r eqn:Hr.
  unfold prepare in Hr. step Hr.
  destruct (if falsy _ then _ else _) as [server_url|].
  2:{ subst r. split; reflexivity. }
  destruct (validURL env server_url); repeat step Hr.
  2:{ subst r. split; reflexivity. }
  pose proof (getJobName_Unchanged registration gi) as Hu1.
  pose proof (getJobName_Emits (fun _ => false) registration gi) as He1.
  destruct (getJobName registration gi) as [ev1 inv1 [jobName|x|]] eqn:E1;
    cbn in Hu1, He1; subst inv1; (destruct ev1; [|discriminate]); run_in Hr E1;
    cbn [outcome events].
  2,3: subst r; split; reflexivity.
  pose proof (getParameters_Unchanged registration gi) as Hu2.
  pose proof (getParameters_Emits (fun _ => false) registration gi) as He2.
  destruct (getParameters registration gi) as [ev2 inv2 [parameters|x|]] eqn:E2;
    cbn in Hu2, He2; subst inv2; (destruct ev2; [|discriminate]); run_in Hr E2;
    cbn [outcome events].
  2,3: subst r; split; reflexivity.
  unfold setDescription in Hr. rewrite bind_assoc in Hr. repeat step Hr.
  destruct (createOrUpdateJob env jobName registration
              (withDescription ("Jenkins " ++ codeLine jobName) gi))
    as [ev3 inv3 [[]|x|]] eqn:E3;
    run_in Hr E3; subst r; unfold after; cbn [outcome events app ret];
    rewrite ?app_nil_r; split; reflexivity.
Qed.

(** The invocation after the preparation: the description of the goal
    event is overwritten once the server url passed the guard and both
    resolvers returned, and nothing is written before that. *)
Lemma prepare_description env registration gi :
  let server := merge (server registration) (sdm_jenkins (configuration gi)) in
  invocation (prepare env registration gi) =
    match (if falsy (url server) then None else url server) with
    | None => gi
    | Some server_url =>
        if validURL env server_url then
          match outcome (getJobName registration gi) with
          | Returned jobName =>
              match outcome (getParameters registration gi) with
              | Returned _ => withDescription ("Jenkins " ++ codeLine jobName) gi
              | _ => gi
              end
          | _ => gi
          end
        else gi
    end.
Proof.
  intros server. subst server.
  remember (prepare env registration gi) as r eqn:Hr.
  unfold prepare in Hr. step Hr.
  destruct (if falsy _ then _ else _) as [server_url|].
  2:{ now subst r. }
  destruct (validURL env server_url); repeat step Hr.
  2:{ now subst r. }
  pose proof (getJobName_Unchanged registration gi) as Hu1.
  destruct (getJobName registration gi) as [ev1 inv1 [jobName|x|]] eqn:E1;
    cbn in Hu1; subst inv1; run_in Hr E1; cbn [outcome].
  2,3: now subst r.
  pose proof (getParameters_Unchanged registration gi) as Hu2.
  destruct (getParameters registration gi) as [ev2 inv2 [parameters|x|]] eqn:E2;
    cbn in Hu2; subst inv2; run_in Hr E2; cbn [outcome].
  2,3: now subst r.
  unfold setDescription in Hr. rewrite bind_assoc in Hr. repeat step Hr.
  pose proof (createOrUpdateJob_Unchanged env jobName registration
                (withDescription ("Jenkins " ++ codeLine jobName) gi)) as Hu3.
  destruct (createOrUpdateJob env jobName registration
              (withDescription ("Jenkins " ++ codeLine jobName) gi))
    as [ev3 inv3 [[]|x|]] eqn:E3;
    cbn in Hu3; subst inv3; run_in Hr E3; now subst r.
Qed.

(** The invocation the branches of an execution run on: the one supplied,
    with the description overwritten. *)
Lemma prepare_invocation env registration gi jobName parameters :
  outcome (prepare env registration gi) = Returned (jobName, parameters) ->
  invocation (prepare env registration gi) =
    withDescription ("Jenkins " ++ codeLine jobName) gi.
Proof.
  intros Hout. rewrite prepare_description.
  destruct (prepare_trace env registration gi) as (_ & Hp). rewrite Hp in Hout. clear Hp.
  destruct (if falsy _ then _ else _) as [u|]; [|discriminate].
  destruct (validURL env u); [|discriminate].
  destruct (outcome (getJobName registration gi)) as [jn|x|]; try discriminate.
  destruct (outcome (getParameters registration gi)) as [ps|x|]; try discriminate.
  destruct (outcome (createOrUpdateJob env jn registration _)) as [[]|x|];
    try discriminate.
  now injection Hout as -> _.
Qed.

(** What the block that follows a build reports to the status backend:
    the start, and the mapped status once the detail was fetched. *)
Lemma followBuild_webhooks env jobName item gi r :
  r = followBuild env jobName item gi ->
  let report s := buildData env s (goalEvent gi) (build_ref_url item) (id item) in
  webhooks (events r) = [report (Some started)] /\
    (forall res, outcome r <> Returned res) /\
    (forall d, build_get env jobName (id item) = Resolved d ->
               ~ In (BuildGet jobName (id item)) (events r))
  \/
  exists detail,
    build_get env jobName (id item) = Resolved detail /\
    webhooks (events r) =
      [report (Some started); report (fst (mapOutcome (result detail)))] /\
    (forall res, outcome r = Returned res -> res = completed jobName detail).
Proof.
  intros Hr report.
  unfold followBuild, updateBuildStatus, progressLog_write in Hr.
  repeat step Hr.
  destruct (postWebhook env "build" _ _) as [?|x|]; repeat step Hr.
  2,3: left; subst r; cbn; repeat split; intros; try discriminate;
    intros [|[|[|[|[]]]]]; discriminate.
  pose proof (awaitLogStream_Unchanged env (build_logStream env jobName (id item)) gi) as Hu.
  pose proof (awaitLogStream_Emits env (build_logStream env jobName (id item)) gi) as He.
  destruct (awaitLogStream env _ gi) as [ev inv [[]|x|]] eqn:E; cbn in Hu, He; subst inv.
  2,3: run_in Hr E;
    left; subst r; cbn; rewrite (progress_webhooks _ He);
    repeat split; intros; try discriminate;
    intros [|[|[|[|[|Hin]]]]]; try discriminate;
    revert Hin; apply forallb_not_In with (p := isProgress); [exact He | reflexivity].
  run_in Hr E.
  destruct (build_get env jobName (id item)) as [detail|x|] eqn:Hget; repeat step Hr.
  2,3: left; subst r; cbn; rewrite webhooks_app, (progress_webhooks _ He);
    repeat split; intros; discriminate.
  right. exists detail. split; [reflexivity|]. unfold completed.
  destruct (mapOutcome (result detail)) as [status state].
  repeat step Hr.
  destruct (postWebhook env "build" _ _) as [?|x|]; repeat step Hr;
    subst r; cbn; rewrite webhooks_app, (progress_webhooks _ He); cbn;
    (split; [reflexivity|]); intros res Hres;
    [now inversion Hres | discriminate | discriminate].
Qed.

(** How the branch that starts the job ends: without a build to follow, or
    with the block that follows the build [triggerJob] returned. *)
Lemma startJob_cases env fuel jobName parameters gi r :
  r = startJob env fuel jobName parameters gi ->
  exists rest,
    forallb isPolling rest = true /\
    let pre := (startLines env jobName parameters ++ JobBuild jobName parameters :: rest)%list in
    (events r = pre /\ invocation r = gi /\
     (forall res, outcome r = Returned res -> res = triggered jobName /\ rest = []))
    \/
    (exists item, r = after pre (followBuild env jobName item gi)).
Proof.
  intros Hr. unfold startJob, progressLog_write in Hr. repeat step Hr.
  destruct (triggerJob_events env fuel jobName parameters gi) as (rest & Hev & Hrest).
  pose proof (triggerJob_Unchanged env fuel jobName parameters gi) as Hu.
  exists rest. split; [exact Hrest|].
  destruct (triggerJob env fuel jobName parameters gi) as [ev inv [[item|]|x|]] eqn:E;
    cbn in Hev, Hu; subst ev inv; run_in Hr E.
  - right. exists item. subst r. unfold after. cbn. reflexivity.
  - left. subst r. cbn. rewrite app_nil_r.
    split; [reflexivity|]. split; [reflexivity|].
    intros res H. split; [now inversion H|].
    unfold triggerJob in E.
    destruct (job_build env jobName parameters) as [build|x|];
      [rewrite bind_call_resolved in E | discriminate | discriminate].
    destruct (isNaN build); [now inversion E|].
    destruct (waitForBuild env build fuel 0 gi) as [ev inv [ref|x|]] eqn:E';
      run_in E E'; discriminate.
  - left. subst r. cbn. repeat split; intros; discriminate.
  - left. subst r. cbn. repeat split; intros; discriminate.
Qed.

(** How an execution ends: aborted during the preparation, or in one of the
    two branches after it. *)
Lemma executeJenkins_cases env fuel registration gi r :
  r = executeJenkins env fuel registration gi ->
  let p := prepare env registration gi in
  ((forall v, outcome p <> Returned v) /\
   r = mkRun (events p) (invocation p) (unfinished (outcome p)))
  \/
  (exists jobName parameters,
     outcome p = Returned (jobName, parameters) /\
     r = after (events p)
           (match convergeOnly registration with
            | Some true => notStarting jobName (invocation p)
            | _ => startJob env fuel jobName parameters (invocation p)
            end)).
Proof.
  intros Hr p. subst p. rewrite executeJenkins_phases in Hr.
  destruct (prepare env registration gi) as [ev inv [[jobName parameters]|x|]] eqn:Hp;
    run_in Hr Hp.
  - right. exists jobName, parameters. split; [reflexivity|].
    cbn in *. now destruct (convergeOnly registration) as [[]|].
  - left. subst r. cbn. split; [discriminate | reflexivity].
  - left. subst r. cbn. split; [discriminate | reflexivity].
Qed.

Lemma unreported_webhooks evs :
  forallb (fun e => negb (reportsBuild e)) evs = true -> webhooks evs = [].
Proof.
  induction evs as [|e evs IH]; [reflexivity|]. cbn.
  destruct e; cbn; try discriminate; exact IH.
Qed.

Lemma preparatory_unreported evs :
  forallb preparatory evs = true ->
  forallb (fun e => negb (reportsBuild e)) evs = true.
Proof. apply forallb_weaken. now intros []. Qed.

Lemma polling_unreported evs :
  forallb isPolling evs = true ->
  forallb (fun e => negb (reportsBuild e)) evs = true.
Proof. apply forallb_weaken. now intros []. Qed.

Lemma progress_unreported evs :
  forallb isProgress evs = true ->
  forallb (fun e => negb (reportsBuild e)) evs = true.
Proof. apply forallb_weaken. now intros []. Qed.

(** An execution either never reports on a build, or ends in the block that
    follows the build it triggered. *)
Lemma executeJenkins_followed env fuel registration gi r :
  r = executeJenkins env fuel registration gi ->
  (forallb (fun e => negb (reportsBuild e)) (events r) = true /\
   forall res, outcome r = Returned res ->
               exists jobName, res = converged jobName \/ res = triggered jobName)
  \/
  (exists pre jobName item gi1,
     forallb (fun e => negb (reportsBuild e)) pre = true /\
     r = after pre (followBuild env jobName item gi1)).
Proof.
  intros Hr.
  pose proof (prepare_Emits env registration gi) as Hp. apply preparatory_unreported in Hp.
  destruct (executeJenkins_cases Hr) as [(Hx & Hr') | (jobName & parameters & Hout & Hr')].
  - left. rewrite Hr'. cbn. split; [exact Hp|]. intros res H.
    now apply unfinished_not_returned in H.
  - destruct (convergeOnly registration) as [[]|].
    + left. rewrite Hr'. unfold after. cbn [events outcome].
      rewrite forallb_app, Hp. split; [reflexivity|].
      intros res H. exists jobName. left. now inversion H.
    + destruct (startJob_cases (r := startJob env fuel jobName parameters
                                        (invocation (prepare env registration gi)))
                  eq_refl) as (rest & Hrest & [(Hev & _ & Hres) | (item & Hitem)]).
      * left. rewrite Hr'. unfold after. cbn [events outcome].
        rewrite Hev, !forallb_app, Hp. cbn.
        rewrite (polling_unreported _ Hrest). split; [reflexivity|].
        intros res H. exists jobName. right. now apply Hres.
      * right.
        exists (events (prepare env registration gi)
                ++ startLines env jobName parameters ++ JobBuild jobName parameters :: rest)%list,
               jobName, item, (invocation (prepare env registration gi)).
        rewrite Hr', Hitem. split.
        2:{ unfold after. cbn [events invocation outcome].
            rewrite <- !app_assoc. reflexivity. }
        rewrite !forallb_app, Hp. cbn. apply (polling_unreported _ Hrest).
    + destruct (startJob_cases (r := startJob env fuel jobName parameters
                                        (invocation (prepare env registration gi)))
                  eq_refl) as (rest & Hrest & [(Hev & _ & Hres) | (item & Hitem)]).
      * left. rewrite Hr'. unfold after. cbn [events outcome].
        rewrite Hev, !forallb_app, Hp. cbn.
        rewrite (polling_unreported _ Hrest). split; [reflexivity|].
        intros res H. exists jobName. right. now apply Hres.
      * right.
        exists (events (prepare env registration gi)
                ++ startLines env jobName parameters ++ JobBuild jobName parameters :: rest)%list,
               jobName, item, (invocation (prepare env registration gi)).
        rewrite Hr', Hitem. split.
        2:{ unfold after. cbn [events invocation outcome].
            rewrite <- !app_assoc. reflexivity. }
        rewrite !forallb_app, Hp. cbn. apply (polling_unreported _ Hrest).
Qed.

(** An execution that fetched the detail of a build reported its start and
    then the status mapped from the detail, and returns the mapped state. *)
Lemma executeJenkins_terminal env fuel registration gi jobName buildId detail r :
  r = executeJenkins env fuel registration gi ->
  In (BuildGet jobName buildId) (events r) ->
  build_get env jobName buildId = Resolved detail ->
  (exists sdmGoal url,
     webhooks (events r) =
       [ buildData env (Some started) sdmGoal url buildId;
         buildData env (fst (mapOutcome (result detail))) sdmGoal url buildId ]) /\
  (forall res, outcome r = Returned res -> res = completed jobName detail).
Proof.
  intros Hr Hin Hget.
  destruct (executeJenkins_followed Hr) as [(Hq & _) | (pre & jn & item & gi1 & Hpre & Hr')].
  { exfalso. revert Hin. apply forallb_not_In with (1 := Hq). reflexivity. }
  rewrite Hr' in Hin |- *. cbn in Hin |- *.
  apply in_app_or in Hin. destruct Hin as [Hin|Hin].
  { exfalso. revert Hin. apply forallb_not_In with (1 := Hpre). reflexivity. }
  pose proof (followBuild_Emits env jn item gi1) as He.
  rewrite forallb_forall in He. pose proof (He _ Hin) as Hjb. cbn in Hjb.
  apply andb_true_iff in Hjb. destruct Hjb as [Hj Hb].
  apply String.eqb_eq in Hj. apply N.eqb_eq in Hb. subst jobName buildId.
  rewrite webhooks_app, (unreported_webhooks _ Hpre). cbn.
  destruct (followBuild_webhooks (r := followBuild env jn item gi1) eq_refl)
    as [(_ & _ & Hno) | (detail' & Hget' & Hw & Hres)].
  - exfalso. exact (Hno detail Hget Hin).
  - rewrite Hget in Hget'. inversion Hget'; subst detail'.
    split; [eauto | exact Hres].
Qed.
(** ** Outcome mapping *)


(** ** The trigger and the queue *)

Lemma running_carries item :
  carriesBuildNumber item = false -> running item = None.
Proof.
  destruct item as [[[[[n|] u]|]]|]; cbn; try reflexivity.
  destruct (N.eqb n 0); [reflexivity | discriminate].
Qed.

Lemma waitForBuild_polls env build ref :
  forall n fuel k gi,
    (forall j, j < n ->
       exists item, queue_item env build (k + j) = Resolved item /\
                    carriesBuildNumber item = false) ->
    (exists item, queue_item env build (k + n) = Resolved item /\
                  running item = Some ref) ->
    n < fuel ->
    waitForBuild env build fuel k gi =
      mkRun (concat (repeat [QueueItemLookup build; Sleep 500] (S n))) gi (Returned ref).
Proof.
  induction n as [|n IH]; intros fuel k gi Hbefore Hat Hfuel;
    (destruct fuel as [|fuel]; [lia|]).
  - destruct Hat as (item & Hq & Hr). rewrite Nat.add_0_r in Hq.
    cbn [waitForBuild]. unfold call, bind, emit, await. rewrite Hq. cbn. rewrite Hr.
    reflexivity.
  - destruct (Hbefore 0 ltac:(lia)) as (item & Hq & Hc). rewrite Nat.add_0_r in Hq.
    cbn [waitForBuild]. unfold call, bind at 1, emit, await. rewrite Hq. cbn.
    rewrite (running_carries _ Hc).
    rewrite (IH fuel (S k) gi).
    + reflexivity.
    + intros j Hj. destruct (Hbefore (S j) ltac:(lia)) as (it & Hq' & Hc').
      exists it. split; [|exact Hc']. rewrite <- Hq'. f_equal. lia.
    + destruct Hat as (it & Hq' & Hr'). exists it. split; [|exact Hr'].
      rewrite <- Hq'. f_equal. lia.
    + lia.
Qed.

Lemma lookups_repeat build n :
  length (filter isLookup (concat (repeat [QueueItemLookup build; Sleep 500] n))) = n.
Proof. induction n as [|n IH]; cbn; [reflexivity | now rewrite IH]. Qed.

(** C3.  When the trigger is acknowledged with a queue id, the first
    [n - 1] answers of the queue carry no build number and the [n]-th answer
    carries the number and url of an executable, [triggerJob] issues the
    trigger and then exactly [n] queue lookups, each followed by a pause of
    500 ms, leaves the invocation alone and returns the number and url of the
    [n]-th answer.  This holds for every bound on the lookups that is at
    least [n]. *)
Theorem triggerJob_correlates env fuel jobName parameters build n num u gi :
  job_build env jobName parameters = Resolved build ->
  isNaN build = false ->
  1 <= n <= fuel ->
  (forall k, k < n - 1 ->
     exists item, queue_item env build k = Resolved item /\
                  carriesBuildNumber item = false) ->
  queue_item env build (n - 1) =
    Resolved (Some {| executable := Some {| number := Some num; exe_url := u |} |}) ->
  num <> 0%N ->
  let r := triggerJob env fuel jobName parameters gi in
  events r = JobBuild jobName parameters
               :: concat (repeat [QueueItemLookup build; Sleep 500] n) /\
  length (filter isLookup (events r)) = n /\
  invocation r = gi /\
  outcome r = Returned (Some {| id := num; build_ref_url := u |}).
Proof.
  intros Hbuild Hnan Hn Hbefore Hat Hnum r.
  assert (Hw : waitForBuild env build fuel 0 gi =
               mkRun (concat (repeat [QueueItemLookup build; Sleep 500] n)) gi
                     (Returned {| id := num; build_ref_url := u |})).
  { replace n with (S (n - 1)) at 1 by lia.
    apply waitForBuild_polls; [exact Hbefore | | lia].
    eexists. split; [exact Hat|]. cbn.
    destruct (N.eqb_spec num 0); [contradiction | reflexivity]. }
  assert (Hr : r = mkRun (JobBuild jobName parameters
                            :: concat (repeat [QueueItemLookup build; Sleep 500] n))
                         gi (Returned (Some {| id := num; build_ref_url := u |}))).
  { subst r. unfold triggerJob, call, bind at 1 2, emit, await.
    rewrite Hbuild. cbn. rewrite Hnan. unfold bind. rewrite Hw. cbn.
    now rewrite app_nil_r. }
  rewrite Hr. cbn. rewrite lookups_repeat. auto.
Qed.

Lemma triggerJob_correlates_witness :
  let r := triggerJob scenario_env 5 "app" None scenario_invocation in
  events r = [JobBuild "app" None;
              QueueItemLookup (Num 42); Sleep 500;
              QueueItemLookup (Num 42); Sleep 500;
              QueueItemLookup (Num 42); Sleep 500] /\
  length (filter isLookup (events r)) = 3 /\
  invocation r = scenario_invocation /\
  outcome r = Returned (Some {| id := 7%N; build_ref_url := "http://ci/job/app/7/" |}).
Proof.
  apply (@triggerJob_correlates scenario_env 5 "app" None (Num 42) 3 7%N
           "http://ci/job/app/7/" scenario_invocation).
  - reflexivity.
  - reflexivity.
  - lia.
  - intros k Hk. exists (Some {| executable := None |}).
    destruct k as [|[|k]]; [split; reflexivity | split; reflexivity | simpl in Hk; lia].
  - reflexivity.
  - discriminate.
Defined.


(** ** The trigger within an execution *)

(** A trigger seen in an execution is the one of [startJob], issued for the
    job name and the parameters the preparation resolved. *)
Lemma executeJenkins_trigger env fuel registration gi jobName parameters r :
  r = executeJenkins env fuel registration gi ->
  In (JobBuild jobName parameters) (events r) ->
  let p := prepare env registration gi in
  convergeOnly registration <> Some true /\
  outcome p = Returned (jobName, parameters) /\
  r = after (events p) (startJob env fuel jobName parameters (invocation p)).
Proof.
  intros Hr Hin p. subst p.
  pose proof (prepare_Emits env registration gi) as Hp.
  assert (Hnp : ~ In (JobBuild jobName parameters) (events (prepare env registration gi))).
  { apply forallb_not_In with (1 := Hp). reflexivity. }
  destruct (executeJenkins_cases Hr) as [(Hx & Hr') | (jn & ps & Hout & Hr')].
  { rewrite Hr' in Hin. contradiction. }
  assert (Hstart : forall r', r' = startJob env fuel jn ps
                                     (invocation (prepare env registration gi)) ->
                   In (JobBuild jobName parameters) (events r') ->
                   jn = jobName /\ ps = parameters).
  { intros r' Hr'' Hin'.
    assert (Hlines : ~ In (JobBuild jobName parameters) (startLines env jn ps)).
    { apply forallb_not_In with (p := isProgress); reflexivity. }
    destruct (startJob_cases Hr'') as (rest & Hrest & [(Hev & _) | (item & Hitem)]).
    - rewrite Hev in Hin'. apply in_app_or in Hin'.
      destruct Hin' as [Hin'|[Heq|Hin']]; [contradiction | now inversion Heq |].
      exfalso. revert Hin'. apply forallb_not_In with (1 := Hrest). reflexivity.
    - rewrite Hitem in Hin'. unfold after in Hin'. cbn [events] in Hin'.
      apply in_app_or in Hin'. destruct Hin' as [Hin'|Hin'].
      + apply in_app_or in Hin'.
        destruct Hin' as [Hin'|[Heq|Hin']]; [contradiction | now inversion Heq |].
        exfalso. revert Hin'. apply forallb_not_In with (1 := Hrest). reflexivity.
      + exfalso. revert Hin'.
        apply forallb_not_In with (1 := followBuild_Emits env jn item _). reflexivity. }
  rewrite Hr' in Hin. unfold after in Hin. cbn [events] in Hin. apply in_app_or in Hin.
  destruct Hin as [Hin|Hin]; [contradiction|].
  destruct (convergeOnly registration) as [[]|].
  - exfalso. revert Hin.
    apply forallb_not_In with (1 := notStarting_Emits jn _). reflexivity.
  - destruct (Hstart _ eq_refl Hin); subst jn ps. repeat split; [discriminate | exact Hout | exact Hr'].
  - destruct (Hstart _ eq_refl Hin); subst jn ps. repeat split; [discriminate | exact Hout | exact Hr'].
Qed.

Lemma startJob_declined env fuel jobName parameters build gi :
  job_build env jobName parameters = Resolved build ->
  isNaN build = true ->
  startJob env fuel jobName parameters gi =
    mkRun (startLines env jobName parameters ++ [JobBuild jobName parameters]) gi
          (Returned (triggered jobName)).
Proof.
  intros Hb Hn. unfold startJob, progressLog_write.
  rewrite !bind_emit, (bind_run _ (triggerJob_declined env fuel jobName parameters gi Hb Hn)).
  reflexivity.
Qed.

(** C2.  When the trigger call is answered with an acknowledgment that is
    not a number, [triggerJob] returns [undefined] having issued the trigger
    and nothing else; the execution issues no queue lookup, opens no log
    stream, fetches no build detail and posts no status, and it returns the
    success state with the description "Jenkins `<job>` triggered". *)
Theorem declined_trigger_reports_triggered env fuel registration gi jobName parameters build :
  let r := executeJenkins env fuel registration gi in
  In (JobBuild jobName parameters) (events r) ->
  job_build env jobName parameters = Resolved build ->
  isNaN build = true ->
  (forall gi', triggerJob env fuel jobName parameters gi' =
               mkRun [JobBuild jobName parameters] gi' (Returned None)) /\
  forallb (fun e => negb (followsBuild e)) (events r) = true /\
  outcome r = Returned {| state := Some success;
                          result_description := "Jenkins " ++ codeLine jobName ++ " triggered";
                          externalUrls := [] |}.
Proof.
  intros r Hin Hb Hn. split.
  { intros gi'. now apply triggerJob_declined with (build := build). }
  destruct (@executeJenkins_trigger env fuel registration gi jobName parameters r eq_refl Hin)
    as (_ & _ & Hr).
  rewrite Hr, (startJob_declined env fuel jobName parameters _ Hb Hn).
  unfold after. cbn [events outcome]. split; [|reflexivity].
  rewrite forallb_app. apply andb_true_iff. split; [|reflexivity].
  eapply forallb_weaken; [|apply prepare_Emits].
  intros e. unfold preparatory. now destruct e.
Qed.

Lemma declined_trigger_reports_triggered_witness :
  let r := executeJenkins declining_env 0 scenario_registration scenario_invocation in
  (forall gi', triggerJob declining_env 0 "app" None gi' =
               mkRun [JobBuild "app" None] gi' (Returned None)) /\
  forallb (fun e => negb (followsBuild e)) (events r) = true /\
  outcome r = Returned {| state := Some success;
                          result_description := "Jenkins `app` triggered";
                          externalUrls := [] |}.
Proof.
  apply (@declined_trigger_reports_triggered declining_env 0 scenario_registration
           scenario_invocation "app" None NaN).
  - vm_compute. do 7 right. left. reflexivity.
  - reflexivity.
  - reflexivity.
Defined.

(** ** Converge-only executions *)


(** What the preparation does once the server url is configured and valid
    and both resolvers resolve: it overwrites the description, and it ends
    as the reconciliation of the definition ends. *)
Lemma prepare_resolved env registration gi server_url jobName parameters :
  url (merge (server registration) (sdm_jenkins (configuration gi))) = Some server_url ->
  server_url <> "" ->
  validURL env server_url = true ->
  outcome (getJobName registration gi) = Returned jobName ->
  outcome (getParameters registration gi) = Returned parameters ->
  let gi' := withDescription ("Jenkins " ++ codeLine jobName) gi in
  invocation (prepare env registration gi) = gi' /\
  outcome (prepare env registration gi) =
    match outcome (createOrUpdateJob env jobName registration gi') with
    | Returned _ => Returned (jobName, parameters)
    | Thrown x => Thrown x
    | Pending => Pending
    end.
Proof.
  intros Hurl Hne Hvalid Hjob Hpar gi'.
  remember (prepare env registration gi) as r eqn:Hr.
  unfold prepare in Hr. step Hr. rewrite Hurl in Hr. cbn [falsy] in Hr.
  destruct (String.eqb_spec server_url ""); [contradiction|].
  rewrite Hvalid in Hr. repeat step Hr.
  pose proof (getJobName_Unchanged registration gi) as Hu1.
  destruct (getJobName registration gi) as [ev1 inv1 o1] eqn:E1.
  cbn in Hjob, Hu1. subst o1 inv1. run_in Hr E1.
  pose proof (getParameters_Unchanged registration gi) as Hu2.
  destruct (getParameters registration gi) as [ev2 inv2 o2] eqn:E2.
  cbn in Hpar, Hu2. subst o2 inv2. run_in Hr E2.
  unfold setDescription in Hr. rewrite bind_assoc in Hr. repeat step Hr.
  fold gi' in Hr.
  pose proof (createOrUpdateJob_Unchanged env jobName registration gi') as Hu3.
  destruct (createOrUpdateJob env jobName registration gi') as [ev3 inv3 [[]|x|]] eqn:E3;
    cbn in Hu3; subst inv3; run_in Hr E3; subst r; split; reflexivity.
Qed.

Lemma prepare_returns env registration gi server_url jobName parameters :
  url (merge (server registration) (sdm_jenkins (configuration gi))) = Some server_url ->
  server_url <> "" ->
  validURL env server_url = true ->
  outcome (getJobName registration gi) = Returned jobName ->
  outcome (getParameters registration gi) = Returned parameters ->
  outcome (createOrUpdateJob env jobName registration
             (withDescription ("Jenkins " ++ codeLine jobName) gi)) = Returned tt ->
  outcome (prepare env registration gi) = Returned (jobName, parameters).
Proof.
  intros Hurl Hne Hvalid Hjob Hpar Hdef.
  destruct (prepare_resolved env registration gi Hurl Hne Hvalid Hjob Hpar) as (_ & Hout).
  rewrite Hout, Hdef. reflexivity.
Qed.





(** With [convergeOnly = true] and a server that never answers the existence
    check, the execution neither returns nor throws. *)
Lemma converge_only_unanswered_waits :
  convergeOnly converge_registration = Some true /\
  outcome (executeJenkins silent_env 0 converge_registration scenario_invocation) = Pending.
Proof. split; reflexivity. Qed.

(** ** Reconciliation of the definition *)

(** C5.  When the registration supplies a definition and the existence
    check answers, one run of [createOrUpdateJob] issues the existence check
    and then exactly one write: [job.config] if the job is reported present,
    [job.create] if it is reported absent.  When no definition is supplied it
    issues no remote call, only lines on the progress log. *)
Theorem reconcile_one_write env jobName registration gi :
  let evs := events (createOrUpdateJob env jobName registration gi) in
  (forall definition present,
     suppliedDefinition registration gi = Some (Resolved definition) ->
     job_exists env jobName = Resolved present ->
     filter isWrite evs =
       [ if present then JobConfig jobName definition
         else JobCreate jobName definition ] /\
     filter (fun e => negb (isProgress e)) evs =
       [ JobExists jobName;
         if present then JobConfig jobName definition
         else JobCreate jobName definition ]) /\
  (suppliedDefinition registration gi = None ->
     forallb isProgress evs = true).
Proof.
  intros evs. subst evs.
  remember (createOrUpdateJob env jobName registration gi) as r eqn:Hr.
  unfold createOrUpdateJob, progressLog_write in Hr. step Hr.
  unfold suppliedDefinition, truthy in *.
  split.
  - intros d present Hd He.
    assert (Hrun : r = (definition <- ret d ;;
                        exists_ <- call (JobExists jobName) (job_exists env jobName) ;;
                        (if exists_ : bool
                         then call (JobConfig jobName definition)
                                (job_config env jobName definition)
                         else call (JobCreate jobName definition)
                                (job_create env jobName definition)) ;;
                        emit (ProgressWrite "/--") ;;
                        emit (ProgressWrite
                                ("Updating definition of Jenkins job '" ++ jobName ++ "'")) ;;
                        emit (ProgressWrite "\--")) gi).
    { destruct (definition registration) as [[s|f]|]; try discriminate.
      - destruct (String.eqb s ""); [discriminate|]. injection Hd as ->. exact Hr.
      - injection Hd as Hf. rewrite Hf in Hr. exact Hr. }
    clear Hr. rewrite He in Hrun. repeat step Hrun.
    destruct present.
    + destruct (job_config env jobName d) as [[]|x|]; repeat step Hrun;
        subst r; split; reflexivity.
    + destruct (job_create env jobName d) as [[]|x|]; repeat step Hrun;
        subst r; split; reflexivity.
  - intros Hd.
    assert (Hrun : r = (emit (ProgressWrite "/--") ;;
                        emit (ProgressWrite
                                ("Not updating definition of Jenkins job '" ++ jobName
                                 ++ "' as no definition was provided.")) ;;
                        emit (ProgressWrite "\--")) gi).
    { destruct (definition registration) as [[s|f]|]; try discriminate; [|exact Hr].
      destruct (String.eqb s ""); [exact Hr | discriminate]. }
    rewrite Hrun. reflexivity.
Qed.

Lemma reconcile_one_write_witness :
  let evs := events (createOrUpdateJob scenario_env "app" converge_registration
                       scenario_invocation) in
  filter isWrite evs = [ JobConfig "app" "<flow-definition/>" ] /\
  filter (fun e => negb (isProgress e)) evs =
    [ JobExists "app"; JobConfig "app" "<flow-definition/>" ] /\
  forallb isProgress
    (events (createOrUpdateJob scenario_env "app" scenario_registration
               scenario_invocation)) = true.
Proof.
  destruct (@reconcile_one_write scenario_env "app" converge_registration
              scenario_invocation) as (Hsome & _).
  destruct (@reconcile_one_write scenario_env "app" scenario_registration
              scenario_invocation) as (_ & Hnone).
  destruct (Hsome "<flow-definition/>" true eq_refl eq_refl) as (Hw & Hc).
  split; [exact Hw|]. split; [exact Hc|]. apply Hnone. reflexivity.
Defined.

(** ** Status reports *)

Lemma webhooks_split pre kind data team post :
  webhooks (pre ++ PostWebhook kind data team :: post) =
    (webhooks pre ++ data :: webhooks post)%list.
Proof. now rewrite webhooks_app. Qed.

(** The reports of an execution: none, the start alone, or the start and
    then a second report on the same build. *)
Lemma executeJenkins_reports env fuel registration gi :
  let ws := webhooks (events (executeJenkins env fuel registration gi)) in
  ws = [] \/
  exists first,
    status first = Some started /\
    (ws = [first] \/ exists second, ws = [first; second] /\ refOf second = refOf first).
Proof.
  intros ws. subst ws.
  destruct (@executeJenkins_followed env fuel registration gi _ eq_refl)
    as [(Hq & _) | (pre & jn & item & gi1 & Hpre & Hr)].
  - left. now apply unreported_webhooks.
  - right. rewrite Hr. unfold after. cbn [events].
    rewrite webhooks_app, (unreported_webhooks _ Hpre). cbn [app].
    destruct (@followBuild_webhooks env jn item gi1 _ eq_refl)
      as [(Hw & _) | (detail & _ & Hw & _)]; rewrite Hw;
      exists (buildData env (Some started) (goalEvent gi1) (build_ref_url item) (id item));
      (split; [reflexivity|]); [left | right; eexists; split]; reflexivity.
Qed.

(** C6.  In every execution, a status report that is not the "started"
    report is preceded by a "started" report on the same build (same number,
    same url). *)
Theorem started_precedes_terminal env fuel registration gi pre kind data team post :
  events (executeJenkins env fuel registration gi) =
    (pre ++ PostWebhook kind data team :: post)%list ->
  status data <> Some started ->
  exists first,
    In first (webhooks pre) /\ status first = Some started /\ refOf first = refOf data.
Proof.
  intros Hev Hterminal.
  pose proof (executeJenkins_reports env fuel registration gi) as H. cbn zeta in H.
  rewrite Hev, webhooks_split in H.
  destruct H as [H | (first & Hfirst & [H | (second & H & Href)])].
  - destruct (webhooks pre); discriminate.
  - destruct (webhooks pre) as [|a [|b l]]; try discriminate.
    injection H as -> _. contradiction.
  - destruct (webhooks pre) as [|a [|b l]].
    + injection H as -> _. contradiction.
    + injection H as -> -> _. exists first. cbn. auto.
    + destruct l; discriminate.
Qed.

Lemma started_precedes_terminal_witness :
  exists first,
    In first (webhooks (firstn 25 (events (executeJenkins scenario_env 5 scenario_registration
                                             scenario_invocation)))) /\
    status first = Some started /\
    refOf first = (7%N, "http://ci/job/app/7/").
Proof.
  apply (@started_precedes_terminal scenario_env 5 scenario_registration scenario_invocation
           (firstn 25 (events (executeJenkins scenario_env 5 scenario_registration
                                 scenario_invocation)))
           "build"
           (buildData scenario_env (Some passed) (goalEvent scenario_invocation)
              "http://ci/job/app/7/" 7%N)
           "T29E48P34" []).
  - reflexivity.
  - discriminate.
Defined.

(** C10.  When an execution has fetched the detail of its build, it has
    posted exactly two status reports: the start, and a second report on the
    same build whose status is the one [mapOutcome] gives for the result code
    of the detail; the description it returns carries that same status. *)
Theorem terminal_report_carries_mapped_status env fuel registration gi jobName buildId detail :
  let r := executeJenkins env fuel registration gi in
  In (BuildGet jobName buildId) (events r) ->
  build_get env jobName buildId = Resolved detail ->
  exists reportStarted reportTerminal,
    webhooks (events r) = [reportStarted; reportTerminal] /\
    status reportStarted = Some started /\
    status reportTerminal = fst (mapOutcome (result detail)) /\
    data_number reportTerminal = buildId /\
    refOf reportTerminal = refOf reportStarted /\
    (forall res, outcome r = Returned res ->
       result_description res =
         "Jenkins " ++ codeLine jobName ++ " " ++ showStatus (status reportTerminal)).
Proof.
  intros r Hin Hget.
  destruct (@executeJenkins_terminal env fuel registration gi jobName buildId detail r
              eq_refl Hin Hget) as ((sdmGoal & u & Hw) & Hres).
  do 2 eexists. split; [exact Hw|]. cbn. repeat split.
  intros res H. rewrite (Hres res H). reflexivity.
Qed.

Lemma terminal_report_carries_mapped_status_witness :
  let r := executeJenkins scenario_env 5 scenario_registration scenario_invocation in
  exists reportStarted reportTerminal,
    webhooks (events r) = [reportStarted; reportTerminal] /\
    status reportStarted = Some started /\
    status reportTerminal = Some passed /\
    data_number reportTerminal = 7%N /\
    refOf reportTerminal = refOf reportStarted /\
    (forall res, outcome r = Returned res ->
       result_description res =
         "Jenkins " ++ codeLine "app" ++ " " ++ showStatus (status reportTerminal)).
Proof.
  apply (@terminal_report_carries_mapped_status scenario_env 5 scenario_registration
           scenario_invocation "app" 7%N
           {| result := Some "SUCCESS"; detail_url := "http://ci/job/app/7/" |}).
  - vm_compute. do 21 right. left. reflexivity.
  - reflexivity.
Defined.

(** ** The invocation after an execution *)

(** C9, as the code has it.  An execution leaves the context, the
    configuration and the repository, sha and branch of the goal event as they
    were.  The description of the goal event is the one field it writes: it
    is overwritten with "Jenkins" and the job name as [codeLine] renders it
    once the server url is configured and valid and the resolvers of the job
    name and of the parameters have both returned, and the whole invocation
    is as it was supplied when the url is missing, empty or invalid, or when
    one of the two resolvers does not return. *)
Theorem invocation_kept_but_description env fuel registration gi :
  let gi' := invocation (executeJenkins env fuel registration gi) in
  let server_url := url (merge (server registration) (sdm_jenkins (configuration gi))) in
  context gi' = context gi /\
  configuration gi' = configuration gi /\
  repo (goalEvent gi') = repo (goalEvent gi) /\
  sha (goalEvent gi') = sha (goalEvent gi) /\
  branch (goalEvent gi') = branch (goalEvent gi) /\
  (forall u jobName parameters,
     server_url = Some u ->
     u <> "" ->
     validURL env u = true ->
     outcome (getJobName registration gi) = Returned jobName ->
     outcome (getParameters registration gi) = Returned parameters ->
     description (goalEvent gi') = "Jenkins " ++ codeLine jobName) /\
  (falsy server_url = true -> gi' = gi) /\
  (forall u, server_url = Some u -> validURL env u = false -> gi' = gi) /\
  ((forall jobName, outcome (getJobName registration gi) <> Returned jobName) -> gi' = gi) /\
  ((forall parameters, outcome (getParameters registration gi) <> Returned parameters) ->
   gi' = gi).
Proof.
  intros gi' server_url.
  assert (Hinv : gi' = invocation (prepare env registration gi)).
  { subst gi'.
    destruct (@executeJenkins_cases env fuel registration gi _ eq_refl)
      as [(_ & Hr) | (jn & ps & _ & Hr)]; rewrite Hr; [reflexivity|].
    unfold after. cbn [invocation].
    destruct (convergeOnly registration) as [[]|];
      first [apply notStarting_Unchanged | apply startJob_Unchanged]. }
  rewrite Hinv, prepare_description. clear Hinv gi'. fold server_url.
  assert (Hfields : forall gi0 : GoalInvocation,
            (gi0 = gi \/ exists d, gi0 = withDescription d gi) ->
            context gi0 = context gi /\ configuration gi0 = configuration gi /\
            repo (goalEvent gi0) = repo (goalEvent gi) /\
            sha (goalEvent gi0) = sha (goalEvent gi) /\
            branch (goalEvent gi0) = branch (goalEvent gi)).
  { intros gi0 [-> | (d & ->)]; repeat split. }
  assert (Hcases : forall gi0 : GoalInvocation,
            gi0 = match (if falsy server_url then None else server_url) with
                  | None => gi
                  | Some u =>
                      if validURL env u then
                        match outcome (getJobName registration gi) with
                        | Returned jobName =>
                            match outcome (getParameters registration gi) with
                            | Returned _ => withDescription ("Jenkins " ++ codeLine jobName) gi
                            | _ => gi
                            end
                        | _ => gi
                        end
                      else gi
                  end ->
            gi0 = gi \/ exists d, gi0 = withDescription d gi).
  { intros gi0 ->. destruct (if falsy server_url then None else server_url) as [u|]; [|now left].
    destruct (validURL env u); [|now left].
    destruct (outcome (getJobName registration gi)) as [jn|x|]; try now left.
    destruct (outcome (getParameters registration gi)) as [ps|x|]; try now left.
    right. eauto. }
  destruct (Hfields _ (Hcases _ eq_refl)) as (H1 & H2 & H3 & H4 & H5).
  do 5 (split; [assumption|]). clear Hfields Hcases H1 H2 H3 H4 H5.
  split; [|split; [|split; [|split]]].
  - intros u jn ps Hurl Hne Hvalid Hjob Hpar. rewrite Hurl. cbn [falsy].
    destruct (String.eqb_spec u ""); [contradiction|].
    rewrite Hvalid, Hjob, Hpar. reflexivity.
  - intros H. now rewrite H.
  - intros u Hurl Hvalid. rewrite Hurl.
    destruct (falsy (Some u)); [reflexivity|]. now rewrite Hvalid.
  - intros H. destruct (if falsy server_url then None else server_url) as [u|]; [|reflexivity].
    destruct (validURL env u); [|reflexivity].
    destruct (outcome (getJobName registration gi)) as [jn|x|] eqn:E; try reflexivity.
    now destruct (H jn).
  - intros H. destruct (if falsy server_url then None else server_url) as [u|]; [|reflexivity].
    destruct (validURL env u); [|reflexivity].
    destruct (outcome (getJobName registration gi)) as [jn|x|]; try reflexivity.
    destruct (outcome (getParameters registration gi)) as [ps|x|] eqn:E; try reflexivity.
    now destruct (H ps).
Qed.

Lemma invocation_kept_but_description_witness :
  description
    (goalEvent (invocation (executeJenkins scenario_env 5 scenario_registration
                              scenario_invocation))) = "Jenkins `app`" /\
  invocation (executeJenkins scenario_env 5 rejecting_registration scenario_invocation) =
    scenario_invocation.
Proof.
  destruct (invocation_kept_but_description scenario_env 5 scenario_registration
              scenario_invocation) as (_ & _ & _ & _ & _ & Hwritten & _).
  destruct (invocation_kept_but_description scenario_env 5 rejecting_registration
              scenario_invocation) as (_ & _ & _ & _ & _ & _ & _ & _ & _ & Hkept).
  split.
  - apply (Hwritten "http://ci:8080" "app" None); try reflexivity. discriminate.
  - apply Hkept. intros parameters. discriminate.
Defined.

(** The goal event does not keep its description. *)
Lemma description_is_overwritten :
  let gi' := invocation (executeJenkins scenario_env 5 scenario_registration
                           scenario_invocation) in
  description (goalEvent scenario_invocation) = "Planned: jenkins" /\
  description (goalEvent gi') = "Jenkins `app`" /\
  description (goalEvent gi') <> description (goalEvent scenario_invocation).
Proof. repeat split. discriminate. Qed.

(** ** Server options *)

(** [_.merge] lets the process-wide configuration win over the
    registration, field by field. *)
Lemma merge_configuration_wins registrationServer configured :
  let merged := merge registrationServer (Some configured) in
  (forall v, url configured = Some v -> url merged = Some v) /\
  (forall v, user configured = Some v -> user merged = Some v) /\
  (forall v, password configured = Some v -> password merged = Some v).
Proof.
  unfold merge, mergeSource, mergeField. cbn.
  repeat split; intros v H; rewrite H; reflexivity.
Qed.

(** The registration's value is used for a field the configuration leaves
    absent. *)
Lemma merge_registration_fallback registrationServer configured :
  let merged := merge (Some registrationServer) configured in
  (forall c, configured = Some c -> url c = None) -> url merged = url registrationServer.
Proof.
  intros merged H. subst merged. unfold merge, mergeSource, mergeField. cbn.
  destruct configured as [c|]; cbn.
  - rewrite (H c eq_refl). now destruct (url registrationServer).
  - now destruct (url registrationServer).
Qed.

(** C7, at an input where registration and configuration both name a
    server: the client is created for the server of the configuration, with
    the credentials of the configuration. *)
Theorem configuration_overrides_registration :
  server converge_registration =
    Some {| url := Some "http://ci:8080"; user := Some "admin"; password := Some "123456" |} /\
  sdm_jenkins (configuration configured_invocation) =
    Some {| url := Some "http://shared-ci:8080"; user := Some "sdm";
            password := Some "secret" |} /\
  connections (events (executeJenkins scenario_env 0 converge_registration
                         configured_invocation)) =
    [ {| href_base := "http://shared-ci:8080"; username := "sdm";
         url_password := "secret" |} ].
Proof. repeat split. Qed.

(** ** Progress announcements *)

(** C8, at the execution of the scenario: the three announcements are each
    framed by the two marker lines; the tests of [JenkinsProgressTests] find
    the phase "queued" in the first and "started" in the second, and no test
    matches the announcement of the completion. *)
Theorem completion_announcement_unmatched :
  progressLines (events (executeJenkins scenario_env 5 scenario_registration
                           scenario_invocation)) =
    [ "/--";
      "Not updating definition of Jenkins job 'app' as no definition was provided.";
      "\--";
      "/--"; "Starting Jenkins job 'app' with parameters '{}'"; "\--";
      "/--"; "Jenkins job 'app' started with build id '7'"; "\--";
      "Building"; "Finished";
      "/--"; "Jenkins job 'app' completed with success"; "\--" ] /\
  phasesOf "Starting Jenkins job 'app' with parameters '{}'" = ["queued"] /\
  phasesOf "Jenkins job 'app' started with build id '7'" = ["started"] /\
  phasesOf "Jenkins job 'app' completed with success" = [].
Proof. repeat split. Qed.

(** * Further properties *)

(** ** The matcher against the meaning of the expressions *)

Lemma append_nil_inv (u v : string) : u ++ v = "" -> u = "" /\ v = "".
Proof. destruct u; [auto | discriminate]. Qed.

Lemma append_assoc (a b c : string) : (a ++ b) ++ c = a ++ b ++ c.
Proof. induction a as [|x a IH]; cbn; [reflexivity | now rewrite IH]. Qed.

Lemma append_nil_r (a : string) : a ++ "" = a.
Proof. induction a as [|x a IH]; cbn; [reflexivity | now rewrite IH]. Qed.

Lemma nullable_Denotes i r : nullable r = true <-> Denotes i r "".
Proof.
  split.
  - induction r; cbn; intros H; try discriminate.
    + constructor.
    + now constructor.
    + apply andb_true_iff in H. destruct H as [H1 H2].
      change "" with ("" ++ ""). constructor; auto.
    + apply orb_true_iff in H. destruct H; [apply DenotesAltL | apply DenotesAltR]; auto.
    + constructor.
  - intros H. remember "" as w eqn:Hw.
    induction H; cbn; try discriminate; try reflexivity.
    + apply append_nil_inv in Hw. destruct Hw. rewrite IHDenotes1, IHDenotes2; auto.
    + rewrite IHDenotes; auto.
    + rewrite IHDenotes; auto. apply orb_true_r.
Qed.

Lemma Denotes_mkCat i r s w : Denotes i (mkCat r s) w <-> Denotes i (Cat r s) w.
Proof.
  destruct r; cbn; try tauto.
  - split; intros H; inversion H; subst.
    match goal with H' : Denotes _ Fail _ |- _ => inversion H' end.
  - split; intros H.
    + change w with ("" ++ w). constructor; [constructor | exact H].
    + inversion H; subst.
      match goal with H' : Denotes _ Eps _ |- _ => inversion H'; subst end. assumption.
Qed.

Lemma Denotes_mkAlt i r s w : Denotes i (mkAlt r s) w <-> Denotes i (Alt r s) w.
Proof.
  assert (HF : forall w', ~ Denotes i Fail w') by (intros w' H; inversion H).
  assert (HL : Denotes i s w <-> Denotes i (Alt Fail s) w).
  { split; intros H; [now apply DenotesAltR|]. inversion H; subst; [now apply HF in H3 | assumption]. }
  assert (HR : Denotes i r w <-> Denotes i (Alt r Fail) w).
  { split; intros H; [now apply DenotesAltL|]. inversion H; subst; [assumption | now apply HF in H3]. }
  destruct r; try exact HL; destruct s; try exact HR; cbn; tauto.
Qed.

(** A non-empty word of a starred expression begins with a non-empty word
    of the expression. *)
Lemma Denotes_Star_cons i r c w :
  Denotes i (Star r) (String c w) ->
  exists u v, w = u ++ v /\ Denotes i r (String c u) /\ Denotes i (Star r) v.
Proof.
  intros H. remember (Star r) as sr eqn:Hsr. remember (String c w) as cw eqn:Hcw.
  revert c w Hcw. induction H; intros c' w' Hcw; try discriminate.
  injection Hsr as ->. destruct u as [|a u].
  - cbn in Hcw. apply IHDenotes2; auto.
  - cbn in Hcw. injection Hcw as Ha Hw. subst c' w'. exists u, v. auto.
Qed.

Lemma deriv_Denotes i c r : forall w, Denotes i (deriv i c r) w <-> Denotes i r (String c w).
Proof.
  induction r; intros w; cbn [deriv].
  - split; intros H; inversion H.
  - split; intros H; inversion H.
  - destruct (sameChar i c0 c) eqn:E; split; intros H; inversion H; subst.
    + now constructor.
    + constructor.
    + congruence.
  - destruct (scan q c) as [q'|] eqn:E; split; intros H; inversion H; subst.
    + constructor. cbn [accepts]. now rewrite E.
    + constructor. cbn [accepts] in *. now rewrite E in *.
    + cbn [accepts] in *. rewrite E in *. discriminate.
  - split; intros H; inversion H; subst; constructor.
  - assert (Hcat : Denotes i (mkCat (deriv i c r1) r2) w <->
                   exists u v, w = u ++ v /\ Denotes i r1 (String c u) /\ Denotes i r2 v).
    { rewrite Denotes_mkCat. split.
      - intros H. inversion H; subst. exists u, v. rewrite <- IHr1. auto.
      - intros (u & v & -> & H1 & H2). constructor; [now apply IHr1 | exact H2]. }
    assert (Hsplit : Denotes i (Cat r1 r2) (String c w) <->
                     (exists u v, w = u ++ v /\ Denotes i r1 (String c u) /\ Denotes i r2 v)
                     \/ (Denotes i r1 "" /\ Denotes i r2 (String c w))).
    { split.
      - intros H. inversion H as [| | | | r s u v H1 H2 Hr Hw | | | |]; subst.
        destruct u as [|a u].
        + right. cbn in Hw. subst v. auto.
        + left. cbn in Hw. injection Hw as Ha Hw. subst a w. exists u, v. auto.
      - intros [(u & v & -> & H1 & H2) | (H1 & H2)].
        + change (String c (u ++ v)) with (String c u ++ v). now constructor.
        + change (String c w) with ("" ++ String c w). now constructor. }
    rewrite Hsplit. destruct (nullable r1) eqn:En.
    + rewrite Denotes_mkAlt. split.
      * intros H. inversion H; subst.
        -- left. now apply Hcat.
        -- right. split; [now apply nullable_Denotes | now apply IHr2].
      * intros [H | (_ & H)].
        -- apply DenotesAltL. now apply Hcat.
        -- apply DenotesAltR. now apply IHr2.
    + rewrite Hcat. split; [auto|]. intros [H | (H & _)]; [exact H|].
      apply nullable_Denotes in H. congruence.
  - rewrite Denotes_mkAlt. split; intros H; inversion H; subst.
    + apply DenotesAltL. now apply IHr1.
    + apply DenotesAltR. now apply IHr2.
    + apply DenotesAltL. now apply IHr1.
    + apply DenotesAltR. now apply IHr2.
  - rewrite Denotes_mkCat. split.
    + intros H. inversion H; subst.
      change (String c (u ++ v)) with (String c u ++ v).
      constructor; [now apply IHr | assumption].
    + intros H. apply Denotes_Star_cons in H. destruct H as (u & v & -> & H1 & H2).
      constructor; [now apply IHr | exact H2].
Qed.

Lemma matches_Denotes i w : forall r, matches i r w = true <-> Denotes i r w.
Proof.
  induction w as [|c w IH]; intros r; cbn [matches].
  - apply nullable_Denotes.
  - rewrite IH. apply deriv_Denotes.
Qed.

Lemma Denotes_Star_Any i w : Denotes i (Star Any) w.
Proof.
  induction w as [|c w IH]; [constructor|].
  change (String c w) with (String c "" ++ w). constructor; [constructor | exact IH].
Qed.

(** [test] finds the expression somewhere in the line. *)
Lemma test_Denotes re line :
  test re line = true <->
  exists before found behind,
    line = before ++ found ++ behind /\ Denotes (ignoreCase re) (source re) found.
Proof.
  unfold test. rewrite matches_Denotes. split.
  - intros H. inversion H as [| | | | r s u v H1 H2 Hr Hw | | | |]; subst.
    inversion H2 as [| | | | r s u' v' H3 H4 Hr Hw | | | |]; subst.
    exists u, u', v'. auto.
  - intros (a & m & b & -> & H).
    constructor; [apply Denotes_Star_Any|]. constructor; [exact H | apply Denotes_Star_Any].
Qed.

(** ** The traces of the phases *)

Lemma startLines_framed env jobName parameters :
  startLines env jobName parameters = framed (startingLine env jobName parameters).
Proof. reflexivity. Qed.

(** The events and the outcome of the block that follows a build, by the
    answers it gets. *)
Lemma followBuild_trace env jobName item gi :
  let log := awaitLogStream env (build_logStream env jobName (id item)) gi in
  let report s := buildData env s (goalEvent gi) (build_ref_url item) (id item) in
  let team := workspaceId (context gi) in
  events (followBuild env jobName item gi) =
    (framed (startedLine jobName (id item))
     ++ PostWebhook "build" (report (Some started)) team
     :: match postWebhook env "build" (report (Some started)) team with
        | Resolved _ =>
            LogStream jobName (id item) :: events log
            ++ match outcome log with
               | Returned _ =>
                   BuildGet jobName (id item)
                   :: match build_get env jobName (id item) with
                      | Resolved detail =>
                          framed (completedLine jobName (snd (mapOutcome (result detail))))
                          ++ [ PostWebhook "build"
                                 (report (fst (mapOutcome (result detail)))) team ]
                      | _ => []
                      end
               | _ => []
               end
        | _ => []
        end)%list /\
  outcome (followBuild env jobName item gi) =
    match postWebhook env "build" (report (Some started)) team with
    | Rejected x => Thrown x
    | Unsettled => Pending
    | Resolved _ =>
        match outcome log with
        | Thrown x => Thrown x
        | Pending => Pending
        | Returned _ =>
            match build_get env jobName (id item) with
            | Rejected x => Thrown x
            | Unsettled => Pending
            | Resolved detail =>
                match postWebhook env "build"
                        (report (fst (mapOutcome (result detail)))) team with
                | Rejected x => Thrown x
                | Unsettled => Pending
                | Resolved _ => Returned (completed jobName detail)
                end
            end
        end
    end.
Proof.
  intros log report team. subst log report team.
  remember (followBuild env jobName item gi) as r eqn:Hr.
  unfold followBuild, updateBuildStatus, progressLog_write in Hr.
  repeat step Hr.
  destruct (postWebhook env "build" _ _) as [?|x|]; repeat step Hr.
  2,3: subst r; split; reflexivity.
  pose proof (awaitLogStream_Unchanged env (build_logStream env jobName (id item)) gi) as Hu.
  destruct (awaitLogStream env _ gi) as [ev inv [[]|x|]] eqn:E; cbn in Hu; subst inv;
    run_in Hr E; cbn [events outcome].
  2,3: subst r; cbn; rewrite app_nil_r; split; reflexivity.
  destruct (build_get env jobName (id item)) as [detail|x|] eqn:Hget; repeat step Hr.
  2,3: subst r; split; reflexivity.
  unfold completed, completedLine.
  destruct (mapOutcome (result detail)) as [status state]. cbn [fst snd].
  repeat step Hr.
  destruct (postWebhook env "build" _ _) as [?|x|]; repeat step Hr;
    subst r; split; reflexivity.
Qed.

(** The events and the outcome of the branch that starts the job. *)
Lemma startJob_trace env fuel jobName parameters gi :
  let trigger := triggerJob env fuel jobName parameters gi in
  events (startJob env fuel jobName parameters gi) =
    (framed (startingLine env jobName parameters) ++ events trigger
     ++ match outcome trigger with
        | Returned (Some item) => events (followBuild env jobName item gi)
        | _ => []
        end)%list /\
  outcome (startJob env fuel jobName parameters gi) =
    match outcome trigger with
    | Returned (Some item) => outcome (followBuild env jobName item gi)
    | Returned None => Returned (triggered jobName)
    | Thrown x => Thrown x
    | Pending => Pending
    end.
Proof.
  intros trigger. subst trigger.
  remember (startJob env fuel jobName parameters gi) as r eqn:Hr.
  unfold startJob, progressLog_write in Hr. repeat step Hr.
  pose proof (triggerJob_Unchanged env fuel jobName parameters gi) as Hu.
  destruct (triggerJob env fuel jobName parameters gi) as [ev inv [[item|]|x|]] eqn:E;
    cbn in Hu; subst inv; run_in Hr E; subst r; cbn [events outcome];
    unfold after; cbn; rewrite ?app_nil_r; split; reflexivity.
Qed.

(** The events and the outcome of an execution, by its phases. *)
Lemma executeJenkins_trace env fuel registration gi :
  let p := prepare env registration gi in
  let r := executeJenkins env fuel registration gi in
  (forall jobName parameters,
     outcome p = Returned (jobName, parameters) ->
     let branch :=
       match convergeOnly registration with
       | Some true => notStarting jobName (invocation p)
       | _ => startJob env fuel jobName parameters (invocation p)
       end in
     events r = (events p ++ events branch)%list /\ outcome r = outcome branch) /\
  (forall x, outcome p = Thrown x -> events r = events p /\ outcome r = Thrown x) /\
  (outcome p = Pending -> events r = events p /\ outcome r = Pending).
Proof.
  intros p r. subst p.
  destruct (@executeJenkins_cases env fuel registration gi r eq_refl)
    as [(Hx & Hr) | (jn & ps & Hout & Hr)]; (split; [|split]).
  - intros jobName parameters H. now apply Hx in H.
  - intros y H. rewrite Hr, H. split; reflexivity.
  - intros H. rewrite Hr, H. split; reflexivity.
  - intros jobName parameters H. rewrite H in Hout. injection Hout as -> ->.
    rewrite Hr. split; reflexivity.
  - intros y H. rewrite H in Hout. discriminate.
  - intros H. rewrite H in Hout. discriminate.
Qed.

(** ** Outcome of a followed build *)

Lemma forwarded_progress env log : forallb isProgress (forwarded env log) = true.
Proof. induction log as [|[text|err|] log IH]; cbn; auto. Qed.

(** The wait on the log stream is over when the stream has signalled its
    end, whatever else it delivers. *)
Lemma logHandlers_run env log gi :
  forall resolved,
    logHandlers env log resolved gi =
      mkRun (forwarded env log) gi (Returned (resolved || existsb isEnd log)).
Proof.
  induction log as [|[text|err|] log IH]; intros resolved; cbn [logHandlers forwarded existsb isEnd].
  - now rewrite orb_false_r.
  - unfold progressLog_write. rewrite bind_emit, IH. reflexivity.
  - unfold progressLog_write. rewrite bind_emit, IH. reflexivity.
  - rewrite IH. cbn. now rewrite orb_true_r.
Qed.

Lemma awaitLogStream_run env log gi :
  awaitLogStream env log gi =
    mkRun (forwarded env log) gi (if existsb isEnd log then Returned tt else Pending).
Proof.
  unfold awaitLogStream. rewrite (bind_run _ (logHandlers_run env log gi false)).
  cbn [orb]. destruct (existsb isEnd log); unfold after; cbn; now rewrite app_nil_r.
Qed.

(** C1.  In every execution that follows its build to the end (the server
    url is configured and valid, the resolvers and the reconciliation return,
    the trigger gives a build, the status backend answers, the log stream
    signals its end and the detail of the build is fetched), the status of the
    second report and the state of the result that is returned are the ones
    the switch on the result code gives: passed and success for SUCCESS,
    canceled and stopped for ABORTED, failed and failure for FAILURE, and
    neither a status nor a state for any other code; the state is success for
    no code but SUCCESS. *)
Theorem outcome_mapping
    env fuel registration gi server_url jobName parameters item detail accepted :
  url (merge (server registration) (sdm_jenkins (configuration gi))) = Some server_url ->
  server_url <> "" ->
  validURL env server_url = true ->
  convergeOnly registration <> Some true ->
  outcome (getJobName registration gi) = Returned jobName ->
  outcome (getParameters registration gi) = Returned parameters ->
  let gi1 := withDescription ("Jenkins " ++ codeLine jobName) gi in
  outcome (createOrUpdateJob env jobName registration gi1) = Returned tt ->
  outcome (triggerJob env fuel jobName parameters gi1) = Returned (Some item) ->
  (forall data,
     postWebhook env "build" data (workspaceId (context gi)) = Resolved (accepted data)) ->
  existsb isEnd (build_logStream env jobName (id item)) = true ->
  build_get env jobName (id item) = Resolved detail ->
  let r := executeJenkins env fuel registration gi in
  exists status state,
    webhooks (events r) =
      [ buildData env (Some started) (goalEvent gi1) (build_ref_url item) (id item);
        buildData env status (goalEvent gi1) (build_ref_url item) (id item) ] /\
    outcome r =
      Returned {| state := state;
                  result_description :=
                    "Jenkins " ++ codeLine jobName ++ " " ++ showStatus status;
                  externalUrls := [ {| label := "Log"; link := detail_url detail |} ] |} /\
    (result detail = Some "SUCCESS" -> status = Some passed /\ state = Some success) /\
    (result detail = Some "ABORTED" -> status = Some canceled /\ state = Some stopped) /\
    (result detail = Some "FAILURE" -> status = Some failed /\ state = Some failure) /\
    (result detail <> Some "SUCCESS" -> result detail <> Some "ABORTED" ->
     result detail <> Some "FAILURE" -> status = None /\ state = None) /\
    (state = Some success -> result detail = Some "SUCCESS").
Proof.
  intros Hurl Hne Hvalid Hc Hjob Hpar gi1 Hdef Htrigger Hpost Hend Hget r.
  exists (fst (mapOutcome (result detail))), (snd (mapOutcome (result detail))).
  pose proof (prepare_returns _ _ _ Hurl Hne Hvalid Hjob Hpar Hdef) as Hout.
  destruct (executeJenkins_trace env fuel registration gi) as (Htrace & _).
  destruct (Htrace _ _ Hout) as (Hev & Ho). clear Htrace.
  rewrite (prepare_invocation _ _ _ Hout) in Hev, Ho. fold gi1 in Hev, Ho.
  assert (Hbranch : match convergeOnly registration with
                    | Some true => notStarting jobName gi1
                    | _ => startJob env fuel jobName parameters gi1
                    end = startJob env fuel jobName parameters gi1).
  { destruct (convergeOnly registration) as [[]|]; [contradiction | reflexivity | reflexivity]. }
  rewrite Hbranch in Hev, Ho. clear Hbranch.
  destruct (startJob_trace env fuel jobName parameters gi1) as (Hsev & Hso).
  rewrite Htrigger in Hsev, Hso.
  destruct (followBuild_trace env jobName item gi1) as (Hfev & Hfo).
  rewrite awaitLogStream_run, Hend, Hget in Hfev, Hfo. cbn [events outcome] in Hfev, Hfo.
  change (workspaceId (context gi1)) with (workspaceId (context gi)) in Hfev, Hfo.
  repeat rewrite Hpost in Hfev. repeat rewrite Hpost in Hfo.
  destruct (triggerJob_events env fuel jobName parameters gi1) as (polling & Hpev & Hpoll).
  split; [|split].
  - subst r. rewrite Hev, Hsev, Hpev, Hfev.
    rewrite !webhooks_app.
    rewrite (unreported_webhooks _ (preparatory_unreported _ (prepare_Emits env registration gi))).
    cbn [webhooks framed app].
    rewrite (unreported_webhooks _ (polling_unreported _ Hpoll)).
    rewrite webhooks_app, (progress_webhooks _ (forwarded_progress env _)).
    reflexivity.
  - subst r. rewrite Ho, Hso, Hfo. reflexivity.
  - unfold mapOutcome. destruct (result detail) as [c|].
    2:{ repeat split; intros; try discriminate; try congruence. }
    destruct (String.eqb_spec c "SUCCESS") as [->|H1].
    { repeat split; intros; try discriminate; try congruence. }
    destruct (String.eqb_spec c "ABORTED") as [->|H2].
    { repeat split; intros; try discriminate; try congruence. }
    destruct (String.eqb_spec c "FAILURE") as [->|H3].
    { repeat split; intros; try discriminate; try congruence. }
    repeat split; intros; try discriminate; try congruence.
Qed.

Lemma outcome_mapping_witness :
  outcome (executeJenkins scenario_env 5 scenario_registration scenario_invocation) =
    Returned {| state := Some success;
                result_description := "Jenkins `app` passed";
                externalUrls := [ {| label := "Log"; link := "http://ci/job/app/7/" |} ] |} /\
  outcome (executeJenkins unstable_env 5 scenario_registration scenario_invocation) =
    Returned {| state := None;
                result_description := "Jenkins `app` undefined";
                externalUrls := [ {| label := "Log"; link := "http://ci/job/app/7/" |} ] |}.
Proof.
  split.
  - destruct (@outcome_mapping scenario_env 5 scenario_registration scenario_invocation
                "http://ci:8080" "app" None
                {| id := 7%N; build_ref_url := "http://ci/job/app/7/" |}
                {| result := Some "SUCCESS"; detail_url := "http://ci/job/app/7/" |}
                (fun _ => true) eq_refl ltac:(discriminate) eq_refl ltac:(discriminate) eq_refl eq_refl
                eq_refl eq_refl (fun _ => eq_refl) eq_refl eq_refl)
      as (status & state & _ & Hout & Hsuccess & _).
    destruct (Hsuccess eq_refl) as (Hstatus & Hstate).
    rewrite Hout, Hstatus, Hstate. reflexivity.
  - destruct (@outcome_mapping unstable_env 5 scenario_registration scenario_invocation
                "http://ci:8080" "app" None
                {| id := 7%N; build_ref_url := "http://ci/job/app/7/" |}
                {| result := Some "UNSTABLE"; detail_url := "http://ci/job/app/7/" |}
                (fun _ => true) eq_refl ltac:(discriminate) eq_refl ltac:(discriminate) eq_refl eq_refl
                eq_refl eq_refl (fun _ => eq_refl) eq_refl eq_refl)
      as (status & state & _ & Hout & _ & _ & _ & Hother & _).
    destruct Hother as (Hstatus & Hstate); try discriminate.
    rewrite Hout, Hstatus, Hstate. reflexivity.
Defined.

(** ** The guard on the server url *)

(** X1.  When the merged server options have no url, or an empty one, the
    execution throws the configuration error at once: nothing was called or
    written, and the invocation is as it was supplied. *)
Theorem missing_url_aborts_before_any_call env fuel registration gi :
  falsy (url (merge (server registration) (sdm_jenkins (configuration gi)))) = true ->
  executeJenkins env fuel registration gi =
    mkRun [] gi
      (Thrown "Jenkins server configuration incomplete. Please configure your server url at 'sdm.jenkins.url'").
Proof.
  intros H. unfold executeJenkins. rewrite bind_getInvocation, H. reflexivity.
Qed.

Lemma missing_url_aborts_before_any_call_witness :
  executeJenkins scenario_env 5 scenario_registration
    {| goalEvent := goalEvent scenario_invocation;
       context := context scenario_invocation;
       configuration :=
         {| sdm_jenkins := Some {| url := Some ""; user := None; password := None |} |} |} =
    mkRun []
      {| goalEvent := goalEvent scenario_invocation;
         context := context scenario_invocation;
         configuration :=
           {| sdm_jenkins := Some {| url := Some ""; user := None; password := None |} |} |}
      (Thrown "Jenkins server configuration incomplete. Please configure your server url at 'sdm.jenkins.url'").
Proof.
  apply (@missing_url_aborts_before_any_call scenario_env 5 scenario_registration).
  reflexivity.
Defined.

(** ** The queue, answer by answer *)

Lemma running_None item : running item = None <-> carriesBuildNumber item = false.
Proof.
  destruct item as [[[[[n|] u]|]]|]; cbn; try tauto.
  destruct (N.eqb n 0); cbn; split; intros; try discriminate; reflexivity.
Qed.

Lemma running_Some item ref :
  running item = Some ref ->
  carriesBuildNumber item = true /\ id ref <> 0%N /\
  item = Some {| executable := Some {| number := Some (id ref);
                                       exe_url := build_ref_url ref |} |}.
Proof.
  destruct item as [[[[[n|] u]|]]|]; cbn; try discriminate.
  destruct (N.eqb_spec n 0); [discriminate|].
  intros H. injection H as <-. cbn. auto.
Qed.

Lemma polls_S build n :
  concat (repeat [QueueItemLookup build; Sleep 500] (S n)) =
    QueueItemLookup build :: Sleep 500
    :: concat (repeat [QueueItemLookup build; Sleep 500] n).
Proof. reflexivity. Qed.

(** The loop keeps polling as long as no answer carries a build number. *)
Lemma waitForBuild_waiting env build :
  forall fuel k gi,
    (forall j, j < fuel ->
       exists item, queue_item env build (k + j) = Resolved item /\
                    carriesBuildNumber item = false) ->
    waitForBuild env build fuel k gi =
      mkRun (concat (repeat [QueueItemLookup build; Sleep 500] fuel)) gi Pending.
Proof.
  induction fuel as [|fuel IH]; intros k gi H; [reflexivity|].
  destruct (H 0 ltac:(lia)) as (item & Hq & Hc). rewrite Nat.add_0_r in Hq.
  cbn [waitForBuild]. rewrite Hq, bind_call_resolved, bind_emit.
  apply running_None in Hc. rewrite Hc, IH.
  - reflexivity.
  - intros j Hj. destruct (H (S j) ltac:(lia)) as (it & Hq' & Hc').
    exists it. split; [|exact Hc']. rewrite <- Hq'. f_equal. lia.
Qed.

(** A rejected lookup ends the loop at once, without the pause. *)
Lemma waitForBuild_rejected env build x :
  forall n fuel k gi,
    (forall j, j < n ->
       exists item, queue_item env build (k + j) = Resolved item /\
                    carriesBuildNumber item = false) ->
    queue_item env build (k + n) = Rejected x ->
    n < fuel ->
    waitForBuild env build fuel k gi =
      mkRun (concat (repeat [QueueItemLookup build; Sleep 500] n)
             ++ [QueueItemLookup build]) gi (Thrown x).
Proof.
  induction n as [|n IH]; intros fuel k gi H Hx Hfuel;
    (destruct fuel as [|fuel]; [lia|]); cbn [waitForBuild].
  - rewrite Nat.add_0_r in Hx. rewrite Hx, bind_call_rejected. reflexivity.
  - destruct (H 0 ltac:(lia)) as (item & Hq & Hc). rewrite Nat.add_0_r in Hq.
    rewrite Hq, bind_call_resolved, bind_emit.
    apply running_None in Hc. rewrite Hc, (IH fuel (S k) gi).
    + reflexivity.
    + intros j Hj. destruct (H (S j) ltac:(lia)) as (it & Hq' & Hc').
      exists it. split; [|exact Hc']. rewrite <- Hq'. f_equal. lia.
    + rewrite <- Hx. f_equal. lia.
    + lia.
Qed.

(** A returned build is one the queue answered with, after answers that
    carried none. *)
Lemma waitForBuild_returned env build ref :
  forall fuel k gi evs gi',
    waitForBuild env build fuel k gi = mkRun evs gi' (Returned ref) ->
    exists n,
      n < fuel /\
      (forall j, j < n ->
         exists item, queue_item env build (k + j) = Resolved item /\
                      carriesBuildNumber item = false) /\
      (exists item, queue_item env build (k + n) = Resolved item /\
                    running item = Some ref) /\
      evs = concat (repeat [QueueItemLookup build; Sleep 500] (S n)).
Proof.
  induction fuel as [|fuel IH]; intros k gi evs gi' H; [discriminate|].
  cbn [waitForBuild] in H.
  destruct (queue_item env build k) as [item|x|] eqn:Hq;
    [rewrite bind_call_resolved, bind_emit in H | discriminate | discriminate].
  destruct (running item) as [ref'|] eqn:Hrun.
  - injection H as <- _ <-. exists 0. rewrite Nat.add_0_r.
    repeat split; [lia | intros j Hj; lia | eauto].
  - destruct (waitForBuild env build fuel (S k) gi) as [evs' gi'' o] eqn:Hw.
    unfold after in H. cbn in H. injection H as <- _ ->.
    destruct (IH (S k) gi evs' gi'' Hw) as (n & Hn & Hbefore & Hat & Hevs).
    exists (S n). repeat split.
    + lia.
    + intros [|j] Hj.
      * exists item. rewrite Nat.add_0_r. split; [exact Hq | now apply running_None].
      * destruct (Hbefore j ltac:(lia)) as (it & Hq' & Hc').
        exists it. split; [|exact Hc']. rewrite <- Hq'. f_equal. lia.
    + destruct Hat as (it & Hq' & Hr'). exists it. split; [|exact Hr'].
      rewrite <- Hq'. f_equal. lia.
    + rewrite Hevs. reflexivity.
Qed.

(** ** [triggerJob], answer by answer *)

(** What is known when [triggerJob] has returned a build. *)
Lemma triggerJob_returned env fuel jobName parameters gi ref :
  outcome (triggerJob env fuel jobName parameters gi) = Returned (Some ref) ->
  exists build n,
    job_build env jobName parameters = Resolved build /\
    isNaN build = false /\
    n < fuel /\
    (forall k, k < n ->
       exists item, queue_item env build k = Resolved item /\
                    carriesBuildNumber item = false) /\
    queue_item env build n =
      Resolved (Some {| executable := Some {| number := Some (id ref);
                                              exe_url := build_ref_url ref |} |}) /\
    id ref <> 0%N /\
    events (triggerJob env fuel jobName parameters gi) =
      JobBuild jobName parameters
      :: concat (repeat [QueueItemLookup build; Sleep 500] (S n)).
Proof.
  unfold triggerJob.
  destruct (job_build env jobName parameters) as [build|x|] eqn:Hb;
    [rewrite bind_call_resolved | discriminate | discriminate].
  destruct (isNaN build) eqn:Hn; [discriminate|].
  destruct (waitForBuild env build fuel 0 gi) as [evs gi' [ref'|x|]] eqn:Hw;
    [rewrite (bind_run _ Hw) | rewrite (bind_run_thrown _ Hw)
    | rewrite (bind_run_pending _ Hw)]; try discriminate.
  intros H. injection H as ->.
  destruct (@waitForBuild_returned env build ref fuel 0 gi evs gi' Hw) as (n & Hfuel & Hbefore & (item & Hq & Hr) & ->).
  destruct (running_Some _ Hr) as (_ & Hid & ->).
  exists build, n. repeat split; auto.
  unfold after. cbn [events]. now rewrite app_nil_r.
Qed.

(** X2.  [triggerJob] returns a build only when the trigger was acknowledged
    with a number and some lookup of the queue, after lookups that showed no
    build number, answered with an executable whose number is not zero: the
    returned reference is the number and url of that answer, and by then the
    trigger and exactly that many lookups, each followed by its pause, were
    issued. *)
Theorem triggerJob_returns_an_answered_build env fuel jobName parameters gi ref :
  outcome (triggerJob env fuel jobName parameters gi) = Returned (Some ref) ->
  exists build n,
    job_build env jobName parameters = Resolved build /\
    isNaN build = false /\
    n < fuel /\
    (forall k, k < n ->
       exists item, queue_item env build k = Resolved item /\
                    carriesBuildNumber item = false) /\
    queue_item env build n =
      Resolved (Some {| executable := Some {| number := Some (id ref);
                                              exe_url := build_ref_url ref |} |}) /\
    id ref <> 0%N /\
    events (triggerJob env fuel jobName parameters gi) =
      JobBuild jobName parameters
      :: concat (repeat [QueueItemLookup build; Sleep 500] (S n)).
Proof. apply triggerJob_returned. Qed.

Lemma triggerJob_returns_an_answered_build_witness :
  exists build n,
    job_build scenario_env "app" None = Resolved build /\
    isNaN build = false /\
    n < 5 /\
    (forall k, k < n ->
       exists item, queue_item scenario_env build k = Resolved item /\
                    carriesBuildNumber item = false) /\
    queue_item scenario_env build n =
      Resolved (Some {| executable := Some {| number := Some 7%N;
                                              exe_url := "http://ci/job/app/7/" |} |}) /\
    7%N <> 0%N /\
    events (triggerJob scenario_env 5 "app" None scenario_invocation) =
      JobBuild "app" None
      :: concat (repeat [QueueItemLookup build; Sleep 500] (S n)).
Proof.
  apply (@triggerJob_returns_an_answered_build scenario_env 5 "app" None scenario_invocation
           {| id := 7%N; build_ref_url := "http://ci/job/app/7/" |}).
  reflexivity.
Defined.

(** X3.  The loop of [triggerJob] has no bound of its own: as long as the
    answers of the queue carry no build number it goes on, one lookup and one
    pause of 500 ms after the other, and does not return. *)
Theorem triggerJob_polls_without_bound env fuel jobName parameters build gi :
  job_build env jobName parameters = Resolved build ->
  isNaN build = false ->
  (forall k, k < fuel ->
     exists item, queue_item env build k = Resolved item /\
                  carriesBuildNumber item = false) ->
  triggerJob env fuel jobName parameters gi =
    mkRun (JobBuild jobName parameters
           :: concat (repeat [QueueItemLookup build; Sleep 500] fuel)) gi Pending.
Proof.
  intros Hb Hn H. unfold triggerJob. rewrite Hb, bind_call_resolved, Hn.
  rewrite (bind_run_pending _ (@waitForBuild_waiting env build fuel 0 gi H)).
  reflexivity.
Qed.

Lemma triggerJob_polls_without_bound_witness :
  triggerJob stalled_env 40 "app" None scenario_invocation =
    mkRun (JobBuild "app" None
           :: concat (repeat [QueueItemLookup (Num 42); Sleep 500] 40))
          scenario_invocation Pending.
Proof.
  apply (@triggerJob_polls_without_bound stalled_env 40 "app" None (Num 42)
           scenario_invocation).
  - reflexivity.
  - reflexivity.
  - intros k Hk. exists (Some {| executable := None |}). split; reflexivity.
Defined.

(** X4.  A remote error inside [triggerJob] is thrown at once: a rejected
    trigger leaves the queue alone, and a rejected lookup is the last call,
    with no pause after it. *)
Theorem triggerJob_rethrows_remote_errors env fuel jobName parameters gi x :
  (job_build env jobName parameters = Rejected x ->
   triggerJob env fuel jobName parameters gi =
     mkRun [JobBuild jobName parameters] gi (Thrown x)) /\
  (forall build n,
     job_build env jobName parameters = Resolved build ->
     isNaN build = false ->
     (forall k, k < n ->
        exists item, queue_item env build k = Resolved item /\
                     carriesBuildNumber item = false) ->
     queue_item env build n = Rejected x ->
     n < fuel ->
     triggerJob env fuel jobName parameters gi =
       mkRun (JobBuild jobName parameters
              :: concat (repeat [QueueItemLookup build; Sleep 500] n)
              ++ [QueueItemLookup build]) gi (Thrown x)).
Proof.
  split.
  - intros Hb. unfold triggerJob. rewrite Hb, bind_call_rejected. reflexivity.
  - intros build n Hb Hn Hbefore Hx Hfuel.
    unfold triggerJob. rewrite Hb, bind_call_resolved, Hn.
    rewrite (bind_run_thrown _ (@waitForBuild_rejected env build x n fuel 0 gi Hbefore Hx Hfuel)).
    reflexivity.
Qed.

Lemma triggerJob_rethrows_remote_errors_witness :
  triggerJob failing_queue_env 5 "app" None scenario_invocation =
    mkRun [ JobBuild "app" None;
            QueueItemLookup (Num 42); Sleep 500;
            QueueItemLookup (Num 42) ] scenario_invocation (Thrown "ECONNRESET").
Proof.
  destruct (@triggerJob_rethrows_remote_errors failing_queue_env 5 "app" None
              scenario_invocation "ECONNRESET") as (_ & H).
  apply (H (Num 42) 1).
  - reflexivity.
  - reflexivity.
  - intros k Hk. exists (Some {| executable := None |}).
    destruct k as [|k]; [split; reflexivity | lia].
  - reflexivity.
  - lia.
Defined.

(** ** The log stream *)

(** X5.  The handlers of the log stream write every chunk as it is and every
    error serialized, in the order of the stream and one line for each; an
    error does not end the wait, and what the stream delivers after its end is
    written like what it delivers before, since the handlers stay attached.
    The wait is over when the stream has signalled its end; a stream without
    an end leaves the executor waiting.  The invocation is left alone. *)
Theorem awaitLogStream_forwards_in_order env log gi :
  let r := awaitLogStream env log gi in
  events r = forwarded env log /\
  length (events r) = length (filter (fun e => negb (isEnd e)) log) /\
  outcome r = (if existsb isEnd log then Returned tt else Pending) /\
  invocation r = gi.
Proof.
  intros r. subst r. rewrite awaitLogStream_run. cbn [events outcome invocation].
  repeat split.
  induction log as [|[text|err|] log IH]; cbn; auto.
Qed.

(** ** What an execution issues, and in which order *)

Lemma split_unique (q : Event -> bool) :
  forall a c x y b d,
    forallb (fun e => negb (q e)) a = true ->
    forallb (fun e => negb (q e)) b = true ->
    q x = true -> q y = true ->
    (a ++ x :: b = c ++ y :: d)%list ->
    a = c /\ x = y /\ b = d.
Proof.
  induction a as [|z a IH]; intros c x y b d Ha Hb Hx Hy H.
  - destruct c as [|z c]; cbn in H.
    + injection H as -> ->. auto.
    + injection H as -> ->. rewrite forallb_app in Hb. cbn in Hb. rewrite Hy in Hb.
      cbn in Hb. rewrite andb_false_r in Hb. discriminate.
  - cbn in Ha. apply andb_true_iff in Ha. destruct Ha as [Hz Ha].
    destruct c as [|z' c]; cbn in H.
    + injection H as -> _. rewrite Hy in Hz. discriminate.
    + injection H as -> H. destruct (IH c x y b d Ha Hb Hx Hy H) as (-> & -> & ->). auto.
Qed.

Lemma framed_progress line : forallb isProgress (framed line) = true.
Proof. reflexivity. Qed.

Lemma followsOnly_afterTrigger jobName buildId evs :
  forallb (followsOnly jobName buildId) evs = true -> forallb afterTrigger evs = true.
Proof.
  apply forallb_weaken. intros [] H; try reflexivity; discriminate.
Qed.

Lemma followsOnly_namesJob jobName buildId evs :
  forallb (followsOnly jobName buildId) evs = true ->
  forallb (namesJob jobName) evs = true.
Proof.
  apply forallb_weaken. intros [] H; cbn in *; try reflexivity; try discriminate;
    now apply andb_true_iff in H.
Qed.

(** The events of an execution that issued its trigger: the preparation,
    the announcement, the trigger, the polling, and what follows the build if
    one was returned. *)
Lemma executeJenkins_started env fuel registration gi jobName parameters :
  let r := executeJenkins env fuel registration gi in
  let p := prepare env registration gi in
  let gi1 := withDescription ("Jenkins " ++ codeLine jobName) gi in
  let trigger := triggerJob env fuel jobName parameters gi1 in
  In (JobBuild jobName parameters) (events r) ->
  convergeOnly registration <> Some true /\
  outcome p = Returned (jobName, parameters) /\
  exists polling,
    forallb isPolling polling = true /\
    events trigger = JobBuild jobName parameters :: polling /\
    events r =
      (events p ++ framed (startingLine env jobName parameters)
       ++ JobBuild jobName parameters :: polling
       ++ match outcome trigger with
          | Returned (Some item) => events (followBuild env jobName item gi1)
          | _ => []
          end)%list /\
    outcome r =
      match outcome trigger with
      | Returned (Some item) => outcome (followBuild env jobName item gi1)
      | Returned None => Returned (triggered jobName)
      | Thrown x => Thrown x
      | Pending => Pending
      end.
Proof.
  intros r p gi1 trigger Hin. subst r p gi1 trigger.
  destruct (@executeJenkins_trigger env fuel registration gi jobName parameters _ eq_refl Hin)
    as (Hc & Hout & _).
  split; [exact Hc|]. split; [exact Hout|].
  destruct (executeJenkins_trace env fuel registration gi) as (Htrace & _).
  destruct (Htrace _ _ Hout) as (Hev & Ho). clear Htrace.
  rewrite (prepare_invocation _ _ _ Hout) in Hev, Ho.
  assert (Hbranch : match convergeOnly registration with
                    | Some true => notStarting jobName
                                     (withDescription ("Jenkins " ++ codeLine jobName) gi)
                    | _ => startJob env fuel jobName parameters
                             (withDescription ("Jenkins " ++ codeLine jobName) gi)
                    end = startJob env fuel jobName parameters
                            (withDescription ("Jenkins " ++ codeLine jobName) gi)).
  { destruct (convergeOnly registration) as [[]|]; [contradiction | reflexivity | reflexivity]. }
  rewrite Hbranch in Hev, Ho. clear Hbranch.
  destruct (startJob_trace env fuel jobName parameters
              (withDescription ("Jenkins " ++ codeLine jobName) gi)) as (Hsev & Hso).
  destruct (triggerJob_events env fuel jobName parameters
              (withDescription ("Jenkins " ++ codeLine jobName) gi)) as (polling & Hpev & Hpoll).
  exists polling. split; [exact Hpoll|]. split; [exact Hpev|]. split.
  - rewrite Hev, Hsev, Hpev. cbn [app]. rewrite <- ?app_assoc. reflexivity.
  - rewrite Ho, Hso. reflexivity.
Qed.

(** X6.  A trigger is issued only in an execution that is not converge-only,
    for the job name and with the parameters the two resolvers returned on
    the invocation as supplied, and only after the reconciliation of the
    definition returned. *)
Theorem trigger_only_after_reconciliation env fuel registration gi jobName parameters :
  In (JobBuild jobName parameters) (events (executeJenkins env fuel registration gi)) ->
  convergeOnly registration <> Some true /\
  outcome (getJobName registration gi) = Returned jobName /\
  outcome (getParameters registration gi) = Returned parameters /\
  outcome (createOrUpdateJob env jobName registration
             (withDescription ("Jenkins " ++ codeLine jobName) gi)) = Returned tt.
Proof.
  intros Hin.
  destruct (executeJenkins_started env fuel registration gi jobName parameters Hin)
    as (Hc & Hout & _).
  split; [exact Hc|].
  destruct (prepare_trace env registration gi) as (_ & Hp). rewrite Hp in Hout. clear Hp.
  destruct (if falsy _ then _ else _) as [u|]; [|discriminate].
  destruct (validURL env u); [|discriminate].
  destruct (outcome (getJobName registration gi)) as [jn|x|]; try discriminate.
  destruct (outcome (getParameters registration gi)) as [ps|x|]; try discriminate.
  destruct (outcome (createOrUpdateJob env jn registration _)) as [[]|x|] eqn:E;
    try discriminate.
  injection Hout as <- <-. auto.
Qed.

Lemma trigger_only_after_reconciliation_witness :
  convergeOnly scenario_registration <> Some true /\
  outcome (getJobName scenario_registration scenario_invocation) = Returned "app" /\
  outcome (getParameters scenario_registration scenario_invocation) = Returned None /\
  outcome (createOrUpdateJob scenario_env "app" scenario_registration
             (withDescription ("Jenkins " ++ codeLine "app") scenario_invocation)) =
    Returned tt.
Proof.
  apply (@trigger_only_after_reconciliation scenario_env 5 scenario_registration
           scenario_invocation "app" None).
  vm_compute. do 7 right. left. reflexivity.
Defined.

(** X7.  An execution issues at most one trigger.  Everything before it is
    preparation (the client, the reconciliation, lines on the progress log);
    after it come only lookups of the queue and their pauses, lines on the
    progress log and the calls that report on the build: the job is neither
    reconciled nor triggered again. *)
Theorem one_trigger_after_preparation env fuel registration gi pre jobName parameters post :
  events (executeJenkins env fuel registration gi) =
    (pre ++ JobBuild jobName parameters :: post)%list ->
  forallb preparatory pre = true /\ forallb afterTrigger post = true.
Proof.
  intros Hev.
  assert (Hin : In (JobBuild jobName parameters)
                   (events (executeJenkins env fuel registration gi))).
  { rewrite Hev. apply in_or_app. right. now left. }
  destruct (executeJenkins_started env fuel registration gi jobName parameters Hin)
    as (_ & _ & polling & Hpoll & _ & Hr & _).
  rewrite Hev, app_assoc in Hr.
  pose proof (prepare_Emits env registration gi) as Hp.
  set (follow := match outcome (triggerJob env fuel jobName parameters _) with
                 | Returned (Some item) => events (followBuild env jobName item _)
                 | _ => []
                 end) in Hr.
  assert (Hfollow : forallb afterTrigger follow = true).
  { subst follow. destruct (outcome (triggerJob env fuel jobName parameters _)) as [[item|]|x|];
      try reflexivity.
    eapply followsOnly_afterTrigger, followBuild_Emits. }
  assert (Hpost : forallb afterTrigger (polling ++ follow) = true).
  { rewrite forallb_app, Hfollow, andb_true_r.
    revert Hpoll. apply forallb_weaken. now intros []. }
  assert (Hpre : forallb preparatory
                   (events (prepare env registration gi)
                    ++ framed (startingLine env jobName parameters)) = true).
  { rewrite forallb_app, Hp. reflexivity. }
  symmetry in Hr.
  apply (split_unique isTrigger) in Hr; try reflexivity.
  - destruct Hr as (<- & _ & <-). auto.
  - revert Hpre. apply forallb_weaken. intros e. unfold preparatory.
    destruct (isTrigger e); [discriminate | reflexivity].
  - revert Hpost. apply forallb_weaken. now intros [].
Qed.

Lemma one_trigger_after_preparation_witness :
  forallb preparatory
    (firstn 7 (events (executeJenkins scenario_env 5 scenario_registration
                         scenario_invocation))) = true /\
  forallb afterTrigger
    (skipn 8 (events (executeJenkins scenario_env 5 scenario_registration
                        scenario_invocation))) = true.
Proof.
  apply (@one_trigger_after_preparation scenario_env 5 scenario_registration
           scenario_invocation
           (firstn 7 (events (executeJenkins scenario_env 5 scenario_registration
                                scenario_invocation)))
           "app" None
           (skipn 8 (events (executeJenkins scenario_env 5 scenario_registration
                               scenario_invocation)))).
  reflexivity.
Defined.

(** An execution that issued a call reporting on a build ran the block that
    follows the build [triggerJob] returned, on the invocation with the
    description overwritten. *)
Lemma executeJenkins_followed_build env fuel registration gi e :
  let r := executeJenkins env fuel registration gi in
  In e (events r) ->
  reportsBuild e = true ->
  exists jobName parameters item polling,
    let gi1 := withDescription ("Jenkins " ++ codeLine jobName) gi in
    outcome (prepare env registration gi) = Returned (jobName, parameters) /\
    outcome (triggerJob env fuel jobName parameters gi1) = Returned (Some item) /\
    forallb isPolling polling = true /\
    events r =
      (events (prepare env registration gi) ++ framed (startingLine env jobName parameters)
       ++ JobBuild jobName parameters :: polling
       ++ events (followBuild env jobName item gi1))%list /\
    outcome r = outcome (followBuild env jobName item gi1) /\
    In e (events (followBuild env jobName item gi1)).
Proof.
  intros r Hin He. subst r.
  pose proof (prepare_Emits env registration gi) as Hp.
  assert (Hnp : ~ In e (events (prepare env registration gi))).
  { apply forallb_not_In with (1 := Hp). unfold preparatory.
    destruct e; try discriminate; reflexivity. }
  assert (Hnf : forall line, ~ In e (framed line)).
  { intros line. apply forallb_not_In with (1 := framed_progress line).
    destruct e; try discriminate; reflexivity. }
  assert (Htrig : exists jn ps,
             In (JobBuild jn ps) (events (executeJenkins env fuel registration gi))).
  { destruct (executeJenkins_trace env fuel registration gi) as (Hret & Hthrown & Hpending).
    destruct (outcome (prepare env registration gi)) as [[jn ps]|x|] eqn:Hout.
    - destruct (Hret jn ps eq_refl) as (Hev & _).
      assert (Hstart : In (JobBuild jn ps)
                         (events (startJob env fuel jn ps
                                    (invocation (prepare env registration gi))))).
      { destruct (startJob_trace env fuel jn ps (invocation (prepare env registration gi)))
          as (Hsev & _).
        destruct (triggerJob_events env fuel jn ps (invocation (prepare env registration gi)))
          as (polling & Hpev & _).
        rewrite Hsev, Hpev. apply in_or_app. right. now left. }
      exists jn, ps. rewrite Hev. apply in_or_app. right.
      destruct (convergeOnly registration) as [[]|]; try exact Hstart.
      exfalso. rewrite Hev in Hin. apply in_app_or in Hin.
      destruct Hin as [Hin|Hin]; [contradiction|].
      revert Hin. apply forallb_not_In with (1 := notStarting_Emits jn _).
      destruct e; try discriminate; reflexivity.
    - destruct (Hthrown x eq_refl) as (Hev & _). rewrite Hev in Hin. contradiction.
    - destruct (Hpending eq_refl) as (Hev & _). rewrite Hev in Hin. contradiction. }
  destruct Htrig as (jn & ps & Htrig).
  destruct (executeJenkins_started env fuel registration gi jn ps Htrig)
    as (_ & Hout & polling & Hpoll & Hpev & Hr & Hor).
  rewrite Hr in Hin.
  apply in_app_or in Hin. destruct Hin as [Hin|Hin]; [contradiction|].
  apply in_app_or in Hin. destruct Hin as [Hin|Hin]; [now apply Hnf in Hin|].
  destruct Hin as [Heq|Hin]; [subst e; discriminate|].
  apply in_app_or in Hin. destruct Hin as [Hin|Hin].
  { exfalso. revert Hin. apply forallb_not_In with (1 := Hpoll).
    destruct e; try discriminate; reflexivity. }
  destruct (outcome (triggerJob env fuel jn ps _)) as [[item|]|x|] eqn:Ht;
    try contradiction.
  exists jn, ps, item, polling. cbn zeta. repeat split; assumption.
Qed.

(** ** Status reports and the end of an execution *)

Lemma followBuild_identifies env jobName item gi e :
  In e (events (followBuild env jobName item gi)) ->
  (forall j b, e = LogStream j b \/ e = BuildGet j b -> j = jobName /\ b = id item).
Proof.
  intros Hin j b He.
  pose proof (followBuild_Emits env jobName item gi) as H.
  rewrite forallb_forall in H. apply H in Hin.
  destruct He as [-> | ->]; cbn in Hin; apply andb_true_iff in Hin; destruct Hin as [Hj Hb];
    apply String.eqb_eq in Hj; apply N.eqb_eq in Hb; auto.
Qed.

Lemma log_no_report env log gi e :
  reportsBuild e = true -> ~ In e (events (awaitLogStream env log gi)).
Proof.
  intros He. apply forallb_not_In with (1 := awaitLogStream_Emits env log gi).
  destruct e; try discriminate; reflexivity.
Qed.

Lemma framed_no_report line e : reportsBuild e = true -> ~ In e (framed line).
Proof.
  intros He. apply forallb_not_In with (1 := framed_progress line).
  destruct e; try discriminate; reflexivity.
Qed.

(** The status reports of the block that follows a build. *)
Lemma followBuild_posts env jobName item gi kind data team :
  In (PostWebhook kind data team) (events (followBuild env jobName item gi)) ->
  kind = "build" /\ team = workspaceId (context gi) /\
  exists s, data = buildData env s (goalEvent gi) (build_ref_url item) (id item).
Proof.
  intros Hin. destruct (followBuild_trace env jobName item gi) as (Hev & _).
  rewrite Hev in Hin. clear Hev.
  apply in_app_or in Hin. destruct Hin as [Hin|Hin]; [now apply framed_no_report in Hin|].
  destruct Hin as [Heq|Hin]; [injection Heq as <- <- <-; eauto|].
  destruct (postWebhook env "build" _ _); [|contradiction|contradiction].
  destruct Hin as [Heq|Hin]; [discriminate|].
  apply in_app_or in Hin. destruct Hin as [Hin|Hin]; [now apply log_no_report in Hin|].
  destruct (outcome (awaitLogStream env _ gi)); try contradiction.
  destruct Hin as [Heq|Hin]; [discriminate|].
  destruct (build_get env jobName (id item)) as [detail|x|];
    [|contradiction|contradiction].
  apply in_app_or in Hin. destruct Hin as [Hin|Hin]; [now apply framed_no_report in Hin|].
  destruct Hin as [Heq|[]]. injection Heq as <- <- <-. eauto.
Qed.

(** X8.  Every status report of an execution is posted as a "build" event
    to the workspace of the invocation and describes the goal event as it was
    supplied: its repository, sha and branch, the provider "jenkins" and the
    type "push", and the label "Build #<number>" of the number it carries.  It
    carries exactly one time stamp: [started_at] when its status is started,
    [finished_at] otherwise. *)
Theorem status_reports_describe_the_goal_event env fuel registration gi kind data team :
  In (PostWebhook kind data team) (events (executeJenkins env fuel registration gi)) ->
  kind = "build" /\
  team = workspaceId (context gi) /\
  repository data = {| owner := owner (repo (goalEvent gi));
                       name := name (repo (goalEvent gi)) |} /\
  commit data = sha (goalEvent gi) /\
  data_branch data = branch (goalEvent gi) /\
  provider data = "jenkins" /\
  data_type data = "push" /\
  data_name data = "Build #" ++ showN (data_number data) /\
  (started_at data, finished_at data) =
    if isStarted (status data) then (Some (toISOString env), None)
    else (None, Some (toISOString env)).
Proof.
  intros Hin.
  destruct (executeJenkins_followed_build env fuel registration gi _ Hin eq_refl)
    as (jn & ps & item & polling & _ & _ & _ & _ & _ & Hf).
  destruct (followBuild_posts Hf) as (-> & -> & s & ->).
  cbn. repeat split. now destruct (isStarted s).
Qed.

Lemma status_reports_describe_the_goal_event_witness :
  let data := buildData scenario_env (Some passed) (goalEvent scenario_invocation)
                "http://ci/job/app/7/" 7%N in
  repository data = {| owner := "atomist"; name := "app" |} /\
  commit data = "2d680bec" /\
  data_name data = "Build #7" /\
  (started_at data, finished_at data) = (None, Some "2019-05-01T10:00:00.000Z").
Proof.
  destruct (@status_reports_describe_the_goal_event scenario_env 5 scenario_registration
              scenario_invocation "build"
              (buildData scenario_env (Some passed) (goalEvent scenario_invocation)
                 "http://ci/job/app/7/" 7%N)
              "T29E48P34")
    as (_ & _ & Hrepo & Hcommit & _ & _ & _ & Hname & Htime).
  - vm_compute. do 25 right. left. reflexivity.
  - cbn zeta. repeat split; assumption.
Defined.



Lemma unended log :
  forallb (fun e => negb (isEnd e)) log = true -> existsb isEnd log = false.
Proof.
  induction log as [|e log IH]; cbn; [reflexivity|].
  destruct (isEnd e); cbn; [discriminate | exact IH].
Qed.

(** X10.  When the log stream of the build never signals its end, the
    execution does not finish: after the start was reported it forwards what
    the stream delivers and waits; it never fetches the detail of the build
    and the "started" report stays the only one. *)
Theorem stream_without_end_is_never_completed env fuel registration gi jobName buildId :
  let r := executeJenkins env fuel registration gi in
  In (LogStream jobName buildId) (events r) ->
  forallb (fun e => negb (isEnd e)) (build_logStream env jobName buildId) = true ->
  outcome r = Pending /\
  (exists pre,
     events r = (pre ++ LogStream jobName buildId
                 :: forwarded env (build_logStream env jobName buildId))%list) /\
  (exists data, webhooks (events r) = [data] /\ status data = Some started) /\
  (forall j b, ~ In (BuildGet j b) (events r)).
Proof.
  intros r Hin Hlog. subst r.
  destruct (executeJenkins_followed_build env fuel registration gi _ Hin eq_refl)
    as (jn & ps & item & polling & Hout & _ & Hpoll & Hev & Ho & Hf).
  destruct (followBuild_identifies Hf (or_introl eq_refl)) as (-> & ->).
  set (gi1 := withDescription ("Jenkins " ++ codeLine jn) gi) in *.
  destruct (followBuild_trace env jn item gi1) as (Hfev & Hfo).
  assert (Hnone : existsb isEnd (build_logStream env jn (id item)) = false).
  { now apply unended. }
  rewrite awaitLogStream_run, Hnone in Hfev, Hfo. cbn [events outcome] in Hfev, Hfo.
  destruct (postWebhook env "build" _ _) as [?|x|].
  2,3: exfalso; rewrite Hfev in Hf; apply in_app_or in Hf;
    destruct Hf as [Hf|[Hf|[]]]; [now apply framed_no_report in Hf | discriminate].
  rewrite app_nil_r in Hfev.
  set (front := (events (prepare env registration gi)
                 ++ framed (startingLine env jn ps) ++ [JobBuild jn ps] ++ polling
                 ++ framed (startedLine jn (id item)))%list).
  assert (Hfront : forallb (fun e => negb (reportsBuild e)) front = true).
  { subst front. rewrite !forallb_app.
    rewrite (preparatory_unreported _ (prepare_Emits env registration gi)).
    rewrite (polling_unreported _ Hpoll). reflexivity. }
  assert (Hall : events (executeJenkins env fuel registration gi) =
                 (front ++ PostWebhook "build"
                             (buildData env (Some started) (goalEvent gi1)
                                (build_ref_url item) (id item))
                             (workspaceId (context gi1))
                  :: LogStream jn (id item)
                  :: forwarded env (build_logStream env jn (id item)))%list).
  { rewrite Hev, Hfev. subst front. rewrite <- ?app_assoc. cbn [app].
    rewrite <- ?app_assoc. reflexivity. }
  rewrite Ho, Hfo, Hall. split; [reflexivity|]. split; [|split].
  - eexists (front ++ [_])%list. rewrite <- app_assoc. reflexivity.
  - eexists. rewrite webhooks_app, (unreported_webhooks _ Hfront). cbn.
    rewrite (progress_webhooks _ (forwarded_progress env _)). split; reflexivity.
  - intros j b H. apply in_app_or in H. destruct H as [H|[H|[H|H]]]; try discriminate.
    + revert H. apply forallb_not_In with (1 := Hfront). reflexivity.
    + revert H. apply forallb_not_In with (1 := forwarded_progress env _). reflexivity.
Qed.

Lemma stream_without_end_is_never_completed_witness :
  let r := executeJenkins endless_env 5 scenario_registration scenario_invocation in
  outcome r = Pending /\
  (exists pre,
     events r = (pre ++ [LogStream "app" 7%N; ProgressWrite "Building";
                         ProgressWrite "socket hang up"])%list) /\
  (exists data, webhooks (events r) = [data] /\ status data = Some started) /\
  (forall j b, ~ In (BuildGet j b) (events r)).
Proof.
  apply (@stream_without_end_is_never_completed endless_env 5 scenario_registration
           scenario_invocation "app" 7%N).
  - vm_compute. do 18 right. left. reflexivity.
  - reflexivity.
Defined.

(** X11.  When the fetch of the build detail is rejected, the execution
    throws the reason; the fetch is its last call, no completion is announced
    and the backend is left with the "started" report alone. *)
Theorem rejected_detail_leaves_build_started env fuel registration gi jobName buildId x :
  let r := executeJenkins env fuel registration gi in
  In (BuildGet jobName buildId) (events r) ->
  build_get env jobName buildId = Rejected x ->
  outcome r = Thrown x /\
  (exists pre, events r = (pre ++ [BuildGet jobName buildId])%list) /\
  (exists data, webhooks (events r) = [data] /\ status data = Some started).
Proof.
  intros r Hin Hget. subst r.
  destruct (executeJenkins_followed_build env fuel registration gi _ Hin eq_refl)
    as (jn & ps & item & polling & Hout & _ & Hpoll & Hev & Ho & Hf).
  destruct (followBuild_identifies Hf (or_intror eq_refl)) as (-> & ->).
  set (gi1 := withDescription ("Jenkins " ++ codeLine jn) gi) in *.
  destruct (followBuild_trace env jn item gi1) as (Hfev & Hfo).
  rewrite Hget in Hfev, Hfo.
  pose proof (awaitLogStream_Emits env (build_logStream env jn (id item)) gi1) as Hlog.
  destruct (postWebhook env "build" _ _) as [?|y|].
  2,3: exfalso; rewrite Hfev in Hf; apply in_app_or in Hf;
    destruct Hf as [Hf|[Hf|[]]]; [now apply framed_no_report in Hf | discriminate].
  destruct (outcome (awaitLogStream env _ gi1)) as [[]|y|].
  2,3: exfalso; rewrite Hfev, app_nil_r in Hf; apply in_app_or in Hf;
    destruct Hf as [Hf|[Hf|[Hf|Hf]]];
    [now apply framed_no_report in Hf | discriminate | discriminate
    | now apply log_no_report in Hf].
  set (front := (events (prepare env registration gi)
                 ++ framed (startingLine env jn ps) ++ [JobBuild jn ps] ++ polling
                 ++ framed (startedLine jn (id item)))%list).
  assert (Hfront : forallb (fun e => negb (reportsBuild e)) front = true).
  { subst front. rewrite !forallb_app.
    rewrite (preparatory_unreported _ (prepare_Emits env registration gi)).
    rewrite (polling_unreported _ Hpoll). reflexivity. }
  assert (Hall : events (executeJenkins env fuel registration gi) =
                 (front ++ [PostWebhook "build"
                              (buildData env (Some started) (goalEvent gi1)
                                 (build_ref_url item) (id item))
                              (workspaceId (context gi1));
                            LogStream jn (id item)]
                  ++ events (awaitLogStream env (build_logStream env jn (id item)) gi1)
                  ++ [BuildGet jn (id item)])%list).
  { rewrite Hev, Hfev. subst front. rewrite <- ?app_assoc. cbn [app].
    rewrite <- ?app_assoc. reflexivity. }
  rewrite Ho, Hfo, Hall. split; [reflexivity|]. split.
  - eexists. rewrite !app_assoc. reflexivity.
  - eexists. rewrite !webhooks_app, (unreported_webhooks _ Hfront).
    rewrite (progress_webhooks _ Hlog). cbn. split; reflexivity.
Qed.

Lemma rejected_detail_leaves_build_started_witness :
  let r := executeJenkins forgetful_env 5 scenario_registration scenario_invocation in
  outcome r = Thrown "404" /\
  (exists pre, events r = (pre ++ [BuildGet "app" 7%N])%list) /\
  (exists data, webhooks (events r) = [data] /\ status data = Some started).
Proof.
  apply (@rejected_detail_leaves_build_started forgetful_env 5 scenario_registration
           scenario_invocation "app" 7%N "404").
  - vm_compute. do 21 right. left. reflexivity.
  - reflexivity.
Defined.

(** ** The answer of the status backend *)

Lemma bind_cong {A B} (m m' : M A) (k k' : A -> M B) gi :
  m gi = m' gi -> (forall a gi', k a gi' = k' a gi') -> bind m k gi = bind m' k' gi.
Proof. intros Hm Hk. unfold bind. rewrite Hm. destruct (outcome (m' gi)); now rewrite ?Hk. Qed.

Lemma run_ext {A} (r r' : Run A) :
  events r = events r' -> invocation r = invocation r' -> outcome r = outcome r' -> r = r'.
Proof. destruct r, r'. cbn. now intros -> -> ->. Qed.

Lemma forwarded_answering accepted env log :
  forwarded (answering accepted env) log = forwarded env log.
Proof. induction log as [|[text|err|] log IH]; cbn; now rewrite ?IH. Qed.

Lemma waitForBuild_answering accepted env build fuel :
  forall k gi,
    waitForBuild (answering accepted env) build fuel k gi = waitForBuild env build fuel k gi.
Proof.
  induction fuel as [|fuel IH]; intros k gi; [reflexivity|].
  cbn [waitForBuild]. apply bind_cong; [reflexivity|]. intros item gi1.
  apply bind_cong; [reflexivity|]. intros _ gi2.
  destruct (running item); [reflexivity | apply IH].
Qed.

Lemma triggerJob_answering accepted env fuel jobName parameters gi :
  triggerJob (answering accepted env) fuel jobName parameters gi =
    triggerJob env fuel jobName parameters gi.
Proof.
  unfold triggerJob. apply bind_cong; [reflexivity|]. intros build gi1.
  destruct (isNaN build); [reflexivity|].
  apply bind_cong; [apply waitForBuild_answering | reflexivity].
Qed.

Lemma followBuild_answering accepted env jobName item gi :
  followBuild (answering accepted env) jobName item gi = followBuild env jobName item gi.
Proof.
  destruct (followBuild_trace (answering accepted env) jobName item gi) as (Hev' & Ho').
  destruct (followBuild_trace env jobName item gi) as (Hev & Ho).
  rewrite awaitLogStream_run in Hev', Ho', Hev, Ho.
  cbn [postWebhook build_get build_logStream answering] in Hev', Ho'.
  rewrite forwarded_answering in Hev'.
  change (buildData (answering accepted env)) with (buildData env) in Hev', Ho'.
  apply run_ext.
  - rewrite Hev', Hev.
    destruct (postWebhook env "build" _ _) as [?|x|]; reflexivity.
  - now rewrite !followBuild_Unchanged.
  - rewrite Ho', Ho.
    destruct (postWebhook env "build" _ _) as [?|x|]; try reflexivity.
    destruct (existsb isEnd _); [|reflexivity]. cbn [outcome].
    destruct (build_get env jobName (id item)) as [detail|x|]; try reflexivity.
    destruct (postWebhook env "build" _ _) as [?|x|]; reflexivity.
Qed.

Lemma startJob_answering accepted env fuel jobName parameters gi :
  startJob (answering accepted env) fuel jobName parameters gi =
    startJob env fuel jobName parameters gi.
Proof.
  unfold startJob. do 3 (apply bind_cong; [reflexivity|]; intros ? ?).
  apply bind_cong; [apply triggerJob_answering|]. intros [item|] gi1; [|reflexivity].
  apply followBuild_answering.
Qed.

(** X12.  The answer of the status backend does not matter to the
    execution: the boolean [postWebhook] resolves to is never looked at.
    Against a backend that refuses reports the execution issues the same
    calls, writes the same lines and ends in the same way, with the same
    result, as against one that accepts them. *)
Theorem refused_report_is_not_fatal accepted env fuel registration gi :
  executeJenkins (answering accepted env) fuel registration gi =
    executeJenkins env fuel registration gi.
Proof.
  rewrite !executeJenkins_phases.
  apply bind_cong; [reflexivity|]. intros p gi1.
  destruct (convergeOnly registration) as [[]|];
    first [reflexivity | apply startJob_answering].
Qed.

(** ** The announcements against the progress tests *)

Lemma sameChar_refl i c : sameChar i c c = true.
Proof. unfold sameChar. destruct i; apply Ascii.eqb_refl. Qed.

Lemma Denotes_Lit i l : Denotes i (Lit l) l.
Proof.
  induction l as [|c l IH]; cbn; [constructor|].
  change (String c l) with (String c "" ++ l).
  constructor; [constructor; apply sameChar_refl | exact IH].
Qed.

Lemma accepts_spec w :
  forall q, accepts q w = negb (completes q w || hasLineTerminator w).
Proof.
  induction w as [|c w IH]; intros q.
  - destruct q; reflexivity.
  - cbn [accepts hasLineTerminator]. unfold scan.
    destruct (lineBreak c) eqn:Hlb; [cbn; now rewrite orb_true_r|]. cbn [orb].
    destruct (Ascii.eqb c "226") eqn:He2.
    + rewrite IH. cbn [andb]. apply Ascii.eqb_eq in He2. subst c.
      destruct q; cbn [completes]; try reflexivity. now destruct w.
    + cbn [andb orb]. destruct q.
      * rewrite IH. reflexivity.
      * cbn [completes]. destruct (Ascii.eqb c "128") eqn:H80; rewrite IH.
        -- cbn [completes andb]. now destruct w.
        -- cbn [completes andb orb]. now destruct w.
      * cbn [completes].
        destruct (Ascii.eqb c "168" || Ascii.eqb c "169"); [reflexivity|].
        rewrite IH. reflexivity.
Qed.

(** [.*] matches a text without a line terminator. *)
Lemma Denotes_DotStar i w : hasLineTerminator w = false -> Denotes i (DotStar Clear) w.
Proof. intros H. constructor. rewrite accepts_spec, H. reflexivity. Qed.

Lemma phasesOf_In ph line :
  In ph (phasesOf line) <->
  exists t, In t JenkinsProgressTests /\ phase t = ph /\ test (pattern t) line = true.
Proof.
  unfold phasesOf. rewrite in_map_iff. split.
  - intros (t & Hph & Hin). apply filter_In in Hin. destruct Hin. eauto.
  - intros (t & Hin & Hph & Ht). exists t. split; [exact Hph|]. apply filter_In. auto.
Qed.

(** A line that begins with a text matched by a test is given its phase. *)
Lemma phasesOf_found t found behind :
  In t JenkinsProgressTests ->
  Denotes (ignoreCase (pattern t)) (source (pattern t)) found ->
  In (phase t) (phasesOf (found ++ behind)).
Proof.
  intros Hin Hd. apply phasesOf_In. exists t. repeat split; [exact Hin|].
  apply test_Denotes. exists "", found, behind. auto.
Qed.

Lemma lower_percent c : lower c = "%"%char -> c = "%"%char.
Proof.
  destruct c as [[] [] [] [] [] [] [] []]; vm_compute; intros H; congruence.
Qed.

Lemma hasChar_app c u v : hasChar c (u ++ v) = hasChar c u || hasChar c v.
Proof.
  induction u as [|a u IH]; cbn; [reflexivity|]. now rewrite IH, orb_assoc.
Qed.

(** A text matched by a literal that has a percent sign has one too. *)
Lemma Denotes_Lit_percent i l : forall w,
  Denotes i (Lit l) w -> hasChar "%" l = true -> hasChar "%" w = true.
Proof.
  induction l as [|a l IH]; intros w Hd Hl; cbn in *; [discriminate|].
  inversion Hd as [| | | | r s u v H1 H2 Hr Hw | | | |]; subst.
  inversion H1 as [| a' c Hc | | | | | | |]; subst. cbn.
  apply orb_true_iff in Hl. destruct Hl as [Ha|Hl].
  - apply Ascii.eqb_eq in Ha. subst a.
    assert (c = "%"%char) as ->; [|reflexivity].
    unfold sameChar in Hc. destruct i.
    + apply Ascii.eqb_eq in Hc. symmetry in Hc. now apply lower_percent.
    + apply Ascii.eqb_eq in Hc. auto.
  - rewrite (IH v H2 Hl). apply orb_true_r.
Qed.

Lemma showState_no_percent s : hasChar "%" (showState s) = false.
Proof. destruct s as [[]|]; reflexivity. Qed.

(** X13.  In an execution that issues its trigger, the three lines written
    just before the trigger are the announcement "Starting Jenkins job ..."
    between its two marker lines, and for every job name and all parameters
    the tests of [JenkinsProgressTests] find the phase "queued" in it. *)
Theorem starting_announcement_is_queued env fuel registration gi jobName parameters :
  let r := executeJenkins env fuel registration gi in
  let line := "Starting Jenkins job '" ++ jobName ++ "' with parameters '"
              ++ stringify env (match parameters with Some p => p | None => [] end)
              ++ "'" in
  In (JobBuild jobName parameters) (events r) ->
  (exists pre post,
     events r =
       (pre ++ [ProgressWrite "/--"; ProgressWrite line; ProgressWrite "\--";
                JobBuild jobName parameters] ++ post)%list) /\
  In "queued" (phasesOf line).
Proof.
  intros r line Hin. subst r line. split.
  - destruct (executeJenkins_started env fuel registration gi jobName parameters Hin)
      as (_ & _ & polling & _ & _ & Hr & _).
    rewrite Hr. eexists. eexists. reflexivity.
  - apply (@phasesOf_found
             {| pattern := {| source := Lit "Starting Jenkins job"; ignoreCase := true |};
                phase := "queued" |}
             "Starting Jenkins job"
             (" '" ++ jobName ++ "' with parameters '"
              ++ stringify env (match parameters with Some p => p | None => [] end)
              ++ "'")).
    + now left.
    + apply Denotes_Lit.
Qed.

Lemma starting_announcement_is_queued_witness :
  In "queued" (phasesOf ("Starting Jenkins job '" ++ "app" ++ "' with parameters '"
                         ++ "{}" ++ "'")).
Proof.
  apply (@starting_announcement_is_queued scenario_env 5 scenario_registration
           scenario_invocation "app" None).
  vm_compute. do 7 right. left. reflexivity.
Defined.

(** *** A text found in a line that is made of parts *)

Lemma lower_space c : lower c = " "%char -> c = " "%char.
Proof.
  destruct c as [[] [] [] [] [] [] [] []]; vm_compute; intros H; congruence.
Qed.

Lemma lower_quote c : lower c = "'"%char -> c = "'"%char.
Proof.
  destruct c as [[] [] [] [] [] [] [] []]; vm_compute; intros H; congruence.
Qed.

(** A text matched by a literal has the spaces of the literal. *)
Lemma Denotes_Lit_space i l : forall w,
  Denotes i (Lit l) w -> hasChar " " l = true -> hasChar " " w = true.
Proof.
  induction l as [|a l IH]; intros w Hd Hl; cbn in *; [discriminate|].
  inversion Hd as [| | | | r s u v H1 H2 Hr Hw | | | |]; subst.
  inversion H1 as [| a' c Hc | | | | | | |]; subst. cbn.
  apply orb_true_iff in Hl. destruct Hl as [Ha|Hl].
  - apply Ascii.eqb_eq in Ha. subst a.
    assert (c = " "%char) as ->; [|reflexivity].
    unfold sameChar in Hc. destruct i.
    + apply Ascii.eqb_eq in Hc. symmetry in Hc. now apply lower_space.
    + apply Ascii.eqb_eq in Hc. auto.
  - rewrite (IH v H2 Hl). apply orb_true_r.
Qed.

(** A text matched by a literal without a quote has no quote. *)
Lemma Denotes_Lit_quote i l : forall w,
  Denotes i (Lit l) w -> hasChar "'" l = false -> hasChar "'" w = false.
Proof.
  induction l as [|a l IH]; intros w Hd Hl; cbn in *.
  - inversion Hd. reflexivity.
  - inversion Hd as [| | | | r s u v H1 H2 Hr Hw | | | |]; subst.
    inversion H1 as [| a' c Hc | | | | | | |]; subst. cbn.
    apply orb_false_iff in Hl. destruct Hl as [Ha Hl].
    rewrite (IH v H2 Hl), orb_false_r.
    destruct (Ascii.eqb_spec c "'"%char) as [->|]; [|reflexivity].
    rewrite <- Ha. symmetry. apply Ascii.eqb_eq.
    unfold sameChar in Hc. destruct i.
    + apply Ascii.eqb_eq in Hc. now apply lower_quote.
    + now apply Ascii.eqb_eq in Hc.
Qed.

Lemma occursIn_prefix q found :
  forall a c behind,
    found ++ behind = a ++ String q c -> hasChar q found = false ->
    exists t, a = found ++ t.
Proof.
  induction found as [|x found IH]; intros a c behind H Hq; [now exists a|].
  cbn in Hq. apply orb_false_iff in Hq. destruct Hq as [Hx Hq].
  destruct a as [|y a]; cbn in H; injection H as -> H.
  - rewrite Ascii.eqb_refl in Hx. discriminate.
  - destruct (IH a c behind H Hq) as (t & ->). now exists t.
Qed.

(** A text without the character [q] that occurs in a line occurs before
    or after an occurrence of [q] in the line. *)
Lemma occursIn_split q found a c :
  occursIn found (a ++ String q c) -> hasChar q found = false ->
  occursIn found a \/ occursIn found c.
Proof.
  intros (before & behind & H) Hq. revert a H.
  induction before as [|x before IH]; intros a H.
  - cbn in H. symmetry in H. destruct (@occursIn_prefix q found a c behind H Hq) as (t & ->).
    left. now exists "", t.
  - destruct a as [|y a]; cbn in H; injection H as -> H.
    + right. now exists before, behind.
    + destruct (IH a H) as [(b & e & ->) | Hc]; [left | now right].
      now exists (String x b), e.
Qed.

Lemma test_occursIn re found line :
  Denotes (ignoreCase re) (source re) found -> occursIn found line -> test re line = true.
Proof.
  intros Hd (before & behind & ->). apply test_Denotes. now exists before, found, behind.
Qed.

Lemma occursIn_has q found line :
  occursIn found line -> hasChar q found = true -> hasChar q line = true.
Proof.
  intros (before & behind & ->) H. rewrite !hasChar_app, H. apply orb_true_r.
Qed.

Lemma showId_no_space n : hasChar " " (showId n) = false.
Proof.
  unfold showId. destruct (N.eqb n 0); [reflexivity|].
  unfold showN, NilZero.string_of_uint.
  assert (H : forall d, hasChar " " (NilEmpty.string_of_uint d) = false).
  { induction d; cbn; auto. }
  destruct (N.to_uint n); try apply H. reflexivity.
Qed.

(** The first test finds "Starting Jenkins job" in the announcement of the
    start exactly when the job name has it. *)
Lemma started_line_queued re jobName buildId :
  re = {| source := Lit "Starting Jenkins job"; ignoreCase := true |} ->
  test re (startedLine jobName buildId) = test re jobName.
Proof.
  intros Hre. apply eq_true_iff_eq. split.
  - intros H. apply test_Denotes in H.
    destruct H as (before & found & behind & Hline & Hd).
    assert (Hin : occursIn found (startedLine jobName buildId)) by now exists before, behind.
    clear Hline. rewrite Hre in Hd. cbn [source ignoreCase] in Hd.
    pose proof (@Denotes_Lit_quote true "Starting Jenkins job" found Hd eq_refl) as Hq.
    pose proof (@Denotes_Lit_space true "Starting Jenkins job" found Hd eq_refl) as Hs.
    assert (Hdead : forall part, test re part = false -> ~ occursIn found part).
    { intros part Hpart Hocc. rewrite (@test_occursIn re found part) in Hpart;
        [discriminate | now rewrite Hre | exact Hocc]. }
    unfold startedLine in Hin.
    change ("Jenkins job '" ++ jobName ++ "' started with build id '"
            ++ showId buildId ++ "'")
      with ("Jenkins job " ++ String "'" (jobName ++ "' started with build id '"
                                          ++ showId buildId ++ "'")) in Hin.
    apply occursIn_split in Hin; [|exact Hq].
    destruct Hin as [Hin|Hin]; [now apply Hdead in Hin; [|rewrite Hre]|].
    change (jobName ++ "' started with build id '" ++ showId buildId ++ "'")
      with (jobName ++ String "'" (" started with build id '" ++ showId buildId ++ "'"))
      in Hin.
    apply occursIn_split in Hin; [|exact Hq].
    destruct Hin as [Hin|Hin].
    { apply (@test_occursIn re found jobName); [now rewrite Hre | exact Hin]. }
    change (" started with build id '" ++ showId buildId ++ "'")
      with (" started with build id " ++ String "'" (showId buildId ++ "'")) in Hin.
    apply occursIn_split in Hin; [|exact Hq].
    destruct Hin as [Hin|Hin]; [now apply Hdead in Hin; [|rewrite Hre]|].
    apply occursIn_split in Hin; [|exact Hq].
    destruct Hin as [Hin|Hin]; [|now apply Hdead in Hin; [|rewrite Hre]].
    apply (occursIn_has " ") in Hin; [|exact Hs].
    rewrite showId_no_space in Hin. discriminate.
  - intros H. apply test_Denotes in H.
    destruct H as (before & found & behind & -> & Hd).
    apply (@test_occursIn re found); [exact Hd|].
    exists ("Jenkins job '" ++ before),
           (behind ++ "' started with build id '" ++ showId buildId ++ "'").
    unfold startedLine. now rewrite !append_assoc.
Qed.

(** X14.  In an execution that opens the log stream of a build, the stream
    is opened right after the "started" status report, which comes right
    after the announcement "Jenkins job '<job>' started with build id
    '<number>'" between its two marker lines.  When the job name has no line
    terminator in it, the second test of [JenkinsProgressTests] matches that
    announcement; the first test that matches it is the second one, with the
    phase "started", unless the job name has the text "Starting Jenkins job"
    in it, in any letter case: then it is the first one, with the phase
    "queued". *)
Theorem started_announcement_is_started env fuel registration gi jobName buildId :
  let r := executeJenkins env fuel registration gi in
  let line := "Jenkins job '" ++ jobName ++ "' started with build id '"
              ++ showId buildId ++ "'" in
  In (LogStream jobName buildId) (events r) ->
  (exists pre data team post,
     events r =
       (pre ++ [ProgressWrite "/--"; ProgressWrite line; ProgressWrite "\--";
                PostWebhook "build" data team; LogStream jobName buildId] ++ post)%list /\
     status data = Some started) /\
  (hasLineTerminator jobName = false ->
   hd_error (phasesOf line) =
     Some (if test {| source := Lit "Starting Jenkins job"; ignoreCase := true |} jobName
           then "queued" else "started")).
Proof.
  intros r line Hin. subst r line. split.
  - destruct (executeJenkins_followed_build env fuel registration gi _ Hin eq_refl)
      as (jn & ps & item & polling & _ & _ & _ & Hev & _ & Hf).
    destruct (followBuild_identifies Hf (or_introl eq_refl)) as (-> & ->).
    set (gi1 := withDescription ("Jenkins " ++ codeLine jn) gi) in *.
    destruct (followBuild_trace env jn item gi1) as (Hfev & _).
    destruct (postWebhook env "build" _ _) as [?|x|].
    2,3: exfalso; rewrite Hfev in Hf; apply in_app_or in Hf;
      destruct Hf as [Hf|[Hf|[]]]; [now apply framed_no_report in Hf | discriminate].
    rewrite Hev, Hfev.
    exists (events (prepare env registration gi)
            ++ framed (startingLine env jn ps) ++ [JobBuild jn ps] ++ polling)%list.
    do 3 eexists. split.
    + rewrite <- ?app_assoc. cbn [app]. rewrite <- ?app_assoc. reflexivity.
    + reflexivity.
  - intros Hterminator.
    fold (startedLine jobName buildId).
    assert (Hsecond : test {| source := Cat (Lit "Jenkins job '")
                                          (Cat (DotStar Clear) (Lit "' started"));
                              ignoreCase := true |}
                        (startedLine jobName buildId) = true).
    { apply test_Denotes.
      exists "", ("Jenkins job '" ++ jobName ++ "' started"),
             (" with build id '" ++ showId buildId ++ "'").
      split.
      - unfold startedLine. cbn [append]. now rewrite !append_assoc.
      - cbn [source ignoreCase].
        constructor; [apply Denotes_Lit|]. constructor; [|apply Denotes_Lit].
        now apply Denotes_DotStar. }
    unfold phasesOf, JenkinsProgressTests. cbn [filter pattern].
    rewrite (@started_line_queued _ jobName buildId eq_refl), Hsecond.
    now destruct (test _ jobName).
Qed.

Lemma started_announcement_is_started_witness :
  hd_error (phasesOf ("Jenkins job '" ++ "app" ++ "' started with build id '"
                      ++ showId 7 ++ "'")) = Some "started".
Proof.
  destruct (@started_announcement_is_started scenario_env 5 scenario_registration
              scenario_invocation "app" 7%N) as (_ & H).
  - vm_compute. do 18 right. left. reflexivity.
  - apply H. reflexivity.
Defined.

(** X15.  In an execution that fetched the detail of its build, the
    announcement "Jenkins job '<job>' completed with <state>" is written
    between its two marker lines right after the fetch.  When the job name
    has no percent sign in it, no test of [JenkinsProgressTests] with the
    phase "completed" matches that announcement, whatever the state. *)
Theorem completion_announcement_is_never_completed
    env fuel registration gi jobName buildId detail :
  let r := executeJenkins env fuel registration gi in
  let line := "Jenkins job '" ++ jobName ++ "' completed with "
              ++ showState (snd (mapOutcome (result detail))) in
  In (BuildGet jobName buildId) (events r) ->
  build_get env jobName buildId = Resolved detail ->
  (exists pre post,
     events r =
       (pre ++ [BuildGet jobName buildId;
                ProgressWrite "/--"; ProgressWrite line; ProgressWrite "\--"] ++ post)%list) /\
  (hasChar "%" jobName = false -> ~ In "completed" (phasesOf line)).
Proof.
  intros r line Hin Hget. subst r line. split.
  - destruct (executeJenkins_followed_build env fuel registration gi _ Hin eq_refl)
      as (jn & ps & item & polling & _ & _ & _ & Hev & _ & Hf).
    destruct (followBuild_identifies Hf (or_intror eq_refl)) as (-> & ->).
    set (gi1 := withDescription ("Jenkins " ++ codeLine jn) gi) in *.
    destruct (followBuild_trace env jn item gi1) as (Hfev & _).
    rewrite Hget in Hfev.
    destruct (postWebhook env "build" _ _) as [?|x|].
    2,3: exfalso; rewrite Hfev in Hf; apply in_app_or in Hf;
      destruct Hf as [Hf|[Hf|[]]]; [now apply framed_no_report in Hf | discriminate].
    destruct (outcome (awaitLogStream env _ gi1)) as [[]|y|].
    2,3: exfalso; rewrite Hfev, app_nil_r in Hf; apply in_app_or in Hf;
      destruct Hf as [Hf|[Hf|[Hf|Hf]]];
      [now apply framed_no_report in Hf | discriminate | discriminate
      | now apply log_no_report in Hf].
    rewrite Hev, Hfev.
    exists (events (prepare env registration gi)
            ++ framed (startingLine env jn ps) ++ [JobBuild jn ps] ++ polling
            ++ framed (startedLine jn (id item))
            ++ [PostWebhook "build"
                  (buildData env (Some started) (goalEvent gi1) (build_ref_url item)
                     (id item)) (workspaceId (context gi1));
                LogStream jn (id item)]
            ++ events (awaitLogStream env (build_logStream env jn (id item)) gi1))%list.
    eexists.
    rewrite <- ?app_assoc. cbn [app]. rewrite <- ?app_assoc. reflexivity.
  - intros Hfree Hphase. apply phasesOf_In in Hphase.
    destruct Hphase as (t & Ht & Hph & Htest).
    destruct Ht as [<-|[<-|[<-|[<-|[]]]]]; try discriminate.
    apply test_Denotes in Htest. destruct Htest as (before & found & behind & Hline & Hd).
    cbn [pattern source ignoreCase] in Hd.
    apply Denotes_Lit_percent in Hd; [|reflexivity].
    assert (Hno : hasChar "%" ("Jenkins job '" ++ jobName ++ "' completed with "
                               ++ showState (snd (mapOutcome (result detail)))) = false).
    { rewrite (hasChar_app _ "Jenkins job '"), hasChar_app, hasChar_app.
      rewrite Hfree, showState_no_percent. reflexivity. }
    rewrite Hline, !hasChar_app, Hd in Hno. rewrite orb_true_r in Hno. discriminate.
Qed.

Lemma completion_announcement_is_never_completed_witness :
  ~ In "completed" (phasesOf ("Jenkins job '" ++ "app" ++ "' completed with "
                              ++ showState (Some success))).
Proof.
  destruct (@completion_announcement_is_never_completed scenario_env 5 scenario_registration
              scenario_invocation "app" 7%N
              {| result := Some "SUCCESS"; detail_url := "http://ci/job/app/7/" |})
    as (_ & H).
  - vm_compute. do 21 right. left. reflexivity.
  - reflexivity.
  - apply H. reflexivity.
Defined.

(** X16.  The third test of [JenkinsProgressTests], the one with the phase
    "$1", matches the lines with which a Jenkins pipeline opens a stage,
    "[Pipeline] { (<stage>)" and "[Pipeline] { (Declarative: <stage>)",
    whatever comes before and after on the line, for every stage name without
    a line terminator. *)
Theorem pipeline_stage_lines_are_recognised stage before behind :
  hasLineTerminator stage = false ->
  exists t,
    nth_error JenkinsProgressTests 2 = Some t /\
    phase t = "$1" /\
    test (pattern t) (before ++ "[Pipeline] { (" ++ stage ++ ")" ++ behind) = true /\
    test (pattern t)
      (before ++ "[Pipeline] { (Declarative: " ++ stage ++ ")" ++ behind) = true.
Proof.
  intros Hstage.
  set (t := {| pattern := {| source := Cat (Lit "[Pipeline] { (")
                                         (Cat (Opt (Lit "Declarative: "))
                                            (Cat (DotStar Clear) (Lit ")")));
                             ignoreCase := true |};
               phase := "$1" |}).
  assert (Hdot : Denotes true (Cat (DotStar Clear) (Lit ")")) (stage ++ ")")).
  { constructor; [now apply Denotes_DotStar | apply Denotes_Lit]. }
  exists t. split; [reflexivity|]. split; [reflexivity|].
  split; apply test_Denotes.
  - exists before, ("[Pipeline] { (" ++ stage ++ ")"), behind. split.
    + now rewrite !append_assoc.
    + cbn [t pattern source ignoreCase].
      constructor; [apply Denotes_Lit|].
      change (stage ++ ")") with ("" ++ stage ++ ")").
      constructor; [apply DenotesAltR; constructor | exact Hdot].
  - exists before, ("[Pipeline] { (" ++ "Declarative: " ++ stage ++ ")"), behind. split.
    + now rewrite !append_assoc.
    + cbn [t pattern source ignoreCase].
      constructor; [apply Denotes_Lit|].
      constructor; [apply DenotesAltL, Denotes_Lit | exact Hdot].
Qed.

Lemma pipeline_stage_lines_are_recognised_witness :
  exists t,
    nth_error JenkinsProgressTests 2 = Some t /\
    phase t = "$1" /\
    test (pattern t) ("[12:00:01] " ++ "[Pipeline] { (" ++ "Checkout SCM" ++ ")" ++ "") = true /\
    test (pattern t)
      ("[12:00:01] " ++ "[Pipeline] { (Declarative: " ++ "Checkout SCM" ++ ")" ++ "") = true.
Proof.
  apply (@pipeline_stage_lines_are_recognised "Checkout SCM" "[12:00:01] " "").
  reflexivity.
Defined.

(** ** The job an execution works on *)

Lemma createOrUpdateJob_names env jobName registration :
  Emits (namesJob jobName) (createOrUpdateJob env jobName registration).
Proof.
  unfold createOrUpdateJob, progressLog_write.
  assert (H : forall d, namesJob jobName (JobExists jobName) = true /\
                        namesJob jobName (JobConfig jobName d) = true /\
                        namesJob jobName (JobCreate jobName d) = true).
  { intros d. cbn. now rewrite String.eqb_refl. }
  quiet; try (apply Emits_emit, (H "")); try (apply Emits_emit, H).
Qed.

(** What passes for the events of the branch that starts the job. *)
Lemma startJob_passes (q : Event -> bool) env fuel jobName parameters gi :
  (forall line, q (ProgressWrite line) = true) ->
  q (JobBuild jobName parameters) = true ->
  (forall e, isPolling e = true -> q e = true) ->
  (forall buildId e, followsOnly jobName buildId e = true -> q e = true) ->
  forallb q (events (startJob env fuel jobName parameters gi)) = true.
Proof.
  intros Hline Htrigger Hpolling Hfollow.
  destruct (startJob_trace env fuel jobName parameters gi) as (Hev & _).
  rewrite Hev. clear Hev.
  destruct (triggerJob_events env fuel jobName parameters gi) as (polling & Hpev & Hpoll).
  rewrite Hpev, !forallb_app. cbn [forallb framed]. rewrite !Hline, Htrigger.
  cbn [andb].
  rewrite (forallb_weaken _ _ _ Hpolling Hpoll). cbn [andb].
  destruct (outcome (triggerJob env fuel jobName parameters gi)) as [[item|]|x|];
    try reflexivity.
  eapply forallb_weaken; [apply Hfollow | apply followBuild_Emits].
Qed.

Lemma startJob_names env fuel jobName parameters :
  Emits (namesJob jobName) (startJob env fuel jobName parameters).
Proof.
  intros gi. apply startJob_passes; try reflexivity.
  - cbn. apply String.eqb_refl.
  - now intros [].
  - intros b [] H; cbn in *; try reflexivity; try discriminate;
      now apply andb_true_iff in H.
Qed.

(** X17.  One execution works on one job: every call that names a job (the
    existence check, the two writes, the trigger, the log stream and the
    fetch of the detail) names the job name [getJobName] returned.  That name
    is the repository's when the registration has no job or an empty string,
    the string itself when it is not empty, and whatever a resolver function
    resolves to, an empty name included. *)
Theorem every_call_names_the_resolved_job env fuel registration gi :
  let r := executeJenkins env fuel registration gi in
  (forall jobName,
     outcome (getJobName registration gi) = Returned jobName ->
     forallb (namesJob jobName) (events r) = true) /\
  (job registration = None \/ job registration = Some (Static "") ->
   forallb (namesJob (name (repo (goalEvent gi)))) (events r) = true) /\
  (forall s, job registration = Some (Static s) -> s <> "" ->
             forallb (namesJob s) (events r) = true) /\
  (forall f s, job registration = Some (Computed f) -> f gi = Resolved s ->
               forallb (namesJob s) (events r) = true).
Proof.
  intros r. subst r.
  assert (Hall : forall jobName,
             outcome (getJobName registration gi) = Returned jobName ->
             forallb (namesJob jobName)
               (events (executeJenkins env fuel registration gi)) = true).
  { intros jobName Hjob.
    destruct (prepare_trace env registration gi) as (Hpev & Hpo).
    rewrite Hjob in Hpev, Hpo.
    assert (Hp : forallb (namesJob jobName) (events (prepare env registration gi)) = true).
    { rewrite Hpev. destruct (if falsy _ then _ else _) as [u|]; [|reflexivity].
      destruct (validURL env u); [|reflexivity].
      destruct (outcome (getParameters registration gi)); try reflexivity.
      cbn [forallb namesJob andb]. apply createOrUpdateJob_names. }
    destruct (executeJenkins_trace env fuel registration gi) as (Hret & Hthrown & Hpending).
    destruct (outcome (prepare env registration gi)) as [[jn ps]|x|] eqn:Hout.
    - destruct (Hret jn ps eq_refl) as (Hev & _). rewrite Hev, forallb_app, Hp.
      assert (jn = jobName) as ->.
      { destruct (if falsy _ then _ else _) as [u|]; [|discriminate].
        destruct (validURL env u); [|discriminate].
        destruct (outcome (getParameters registration gi)); try discriminate.
        destruct (outcome (createOrUpdateJob env jobName registration _));
          try discriminate.
        now injection Hpo. }
      destruct (convergeOnly registration) as [[]|].
      + eapply forallb_weaken; [|apply notStarting_Emits]. now intros [].
      + apply startJob_names.
      + apply startJob_names.
    - destruct (Hthrown x eq_refl) as (Hev & _). now rewrite Hev.
    - destruct (Hpending eq_refl) as (Hev & _). now rewrite Hev. }
  split; [exact Hall|]. split; [|split].
  - intros H. apply Hall. unfold getJobName. rewrite bind_getInvocation.
    destruct H as [-> | ->]; reflexivity.
  - intros s H Hs. apply Hall. unfold getJobName. rewrite bind_getInvocation, H.
    cbn [truthy]. destruct (String.eqb_spec s ""); [contradiction | reflexivity].
  - intros f s H Hf. apply Hall. unfold getJobName. rewrite bind_getInvocation, H.
    cbn [truthy]. rewrite Hf. reflexivity.
Qed.

Lemma every_call_names_the_resolved_job_witness :
  forallb (namesJob "app")
    (events (executeJenkins scenario_env 5 scenario_registration scenario_invocation)) = true /\
  forallb (namesJob "app-build")
    (events (executeJenkins scenario_env 5 describing_registration scenario_invocation)) = true.
Proof.
  destruct (every_call_names_the_resolved_job scenario_env 5 scenario_registration
              scenario_invocation) as (_ & H1 & _).
  destruct (every_call_names_the_resolved_job scenario_env 5 describing_registration
              scenario_invocation) as (_ & _ & _ & H2).
  split.
  - apply H1. left. reflexivity.
  - apply (H2 (fun gi => Resolved (name (repo (goalEvent gi)) ++ "-build")) "app-build");
      reflexivity.
Defined.

(** ** The definition resolver *)

(** The calls of the reconciliation when the definition is computed. *)
Lemma createOrUpdateJob_computed env jobName registration f gi :
  definition registration = Some (Computed f) ->
  events (createOrUpdateJob env jobName registration gi) =
    match f gi with
    | Resolved d =>
        JobExists jobName
        :: match job_exists env jobName with
           | Resolved present =>
               (if present then JobConfig jobName d else JobCreate jobName d)
               :: match (if present then job_config env jobName d
                         else job_create env jobName d) with
                  | Resolved _ =>
                      framed ("Updating definition of Jenkins job '" ++ jobName ++ "'")
                  | _ => []
                  end
           | _ => []
           end
    | _ => []
    end.
Proof.
  intros Hdef.
  remember (createOrUpdateJob env jobName registration gi) as r eqn:Hr.
  unfold createOrUpdateJob, progressLog_write in Hr. step Hr.
  rewrite Hdef in Hr. cbn [truthy] in Hr.
  destruct (f gi) as [d|x|]; cbn [await] in Hr; repeat step Hr; try now subst r.
  destruct (job_exists env jobName) as [present|x|]; repeat step Hr; try now subst r.
  destruct present.
  - destruct (job_config env jobName d) as [[]|x|]; repeat step Hr; now subst r.
  - destruct (job_create env jobName d) as [[]|x|]; repeat step Hr; now subst r.
Qed.

Lemma startJob_no_write env fuel jobName parameters gi :
  forallb (fun e => negb (isWrite e)) (events (startJob env fuel jobName parameters gi)) = true.
Proof.
  apply startJob_passes; try reflexivity.
  - now intros [].
  - now intros b [].
Qed.

(** X18.  A definition that is computed is computed late: the resolver
    function is called with the invocation whose goal event already carries
    the description "Jenkins `<job>`", not with the invocation as supplied.
    Every write of the job's definition in an execution names the resolved
    job and carries what the resolver resolved to on that invocation. *)
Theorem definition_resolver_sees_overwritten_description
    env fuel registration gi f jobName document :
  let r := executeJenkins env fuel registration gi in
  definition registration = Some (Computed f) ->
  In (JobConfig jobName document) (events r) \/
  In (JobCreate jobName document) (events r) ->
  outcome (getJobName registration gi) = Returned jobName /\
  f (withDescription ("Jenkins " ++ codeLine jobName) gi) = Resolved document.
Proof.
  intros r Hdef Hin. subst r.
  assert (Hw : exists e, (e = JobConfig jobName document \/
                          e = JobCreate jobName document) /\
                         In e (events (executeJenkins env fuel registration gi))).
  { destruct Hin as [H|H]; eauto. }
  clear Hin. destruct Hw as (e & He & Hin).
  assert (Hwrite : isWrite e = true) by (destruct He as [-> | ->]; reflexivity).
  assert (Hp : In e (events (prepare env registration gi))).
  { destruct (executeJenkins_trace env fuel registration gi) as (Hret & Hthrown & Hpending).
    destruct (outcome (prepare env registration gi)) as [[jn ps]|x|] eqn:Hout.
    - destruct (Hret jn ps eq_refl) as (Hev & _). rewrite Hev in Hin.
      apply in_app_or in Hin. destruct Hin as [Hin|Hin]; [exact Hin|]. exfalso.
      destruct (convergeOnly registration) as [[]|].
      + revert Hin. apply forallb_not_In with (1 := notStarting_Emits jn _).
        destruct e; try discriminate; reflexivity.
      + revert Hin. apply forallb_not_In with (1 := startJob_no_write env fuel jn ps _).
        now rewrite Hwrite.
      + revert Hin. apply forallb_not_In with (1 := startJob_no_write env fuel jn ps _).
        now rewrite Hwrite.
    - destruct (Hthrown x eq_refl) as (Hev & _). now rewrite Hev in Hin.
    - destruct (Hpending eq_refl) as (Hev & _). now rewrite Hev in Hin. }
  destruct (prepare_trace env registration gi) as (Hpev & _). rewrite Hpev in Hp. clear Hpev.
  destruct (if falsy _ then _ else _) as [u|]; [|contradiction].
  destruct (validURL env u); [|contradiction].
  destruct Hp as [Heq|Hp]; [subst e; discriminate|].
  destruct (outcome (getJobName registration gi)) as [jn|x|]; try contradiction.
  destruct (outcome (getParameters registration gi)) as [ps|x|]; try contradiction.
  rewrite (createOrUpdateJob_computed env jn registration _ Hdef) in Hp.
  destruct (f (withDescription ("Jenkins " ++ codeLine jn) gi)) as [d|x|] eqn:Hf;
    [|contradiction|contradiction].
  destruct Hp as [Heq|Hp]; [subst e; discriminate|].
  destruct (job_exists env jn) as [present|x|]; [|contradiction|contradiction].
  destruct Hp as [Heq|Hp].
  - assert (jn = jobName /\ d = document) as (-> & ->).
    { destruct present, He as [-> | ->]; try discriminate; now injection Heq. }
    auto.
  - exfalso. destruct (if present then _ else _); [|contradiction|contradiction].
    revert Hp. apply forallb_not_In with (1 := framed_progress _).
    destruct e; try discriminate; reflexivity.
Qed.

Lemma definition_resolver_sees_overwritten_description_witness :
  outcome (getJobName describing_registration scenario_invocation) = Returned "app-build" /\
  Resolved (description (goalEvent (withDescription ("Jenkins " ++ codeLine "app-build")
                                      scenario_invocation))) =
    Resolved "Jenkins `app-build`".
Proof.
  assert (Hin : In (JobConfig "app-build" "Jenkins `app-build`")
                  (events (executeJenkins scenario_env 5 describing_registration
                             scenario_invocation))).
  { vm_compute. do 2 right. left. reflexivity. }
  exact (@definition_resolver_sees_overwritten_description scenario_env 5
           describing_registration scenario_invocation
           (fun gi => Resolved (description (goalEvent gi)))
           "app-build" "Jenkins `app-build`" eq_refl (or_introl Hin)).
Defined.

(** X19.  The build id an execution follows is never zero: the log stream
    is opened for a number the queue answered with, and the announcement of
    the start prints that number in decimal, never its fallback text. *)
Theorem followed_build_has_a_number env fuel registration gi jobName buildId :
  In (LogStream jobName buildId) (events (executeJenkins env fuel registration gi)) ->
  buildId <> 0%N /\ showId buildId = showN buildId.
Proof.
  intros Hin.
  destruct (executeJenkins_followed_build env fuel registration gi _ Hin eq_refl)
    as (jn & ps & item & polling & _ & Ht & _ & _ & _ & Hf).
  destruct (followBuild_identifies Hf (or_introl eq_refl)) as (-> & ->).
  destruct (triggerJob_returned _ _ _ _ _ Ht) as (_ & _ & _ & _ & _ & _ & _ & Hid & _).
  split; [exact Hid|]. unfold showId.
  destruct (N.eqb_spec (id item) 0); [contradiction | reflexivity].
Qed.

Lemma followed_build_has_a_number_witness :
  7%N <> 0%N /\ showId 7 = showN 7.
Proof.
  apply (@followed_build_has_a_number scenario_env 5 scenario_registration
           scenario_invocation "app" 7%N).
  vm_compute. do 18 right. left. reflexivity.
Defined.

(** ** What the reconciliation writes on the progress log *)

(** X20.  [createOrUpdateJob] announces only what went through.  When it
    returns it has written one framed announcement: "Updating definition of
    Jenkins job '<job>'" if a definition was supplied, whether the job was
    updated or created, and "Not updating definition ... as no definition was
    provided." if none was.  When a resolver or a remote call rejects or
    never answers, it has written nothing.  It leaves the invocation alone. *)
Theorem reconciliation_announces_what_went_through env jobName registration gi :
  let r := createOrUpdateJob env jobName registration gi in
  progressLines (events r) =
    match outcome r with
    | Returned _ =>
        [ "/--";
          match suppliedDefinition registration gi with
          | Some _ => "Updating definition of Jenkins job '" ++ jobName ++ "'"
          | None => "Not updating definition of Jenkins job '" ++ jobName
                    ++ "' as no definition was provided."
          end;
          "\--" ]
    | _ => []
    end /\
  invocation r = gi.
Proof.
  intros r. subst r.
  split; [|apply createOrUpdateJob_Unchanged].
  remember (createOrUpdateJob env jobName registration gi) as r eqn:Hr.
  unfold createOrUpdateJob, progressLog_write in Hr. step Hr.
  unfold suppliedDefinition, truthy in *.
  assert (Hsome : forall p : Remote string,
            r = (definition <- await p ;;
                 exists_ <- call (JobExists jobName) (job_exists env jobName) ;;
                 (if exists_ : bool
                  then call (JobConfig jobName definition)
                         (job_config env jobName definition)
                  else call (JobCreate jobName definition)
                         (job_create env jobName definition)) ;;
                 emit (ProgressWrite "/--") ;;
                 emit (ProgressWrite
                         ("Updating definition of Jenkins job '" ++ jobName ++ "'")) ;;
                 emit (ProgressWrite "\--")) gi ->
            progressLines (events r) =
              match outcome r with
              | Returned _ =>
                  [ "/--"; "Updating definition of Jenkins job '" ++ jobName ++ "'"; "\--" ]
              | _ => []
              end).
  { intros p Hrun. clear Hr.
    destruct p as [d|x|]; cbn [await] in Hrun; repeat step Hrun; try now subst r.
    destruct (job_exists env jobName) as [present|x|]; repeat step Hrun; try now subst r.
    destruct present.
    - destruct (job_config env jobName d) as [[]|x|]; repeat step Hrun; now subst r.
    - destruct (job_create env jobName d) as [[]|x|]; repeat step Hrun; now subst r. }
  destruct (definition registration) as [[s|f]|].
  - destruct (String.eqb s ""); [now subst r|]. apply (Hsome (Resolved s)), Hr.
  - apply (Hsome (f gi)), Hr.
  - now subst r.
Qed.
